(** * Lifecycle orchestrator of the CodeReady Containers VM (pkg/crc/machine)

    A shallow embedding of [machine.go]: every entry point is a function on
    the trace of collaborator calls made so far.  The collaborators
    (libmachine store and driver, SSH runner, systemd commander, cluster
    client, bundle resolver, DNS service) are an [Env.t] record of answers,
    each a function of the history of the interaction, so that a call may
    fail twice and succeed the third time. *)

From Stdlib Require Import String List ZArith Bool Lia Ascii.
Import ListNotations.
Local Open Scope string_scope.
Local Open Scope list_scope.

(** String concatenation, as [+] and the [%s] of a format do it. *)
Infix "+++" := String.append (at level 60, right associativity).

(** ** Errors *)

(** Go's [error] values as the file builds and inspects them. *)
Inductive error : Type :=
| Errorf (format : string) (args : list string)   (* fmt.Errorf / errors.New on strings *)
| Wrapf (format : string) (cause : error)          (* fmt.Errorf("... %v", err) *)
| Described (description : string) (cause : error) (* the xxxError helpers: stage label and cause *)
| RetriableError (Err : error).                    (* &errors.RetriableError{Err: err} *)

(** The type assertion of [err] to a pointer to RetriableError. *)
Definition isRetriable (e : error) : bool :=
  match e with RetriableError _ => true | _ => false end.

(** ** Data model *)

(** Modelled from the spec: libmachine's [state.State] is not part of this
    repository; the enumeration is the one of the data model table. *)
Inductive State := Running | Stopped | Saved | Paused | Error | Timeout | Missing.

Definition State_String (st : State) : string :=
  match st with
  | Running => "Running" | Stopped => "Stopped" | Saved => "Saved"
  | Paused => "Paused" | Error => "Error" | Timeout => "Timeout"
  | Missing => "Missing"
  end.

Definition IsRunning (st : State) : bool :=
  match st with Running => true | _ => false end.

(** Modelled from the spec: [cluster.CertExpiryState] lives in package
    cluster; a probe yields one of valid, expired, check-failed. *)
Inductive CertExpiryState := CertValid | CertExpired | CertCheckFailed.

(** Modelled from the spec: aggregate operator health ([cluster] package). *)
Record OperatorsStatus := {
  Available : bool;
  Degraded : bool;
  Progressing : bool
}.

(** Modelled from the spec: [bundle.CrcBundleInfo], reduced to what the
    getters used by this file return. *)
Record Node := { KernelCmdLine : string }.

Record CrcBundleInfo := {
  BundleName : string;
  OpenshiftVersion : string;      (* GetOpenshiftVersion() *)
  DiskImagePath : string;         (* GetDiskImagePath() *)
  SSHKeyPath : string;            (* GetSSHKeyPath() *)
  InitramfsPath : string;         (* GetInitramfsPath() *)
  KernelPath : string;            (* GetKernelPath() *)
  KubeConfigPath : string;        (* GetKubeConfigPath() *)
  BaseDomain : string;            (* ClusterInfo.BaseDomain *)
  BundleBuildTime : Z + error;    (* GetBundleBuildTime(), nanoseconds *)
  Nodes : list Node
}.

(** Modelled from the spec: [network.ProxyConfig].  "enabled" is true iff
    any proxy URL is set; [AddNoProxy] appends to the exception list. *)
Record ProxyConfig := {
  HTTPProxy : string;
  HTTPSProxy : string;
  noProxy : list string
}.

Definition IsEnabled (p : ProxyConfig) : bool :=
  negb (HTTPProxy p =? "") || negb (HTTPSProxy p =? "").

Definition AddNoProxy (entry : string) (p : ProxyConfig) : ProxyConfig :=
  {| HTTPProxy := HTTPProxy p; HTTPSProxy := HTTPSProxy p;
     noProxy := noProxy p ++ [entry] |}.

Record ClusterConfig := {
  KubeConfig : string;
  KubeAdminPass : string;
  WebConsoleURL : string;
  ClusterAPI : string;
  ProxyConfig_ : option ProxyConfig      (* *network.ProxyConfig *)
}.

Definition ClusterConfig_zero : ClusterConfig :=
  {| KubeConfig := ""; KubeAdminPass := ""; WebConsoleURL := "";
     ClusterAPI := ""; ProxyConfig_ := None |}.

(** [config.MachineConfig], as Start fills it. *)
Record MachineConfig := {
  mcName : string;
  mcBundleName : string;
  mcVMDriver : string;
  mcCPUs : Z;
  mcMemory : Z;
  mcDiskPathURL : string;
  mcSSHKeyPath : string;
  mcKernelCmdLine : string;
  mcInitramfs : string;
  mcKernel : string
}.

(** A loaded [*host.Host]; its driver is reached through the environment. *)
Record Host := { HostName : string }.

(** [*crcssh.Runner]: the driver it talks to and the private key in use. *)
Record Runner := { runnerHost : Host; runnerKey : string }.

Definition SetPrivateKeyPath (path : string) (r : Runner) : Runner :=
  {| runnerHost := runnerHost r; runnerKey := path |}.

Definition CreateRunnerWithPrivateKey (h : Host) (key : string) : Runner :=
  {| runnerHost := h; runnerKey := key |}.

(** [oc.Config] and the systemd commander only wrap the runner. *)
Record OcConfig := { ocRunner : Runner }.
Definition UseOCWithSSH (r : Runner) : OcConfig := {| ocRunner := r |}.

Record SystemdCommander := { sdRunner : Runner }.
Definition NewInstanceSystemdCommander (r : Runner) : SystemdCommander :=
  {| sdRunner := r |}.

Record ServicePostStartConfig := {
  spName : string;
  spDriverName : string;
  spSSHRunner : Runner;
  spIP : string;
  spHostIP : string;
  spBundleMetadata : CrcBundleInfo
}.

(** The entry points' inputs and results. *)
Record StartConfig := {
  Name : string;
  BundlePath : string;
  CPUs : Z;
  Memory : Z;
  NameServer : string;
  Debug : bool
}.

Record StartResult := {
  srName : string;
  srKubeletStarted : bool;
  srClusterConfig : ClusterConfig;
  srStatus : string
}.

Record ClusterStatusResult := {
  csName : string;
  csCrcStatus : string;
  csOpenshiftStatus : string;
  csDiskUse : Z;
  csDiskSize : Z;
  csSuccess : bool
}.

Record DeleteResult := {
  drName : string;
  drSuccess : bool
}.

(** time.Duration, in nanoseconds. *)
Definition time_Second : Z := 1000000000.
Definition time_Minute : Z := 60 * time_Second.

(** ** Collaborator calls

    One constructor per call the file makes on something outside itself; the
    last argument, where there is one, is what the call returned. *)

Inductive Level := LInfo | LDebug | LWarn.

(** What a log call formats into its message. *)
Inductive LogArg := AStr (s : string) | AErr (e : error) | AInt (z : Z).

Module Ev.
Inductive t : Type :=
(* logging and the libmachine client *)
| logging (lvl : Level) (format : string) (args : list LogArg)
| log_SetDebug (b : bool)
| logging_OpenLogFile (path : string) (r : option error)
| log_SetOutWriter
| log_SetErrWriter
| logging_CloseLogFile
| libmachine_NewClient (baseDir certsDir : string)
| client_Close
(* instance record store *)
| api_Exists (name : string) (r : bool * option error)
| api_Load (name : string) (r : Host + error)
| api_Save (h : Host) (r : option error)
| api_Remove (name : string) (r : option error)
| api_NewHost (driver driverPath json : string) (r : Host + error)
| api_Create (h : Host) (r : option error)
(* driver *)
| Driver_GetBundleName (h : Host) (r : string * option error)
| Driver_GetState (h : Host) (r : State + error)
| Driver_Start (h : Host) (r : option error)
| Driver_GetIP (h : Host) (r : string + error)
| Driver_DriverName (h : Host) (r : string)
| Driver_Remove (h : Host) (r : option error)
(* pull secret and bundle *)
| GetPullSecret (r : string + error)
| bundle_GetCachedBundleInfo (bundleName : string) (r : CrcBundleInfo + error)
| bundle_Extract (bundlePath : string) (r : CrcBundleInfo + error)
| CheckDiskImageSize (b : CrcBundleInfo) (r : option error)
| GetKubeadminPassword (b : CrcBundleInfo) (r : string + error)
(* network *)
| network_NewProxyConfig (r : ProxyConfig + error)
| ApplyToEnvironment (p : ProxyConfig)
| network_HasGivenNameserversConfigured (s : Runner) (ns : string) (r : bool + error)
| network_AddNameserversToInstance (s : Runner) (nss : list string) (r : option error)
| network_DetermineHostIP (instanceIP : string) (r : string * option error)
| network_CheckCRCLocalDNSReachableFromHost (b : CrcBundleInfo) (instanceIP : string)
    (r : option error)
(* cluster *)
| cluster_WaitForSSH (s : Runner) (r : option error)
| cluster_CheckCertsValidity (s : Runner) (r : CertExpiryState * option error)
| cluster_RegenerateCertificates (s : Runner) (oc : OcConfig) (r : option error)
| cluster_WaitforRequestHeaderClientCaFile (oc : OcConfig) (r : option error)
| cluster_DeleteOpenshiftAPIServerPods (oc : OcConfig) (r : option error)
| cluster_ApproveNodeCSR (oc : OcConfig) (r : option error)
| cluster_AddProxyConfigToCluster (oc : OcConfig) (p : ProxyConfig) (r : option error)
| cluster_AddProxyToKubeletAndCriO (s : Runner) (p : ProxyConfig) (r : option error)
| cluster_AddPullSecret (s : Runner) (oc : OcConfig) (pullSecret : string) (r : option error)
| cluster_UpdateClusterID (oc : OcConfig) (r : option error)
| cluster_CheckProxySettingsForOperator (oc : OcConfig) (p : ProxyConfig)
    (operator namespace : string) (r : bool + error)
| cluster_GetClusterOperatorsStatus (oc : OcConfig) (r : OperatorsStatus * option error)
| cluster_GetRootPartitionUsage (s : Runner) (r : (Z * Z) + error)
(* DNS service *)
| dns_RunPostStart (c : ServicePostStartConfig) (r : option error)
| dns_CheckCRCLocalDNSReachable (c : ServicePostStartConfig) (r : string * option error)
| dns_CheckCRCPublicDNSReachable (c : ServicePostStartConfig) (r : string * option error)
(* ssh, systemd, files, clock *)
| ssh_GenerateSSHKey (path : string) (r : option error)
| ioutil_ReadFile (path : string) (r : string * option error)
| crcos_CopyFileContents (src dst : string) (r : option error)
| sshRunner_Run (s : Runner) (cmd : string) (r : option error)
| sshRunner_RunPrivate (s : Runner) (cmd : string) (r : option error)
| sd_Start (sd : SystemdCommander) (service : string) (r : option error)
| sd_Restart (sd : SystemdCommander) (service : string) (r : option error)
| sd_IsActive (sd : SystemdCommander) (service : string) (r : bool + error)
| time_Since (buildTime : Z) (r : Z)
| time_Sleep (d : Z).
End Ev.

Definition Event : Type := Ev.t.

(** The calls made so far, oldest first. *)
Definition Trace := list Event.

(** ** The environment

    What each collaborator answers, given the calls made before; and the
    constants and pure library functions the file takes from elsewhere
    (package constants, [DefaultDriver], path/filepath, encoding/json). *)

Module Env.
Record t : Type := {
  (* constants *)
  MachineBaseDir : string;
  MachineCertsDir : string;
  MachineInstanceDir : string;
  LogFilePath : string;
  DefaultWebConsoleURL : string;
  DefaultAPIURL : string;
  GetPrivateKeyPath : string;
  GetPublicKeyPath : string;
  DefaultDriver_Driver : string;
  DefaultDriver_DriverPath : string;
  (* pure functions *)
  filepath_Base : string -> string;
  filepath_ToSlash : string -> string;
  filepath_Join : list string -> string;
  marshalDriverOptions : MachineConfig -> string + error; (* json.Marshal(getDriverOptions(c)) *)
  CreateRunner : Host -> Runner;                          (* crcssh.CreateRunner *)
  (* answers *)
  logging_OpenLogFile : Trace -> string -> option error;
  api_Exists : Trace -> string -> bool * option error;
  api_Load : Trace -> string -> Host + error;
  api_Save : Trace -> Host -> option error;
  api_Remove : Trace -> string -> option error;
  api_NewHost : Trace -> string -> string -> string -> Host + error;
  api_Create : Trace -> Host -> option error;
  Driver_GetBundleName : Trace -> Host -> string * option error;
  Driver_GetState : Trace -> Host -> State + error;
  Driver_Start : Trace -> Host -> option error;
  Driver_GetIP : Trace -> Host -> string + error;
  Driver_DriverName : Trace -> Host -> string;
  Driver_Remove : Trace -> Host -> option error;
  GetPullSecret : Trace -> string + error;
  bundle_GetCachedBundleInfo : Trace -> string -> CrcBundleInfo + error;
  bundle_Extract : Trace -> string -> CrcBundleInfo + error;
  CheckDiskImageSize : Trace -> CrcBundleInfo -> option error;
  GetKubeadminPassword : Trace -> CrcBundleInfo -> string + error;
  network_NewProxyConfig : Trace -> ProxyConfig + error;
  network_HasGivenNameserversConfigured : Trace -> Runner -> string -> bool + error;
  network_AddNameserversToInstance : Trace -> Runner -> list string -> option error;
  network_DetermineHostIP : Trace -> string -> string * option error;
  network_CheckCRCLocalDNSReachableFromHost : Trace -> CrcBundleInfo -> string -> option error;
  cluster_WaitForSSH : Trace -> Runner -> option error;
  cluster_CheckCertsValidity : Trace -> Runner -> CertExpiryState * option error;
  cluster_RegenerateCertificates : Trace -> Runner -> OcConfig -> option error;
  cluster_WaitforRequestHeaderClientCaFile : Trace -> OcConfig -> option error;
  cluster_DeleteOpenshiftAPIServerPods : Trace -> OcConfig -> option error;
  cluster_ApproveNodeCSR : Trace -> OcConfig -> option error;
  cluster_AddProxyConfigToCluster : Trace -> OcConfig -> ProxyConfig -> option error;
  cluster_AddProxyToKubeletAndCriO : Trace -> Runner -> ProxyConfig -> option error;
  cluster_AddPullSecret : Trace -> Runner -> OcConfig -> string -> option error;
  cluster_UpdateClusterID : Trace -> OcConfig -> option error;
  cluster_CheckProxySettingsForOperator :
    Trace -> OcConfig -> ProxyConfig -> string -> string -> bool + error;
  cluster_GetClusterOperatorsStatus : Trace -> OcConfig -> OperatorsStatus * option error;
  cluster_GetRootPartitionUsage : Trace -> Runner -> (Z * Z) + error;
  dns_RunPostStart : Trace -> ServicePostStartConfig -> option error;
  dns_CheckCRCLocalDNSReachable : Trace -> ServicePostStartConfig -> string * option error;
  dns_CheckCRCPublicDNSReachable : Trace -> ServicePostStartConfig -> string * option error;
  ssh_GenerateSSHKey : Trace -> string -> option error;
  ioutil_ReadFile : Trace -> string -> string * option error;
  crcos_CopyFileContents : Trace -> string -> string -> option error;
  sshRunner_Run : Trace -> Runner -> string -> option error;
  sshRunner_RunPrivate : Trace -> Runner -> string -> option error;
  sd_Start : Trace -> SystemdCommander -> string -> option error;
  sd_Restart : Trace -> SystemdCommander -> string -> option error;
  sd_IsActive : Trace -> SystemdCommander -> string -> bool + error;
  time_Since : Trace -> Z -> Z
}.
End Env.

(** ** Control flow

    A statement is run against the history of calls made before it; it
    yields the calls it makes itself and either falls through with a value
    or returns from the enclosing function. *)

Inductive Flow (R A : Type) : Type :=
| Next (a : A)
| Return (r : R).
Arguments Next {R A} a.
Arguments Return {R A} r.

Definition M (R A : Type) : Type := Trace -> list Event * Flow R A.

Definition ret {R A} (a : A) : M R A := fun _ => ([], Next a).

(** [return r] *)
Definition exit {R A} (r : R) : M R A := fun _ => ([], Return r).

Definition bind {R A B} (m : M R A) (k : A -> M R B) : M R B :=
  fun h =>
    match m h with
    | (e1, Next a) => let '(e2, f) := k a (h ++ e1) in (e1 ++ e2, f)
    | (e1, Return r) => (e1, Return r)
    end.

Declare Scope go_scope.
Delimit Scope go_scope with go.
Notation "x <- m ;; k" := (bind m (fun x => k))
  (at level 61, m at next level, right associativity) : go_scope.
Notation "' pat <- m ;; k" := (bind m (fun x => match x with pat => k end))
  (at level 61, pat pattern, m at next level, right associativity) : go_scope.
Notation "m ;; k" := (bind m (fun _ => k))
  (at level 61, right associativity) : go_scope.
Local Open Scope go_scope.

(** A call whose answer is recorded with it. *)
Definition ask {R A} (answer : Trace -> A) (ev : A -> Event) : M R A :=
  fun h => let r := answer h in ([ev r], Next r).

(** A call that answers nothing. *)
Definition emit {R} (ev : Event) : M R unit :=
  fun _ => ([ev], Next tt).

(** A function of the file: from the history at the call to the calls it
    makes and the value it returns. *)
Definition Fn (R : Type) : Type := Trace -> list Event * R.

Definition runFn {R} (body : M R R) : Fn R :=
  fun h =>
    match body h with
    | (e, Next r) => (e, r)
    | (e, Return r) => (e, r)
    end.

Definition call {R R'} (f : Fn R') : M R R' :=
  fun h => let '(e, r) := f h in (e, Next r).

(** [defer d(); rest]: the rest of the body runs to its return value, then
    [d] runs and may overwrite a named result. *)
Definition defer {R} (d : R -> Fn R) (rest : M R R) : M R R :=
  fun h =>
    let '(e1, r) := runFn rest h in
    let '(e2, r') := d r (h ++ e1) in
    (e1 ++ e2, Return r').

(** A run of [Start] ends in a returned pair or in a run-time panic, which
    unwinds through the deferred calls like a return does. *)
Inductive Outcome (R : Type) : Type :=
| Returned (r : R)
| Panicked (msg : string).
Arguments Returned {R} r.
Arguments Panicked {R} msg.

(** ** The program *)

Section Machine.

Variable env : Env.t.

(** *** Collaborator calls as statements *)

Section Calls.
Context {R : Type}.

Definition logging_Info (format : string) (args : list LogArg) : M R unit :=
  emit (Ev.logging LInfo format args).
Definition logging_Debug (format : string) (args : list LogArg) : M R unit :=
  emit (Ev.logging LDebug format args).
Definition logging_Warn (format : string) (args : list LogArg) : M R unit :=
  emit (Ev.logging LWarn format args).

Definition logging_OpenLogFile (path : string) : M R (option error) :=
  ask (fun t => Env.logging_OpenLogFile env t path) (Ev.logging_OpenLogFile path).

Definition api_Exists (name : string) : M R (bool * option error) :=
  ask (fun t => Env.api_Exists env t name) (Ev.api_Exists name).
Definition api_Load (name : string) : M R (Host + error) :=
  ask (fun t => Env.api_Load env t name) (Ev.api_Load name).
Definition api_Save (h : Host) : M R (option error) :=
  ask (fun t => Env.api_Save env t h) (Ev.api_Save h).
Definition api_Remove (name : string) : M R (option error) :=
  ask (fun t => Env.api_Remove env t name) (Ev.api_Remove name).
Definition api_NewHost (driver driverPath json : string) : M R (Host + error) :=
  ask (fun t => Env.api_NewHost env t driver driverPath json)
      (Ev.api_NewHost driver driverPath json).
Definition api_Create (h : Host) : M R (option error) :=
  ask (fun t => Env.api_Create env t h) (Ev.api_Create h).

Definition Driver_GetBundleName (h : Host) : M R (string * option error) :=
  ask (fun t => Env.Driver_GetBundleName env t h) (Ev.Driver_GetBundleName h).
Definition Driver_GetState (h : Host) : M R (State + error) :=
  ask (fun t => Env.Driver_GetState env t h) (Ev.Driver_GetState h).
Definition Driver_Start (h : Host) : M R (option error) :=
  ask (fun t => Env.Driver_Start env t h) (Ev.Driver_Start h).
Definition Driver_GetIP (h : Host) : M R (string + error) :=
  ask (fun t => Env.Driver_GetIP env t h) (Ev.Driver_GetIP h).
Definition Driver_DriverName (h : Host) : M R string :=
  ask (fun t => Env.Driver_DriverName env t h) (Ev.Driver_DriverName h).
Definition Driver_Remove (h : Host) : M R (option error) :=
  ask (fun t => Env.Driver_Remove env t h) (Ev.Driver_Remove h).

Definition GetPullSecret : M R (string + error) :=
  ask (fun t => Env.GetPullSecret env t) Ev.GetPullSecret.
Definition bundle_GetCachedBundleInfo (bundleName : string) : M R (CrcBundleInfo + error) :=
  ask (fun t => Env.bundle_GetCachedBundleInfo env t bundleName)
      (Ev.bundle_GetCachedBundleInfo bundleName).
Definition bundle_Extract (bundlePath : string) : M R (CrcBundleInfo + error) :=
  ask (fun t => Env.bundle_Extract env t bundlePath) (Ev.bundle_Extract bundlePath).
Definition CheckDiskImageSize (b : CrcBundleInfo) : M R (option error) :=
  ask (fun t => Env.CheckDiskImageSize env t b) (Ev.CheckDiskImageSize b).
Definition GetKubeadminPassword (b : CrcBundleInfo) : M R (string + error) :=
  ask (fun t => Env.GetKubeadminPassword env t b) (Ev.GetKubeadminPassword b).

Definition network_NewProxyConfig : M R (ProxyConfig + error) :=
  ask (fun t => Env.network_NewProxyConfig env t) Ev.network_NewProxyConfig.
Definition ApplyToEnvironment (p : ProxyConfig) : M R unit :=
  emit (Ev.ApplyToEnvironment p).
Definition network_HasGivenNameserversConfigured (s : Runner) (ns : string)
  : M R (bool + error) :=
  ask (fun t => Env.network_HasGivenNameserversConfigured env t s ns)
      (Ev.network_HasGivenNameserversConfigured s ns).
Definition network_AddNameserversToInstance (s : Runner) (nss : list string)
  : M R (option error) :=
  ask (fun t => Env.network_AddNameserversToInstance env t s nss)
      (Ev.network_AddNameserversToInstance s nss).
Definition network_DetermineHostIP (instanceIP : string) : M R (string * option error) :=
  ask (fun t => Env.network_DetermineHostIP env t instanceIP)
      (Ev.network_DetermineHostIP instanceIP).
Definition network_CheckCRCLocalDNSReachableFromHost (b : CrcBundleInfo) (ip : string)
  : M R (option error) :=
  ask (fun t => Env.network_CheckCRCLocalDNSReachableFromHost env t b ip)
      (Ev.network_CheckCRCLocalDNSReachableFromHost b ip).

Definition cluster_WaitForSSH (s : Runner) : M R (option error) :=
  ask (fun t => Env.cluster_WaitForSSH env t s) (Ev.cluster_WaitForSSH s).
Definition cluster_CheckCertsValidity (s : Runner) : M R (CertExpiryState * option error) :=
  ask (fun t => Env.cluster_CheckCertsValidity env t s) (Ev.cluster_CheckCertsValidity s).
Definition cluster_RegenerateCertificates (s : Runner) (oc : OcConfig) : M R (option error) :=
  ask (fun t => Env.cluster_RegenerateCertificates env t s oc)
      (Ev.cluster_RegenerateCertificates s oc).
Definition cluster_WaitforRequestHeaderClientCaFile (oc : OcConfig) : M R (option error) :=
  ask (fun t => Env.cluster_WaitforRequestHeaderClientCaFile env t oc)
      (Ev.cluster_WaitforRequestHeaderClientCaFile oc).
Definition cluster_DeleteOpenshiftAPIServerPods (oc : OcConfig) : M R (option error) :=
  ask (fun t => Env.cluster_DeleteOpenshiftAPIServerPods env t oc)
      (Ev.cluster_DeleteOpenshiftAPIServerPods oc).
Definition cluster_ApproveNodeCSR (oc : OcConfig) : M R (option error) :=
  ask (fun t => Env.cluster_ApproveNodeCSR env t oc) (Ev.cluster_ApproveNodeCSR oc).
Definition cluster_AddProxyConfigToCluster (oc : OcConfig) (p : ProxyConfig)
  : M R (option error) :=
  ask (fun t => Env.cluster_AddProxyConfigToCluster env t oc p)
      (Ev.cluster_AddProxyConfigToCluster oc p).
Definition cluster_AddProxyToKubeletAndCriO (s : Runner) (p : ProxyConfig)
  : M R (option error) :=
  ask (fun t => Env.cluster_AddProxyToKubeletAndCriO env t s p)
      (Ev.cluster_AddProxyToKubeletAndCriO s p).
Definition cluster_AddPullSecret (s : Runner) (oc : OcConfig) (pullSecret : string)
  : M R (option error) :=
  ask (fun t => Env.cluster_AddPullSecret env t s oc pullSecret)
      (Ev.cluster_AddPullSecret s oc pullSecret).
Definition cluster_UpdateClusterID (oc : OcConfig) : M R (option error) :=
  ask (fun t => Env.cluster_UpdateClusterID env t oc) (Ev.cluster_UpdateClusterID oc).
Definition cluster_CheckProxySettingsForOperator (oc : OcConfig) (p : ProxyConfig)
    (operator namespace : string) : M R (bool + error) :=
  ask (fun t => Env.cluster_CheckProxySettingsForOperator env t oc p operator namespace)
      (Ev.cluster_CheckProxySettingsForOperator oc p operator namespace).
Definition cluster_GetClusterOperatorsStatus (oc : OcConfig)
  : M R (OperatorsStatus * option error) :=
  ask (fun t => Env.cluster_GetClusterOperatorsStatus env t oc)
      (Ev.cluster_GetClusterOperatorsStatus oc).
Definition cluster_GetRootPartitionUsage (s : Runner) : M R ((Z * Z) + error) :=
  ask (fun t => Env.cluster_GetRootPartitionUsage env t s)
      (Ev.cluster_GetRootPartitionUsage s).

Definition dns_RunPostStart (c : ServicePostStartConfig) : M R (option error) :=
  ask (fun t => Env.dns_RunPostStart env t c) (Ev.dns_RunPostStart c).
Definition dns_CheckCRCLocalDNSReachable (c : ServicePostStartConfig)
  : M R (string * option error) :=
  ask (fun t => Env.dns_CheckCRCLocalDNSReachable env t c)
      (Ev.dns_CheckCRCLocalDNSReachable c).
Definition dns_CheckCRCPublicDNSReachable (c : ServicePostStartConfig)
  : M R (string * option error) :=
  ask (fun t => Env.dns_CheckCRCPublicDNSReachable env t c)
      (Ev.dns_CheckCRCPublicDNSReachable c).

Definition ssh_GenerateSSHKey (path : string) : M R (option error) :=
  ask (fun t => Env.ssh_GenerateSSHKey env t path) (Ev.ssh_GenerateSSHKey path).
Definition ioutil_ReadFile (path : string) : M R (string * option error) :=
  ask (fun t => Env.ioutil_ReadFile env t path) (Ev.ioutil_ReadFile path).
Definition crcos_CopyFileContents (src dst : string) : M R (option error) :=
  ask (fun t => Env.crcos_CopyFileContents env t src dst)
      (Ev.crcos_CopyFileContents src dst).
Definition sshRunner_Run (s : Runner) (cmd : string) : M R (option error) :=
  ask (fun t => Env.sshRunner_Run env t s cmd) (Ev.sshRunner_Run s cmd).
Definition sshRunner_RunPrivate (s : Runner) (cmd : string) : M R (option error) :=
  ask (fun t => Env.sshRunner_RunPrivate env t s cmd) (Ev.sshRunner_RunPrivate s cmd).
Definition sd_Start (sd : SystemdCommander) (service : string) : M R (option error) :=
  ask (fun t => Env.sd_Start env t sd service) (Ev.sd_Start sd service).
Definition sd_Restart (sd : SystemdCommander) (service : string) : M R (option error) :=
  ask (fun t => Env.sd_Restart env t sd service) (Ev.sd_Restart sd service).
Definition sd_IsActive (sd : SystemdCommander) (service : string) : M R (bool + error) :=
  ask (fun t => Env.sd_IsActive env t sd service) (Ev.sd_IsActive sd service).
Definition time_Since (buildTime : Z) : M R Z :=
  ask (fun t => Env.time_Since env t buildTime) (Ev.time_Since buildTime).
Definition time_Sleep (d : Z) : M R unit :=
  emit (Ev.time_Sleep d).

End Calls.


(** *** The result helpers

    Modelled from the spec: [startError], [statusError] and [deleteError] are
    in a file of the package that is not under src; a failing entry point
    reports the instance name, a short stage label and the underlying cause. *)

Definition startError (name description : string) (err : error)
  : Outcome (StartResult * option error) :=
  Returned ({| srName := name; srKubeletStarted := false;
               srClusterConfig := ClusterConfig_zero; srStatus := "" |},
            Some (Described description err)).

Definition statusError (name description : string) (err : error)
  : ClusterStatusResult * option error :=
  ({| csName := name; csCrcStatus := ""; csOpenshiftStatus := "";
      csDiskUse := 0; csDiskSize := 0; csSuccess := false |},
   Some (Described description err)).

Definition deleteError (name description : string) (err : error)
  : DeleteResult * option error :=
  ({| drName := name; drSuccess := false |}, Some (Described description err)).

(** *** Logging set-up and the libmachine client *)

Definition setMachineLogging (logs : bool) : Fn (option error) :=
  runFn (
    (if negb logs then
       emit (Ev.log_SetDebug true) ;;
       err <- logging_OpenLogFile (Env.LogFilePath env) ;;
       match err with
       | Some e => exit (Some e)
       | None => emit Ev.log_SetOutWriter ;; emit Ev.log_SetErrWriter
       end
     else
       emit (Ev.log_SetDebug true)) ;;
    ret None).

Definition unsetMachineLogging : Fn unit :=
  runFn (emit Ev.logging_CloseLogFile).

(** The two closures [createLibMachineClient] hands back. *)
Inductive Cleanup := UnsetLogging | CloseClientAndUnsetLogging.

Definition runCleanup (c : Cleanup) : Fn unit :=
  runFn (
    match c with
    | UnsetLogging => call unsetMachineLogging
    | CloseClientAndUnsetLogging => emit Ev.client_Close ;; call unsetMachineLogging
    end).

(** [defer cleanup()] *)
Definition deferCleanup {R} (c : Cleanup) (r : R) : Fn R :=
  fun h => (fst (runCleanup c h), r).

Definition createLibMachineClient (debug : bool) : Fn (Cleanup * option error) :=
  runFn (
    err <- call (setMachineLogging debug) ;;
    match err with
    | Some e => exit (UnsetLogging, Some e)
    | None =>
        emit (Ev.libmachine_NewClient (Env.MachineBaseDir env) (Env.MachineCertsDir env)) ;;
        ret (CloseClientAndUnsetLogging, None)
    end).

Definition Exists (name : string) : Fn (bool * option error) :=
  runFn (
    '(cleanup, err) <- call (createLibMachineClient false) ;;
    defer (deferCleanup cleanup) (
      match err with
      | Some e => exit (false, Some e)
      | None =>
          '(exists_, err) <- api_Exists name ;;
          match err with
          | Some e => exit (false, Some (Wrapf "Error checking if the host exists: %s" e))
          | None => ret (exists_, None)
          end
      end)).

(** *** Proxy policy and bundle metadata *)

Definition getProxyConfig (baseDomainName : string) : Fn (ProxyConfig + error) :=
  runFn (
    r <- network_NewProxyConfig ;;
    match r with
    | inr e => exit (inr e)
    | inl proxy =>
        let proxy := if IsEnabled proxy
                     then AddNoProxy ("." +++ baseDomainName) proxy
                     else proxy in
        ret (inl proxy)
    end).

Definition getClusterConfig (bundleInfo : CrcBundleInfo) : Fn (ClusterConfig + error) :=
  runFn (
    r <- GetKubeadminPassword bundleInfo ;;
    match r with
    | inr e => exit (inr (Wrapf "Error reading kubeadmin password from bundle %v" e))
    | inl kubeadminPassword =>
        r <- call (getProxyConfig (BaseDomain bundleInfo)) ;;
        match r with
        | inr e => exit (inr e)
        | inl proxyConfig =>
            ret (inl {| KubeConfig := KubeConfigPath bundleInfo;
                        KubeAdminPass := kubeadminPassword;
                        WebConsoleURL := Env.DefaultWebConsoleURL env;
                        ClusterAPI := Env.DefaultAPIURL env;
                        ProxyConfig_ := Some proxyConfig |})
        end
    end).

Definition getCrcBundleInfo (bundlePath : string) : Fn (CrcBundleInfo + error) :=
  runFn (
    let bundleName := Env.filepath_Base env bundlePath in
    r <- bundle_GetCachedBundleInfo bundleName ;;
    match r with
    | inl bundleInfo =>
        logging_Info "Loading bundle: %s ..." [AStr bundleName] ;;
        exit (inl bundleInfo)
    | inr _ =>
        logging_Info "Extracting bundle: %s ..." [AStr bundleName] ;;
        bundle_Extract bundlePath
    end).

Definition getBundleMetadataFromDriver (h : Host)
  : Fn ((string * CrcBundleInfo) + error) :=
  runFn (
    '(bundleName, err) <- Driver_GetBundleName h ;;
    if (bundleName =? "") || (match err with Some _ => true | None => false end) then
      exit (inr (Errorf "Error getting bundle name from CodeReady Containers instance, make sure you ran 'crc setup' and are using the latest bundle" []))
    else
      r <- bundle_GetCachedBundleInfo bundleName ;;
      match r with
      | inr e => exit (inr e)
      | inl metadata => ret (inl (bundleName, metadata))
      end).

Definition createHost (driverPath : string) (machineConfig : MachineConfig)
  : Fn (Host + error) :=
  runFn (
    match Env.marshalDriverOptions env machineConfig with
    | inr _ => exit (inr (Errorf "Failed to marshal driver options" []))
    | inl jsonDriverConfig =>
        r <- api_NewHost (mcVMDriver machineConfig) driverPath jsonDriverConfig ;;
        match r with
        | inr e => exit (inr (Wrapf "Error creating new host: %s" e))
        | inl vm =>
            err <- api_Create vm ;;
            match err with
            | Some e => exit (inr (Wrapf "Error creating the VM: %s" e))
            | None => ret (inl vm)
            end
        end
    end).

(** *** Steps over SSH *)

Definition addNameServerToInstance (sshRunner : Runner) (ns : string)
  : Fn (option error) :=
  runFn (
    let nameserver := ns in
    let nameservers := [nameserver] in
    r <- network_HasGivenNameserversConfigured sshRunner nameserver ;;
    match r with
    | inr e => exit (Some e)
    | inl exist_ =>
        if negb exist_ then
          logging_Info "Adding %s as nameserver to the instance ..." [AStr nameserver] ;;
          network_AddNameserversToInstance sshRunner nameservers
        else ret None
    end).

(** The runner is shared with the caller: the new key path is seen there. *)
Definition updateSSHKeyPair (sshRunner : Runner) : Fn (Runner * option error) :=
  runFn (
    err <- ssh_GenerateSSHKey (Env.GetPrivateKeyPath env) ;;
    match err with
    | Some e => exit (sshRunner, Some (Wrapf "Error generating ssh key pair: %v" e))
    | None =>
        '(publicKey, err) <- ioutil_ReadFile (Env.GetPublicKeyPath env) ;;
        match err with
        | Some e => exit (sshRunner, Some e)
        | None =>
            let cmd := "echo '" +++ publicKey +++ "' > /home/core/.ssh/authorized_keys" in
            err <- sshRunner_Run sshRunner cmd ;;
            match err with
            | Some e => exit (sshRunner, Some e)
            | None =>
                let sshRunner := SetPrivateKeyPath (Env.GetPrivateKeyPath env) sshRunner in
                ret (sshRunner, err)
            end
        end
    end).

(** *** The retry primitive *)

(** A closure handed to the retry primitive: [C] is what it captures and
    assigns. *)
Definition Action (C : Type) : Type := C -> Fn (C * option error).

(** Modelled from the spec: [errors.RetryAfter] is in package errors, which
    is not under src.  It invokes the action up to [maxAttempts] times,
    sleeping the interval between attempts; an error tagged retriable asks
    for another attempt, any other error is returned at once, and when the
    attempts are exhausted the last retriable error is returned. *)
Fixpoint retryLoop {C} (attempts : nat) (action : Action C) (interval : Z)
    (c : C) : Fn (C * option error) :=
  match attempts with
  | O => runFn (ret (c, None))
  | S more =>
      runFn (
        '(c1, err) <- call (action c) ;;
        match err with
        | None => exit (c1, None)
        | Some e =>
            if isRetriable e then
              match more with
              | O => exit (c1, Some e)
              | S _ =>
                  time_Sleep interval ;;
                  call (retryLoop more action interval c1)
              end
            else exit (c1, Some e)
        end)
  end.

Definition retryAfter {C} (maxAttempts : Z) (action : Action C) (interval : Z)
  : C -> Fn (C * option error) :=
  retryLoop (Z.to_nat maxAttempts) action interval.

(** *** First-boot cluster configuration *)

(** The deferred closure of [configProxyForCluster]: it restarts crio and
    kubelet and overwrites the named result [err] when a restart fails. *)
Definition restartServices (sd : SystemdCommander)
    (r : ProxyConfig * option error) : Fn (ProxyConfig * option error) :=
  runFn (
    let '(proxy, err) := r in
    if IsEnabled proxy then
      ferr <- sd_Restart sd "crio" ;;
      let err := match ferr with Some e => Some e | None => err end in
      ferr <- sd_Restart sd "kubelet" ;;
      let err := match ferr with Some e => Some e | None => err end in
      ret (proxy, err)
    else ret (proxy, err)).

(** The proxy is shared with the caller: the result carries it as the
    function leaves it. *)
Definition configProxyForCluster (ocConfig : OcConfig) (sshRunner : Runner)
    (sd : SystemdCommander) (proxy : ProxyConfig) (instanceIP : string)
  : Fn (ProxyConfig * option error) :=
  runFn (
    if negb (IsEnabled proxy) then exit (proxy, None)
    else
    defer (restartServices sd) (
      logging_Info "Adding proxy configuration to the cluster ..." [] ;;
      let proxy := AddNoProxy instanceIP proxy in
      err <- cluster_AddProxyConfigToCluster ocConfig proxy ;;
      match err with
      | Some e => exit (proxy, Some e)
      | None =>
          logging_Info "Adding proxy configuration to kubelet and crio service ..." [] ;;
          err <- cluster_AddProxyToKubeletAndCriO sshRunner proxy ;;
          match err with
          | Some e => exit (proxy, Some e)
          | None => ret (proxy, None)
          end
      end)).

Definition configureCluster (ocConfig : OcConfig) (sshRunner : Runner)
    (proxyConfig : ProxyConfig) (pullSecret instanceIP : string)
  : Fn (ProxyConfig * option error) :=
  runFn (
    let sd := NewInstanceSystemdCommander sshRunner in
    '(proxyConfig, err) <-
       call (configProxyForCluster ocConfig sshRunner sd proxyConfig instanceIP) ;;
    match err with
    | Some e => exit (proxyConfig, Some (Wrapf "Failed to configure proxy for cluster: %v" e))
    | None =>
        logging_Info "Adding user's pull secret ..." [] ;;
        err <- cluster_AddPullSecret sshRunner ocConfig pullSecret ;;
        match err with
        | Some e =>
            exit (proxyConfig,
                  Some (Wrapf "Failed to update user pull secret or cluster ID: %v" e))
        | None =>
            logging_Info "Updating cluster ID ..." [] ;;
            err <- cluster_UpdateClusterID ocConfig ;;
            match err with
            | Some e => exit (proxyConfig, Some (Wrapf "Failed to update cluster ID: %v" e))
            | None => ret (proxyConfig, None)
            end
        end
    end).

(** *** Proxy propagation *)

Definition checkProxySettingsForOperator (ocConfig : OcConfig)
    (proxyConfig : ProxyConfig) : Action unit :=
  fun _ => runFn (
    r <- cluster_CheckProxySettingsForOperator ocConfig proxyConfig
           "redhat-operators" "openshift-marketplace" ;;
    match r with
    | inr e =>
        logging_Debug "Error getting proxy setting for openshift-marketplace operator %v"
          [AErr e] ;;
        exit (tt, Some (RetriableError e))
    | inl proxySet =>
        if negb proxySet then
          logging_Debug "Proxy changes for cluster in progress" [] ;;
          exit (tt, Some (RetriableError (Errorf "" [])))
        else ret (tt, None)
    end).

Definition waitForProxyPropagation (ocConfig : OcConfig) (proxyConfig : ProxyConfig)
  : Fn unit :=
  runFn (
    '(_, err) <- call (retryAfter 60 (checkProxySettingsForOperator ocConfig proxyConfig)
                         (2 * time_Second) tt) ;;
    match err with
    | Some _ => logging_Debug "Failed to propagate proxy settings to cluster" []
    | None => ret tt
    end).

(** *** Delete *)

Definition Delete (name : string) : Fn (DeleteResult * option error) :=
  runFn (
    '(cleanup, err) <- call (createLibMachineClient false) ;;
    defer (deferCleanup cleanup) (
      match err with
      | Some e => exit (deleteError name "Cannot initialize libmachine" e)
      | None =>
          r <- api_Load name ;;
          match r with
          | inr e => exit (deleteError name "Cannot load machine" e)
          | inl host =>
              err <- Driver_Remove host ;;
              match err with
              | Some e => exit (deleteError name "Driver cannot remove machine" e)
              | None =>
                  err <- api_Remove name ;;
                  match err with
                  | Some e => exit (deleteError name "Cannot remove machine" e)
                  | None => ret ({| drName := name; drSuccess := true |}, None)
                  end
              end
          end
      end)).

(** *** Status *)

(** The [switch] on the operator flags; no case leaves the status as it is. *)
Definition operatorsStatusString (operatorsStatus : OperatorsStatus)
    (crcBundleMetadata : CrcBundleInfo) (openshiftStatus : string) : string :=
  if Available operatorsStatus then
    let openshiftVersion :=
      if negb (OpenshiftVersion crcBundleMetadata =? "")
      then OpenshiftVersion crcBundleMetadata else "4.x" in
    "Running (v" +++ openshiftVersion +++ ")"
  else if Degraded operatorsStatus then "Degraded"
  else if Progressing operatorsStatus then "Starting"
  else openshiftStatus.

Definition Status (name : string) : Fn (ClusterStatusResult * option error) :=
  runFn (
    '(cleanup, err) <- call (createLibMachineClient false) ;;
    defer (deferCleanup cleanup) (
      match err with
      | Some e => exit (statusError name "Cannot initialize libmachine" e)
      | None =>
      '(_, err) <- api_Exists name ;;
      match err with
      | Some e => exit (statusError name "Cannot check if machine exists" e)
      | None =>
      let openshiftStatus := "Stopped" in
      let diskUse := 0%Z in
      let diskSize := 0%Z in
      r <- api_Load name ;;
      match r with
      | inr e => exit (statusError name "Cannot load machine" e)
      | inl host =>
      r <- Driver_GetState host ;;
      match r with
      | inr e => exit (statusError name "Cannot get machine state" e)
      | inl vmStatus =>
      '(openshiftStatus, diskSize, diskUse) <-
        (if IsRunning vmStatus then
           r <- call (getBundleMetadataFromDriver host) ;;
           match r with
           | inr e => exit (statusError name "Error loading bundle metadata" e)
           | inl (_, crcBundleMetadata) =>
           r <- call (getProxyConfig (BaseDomain crcBundleMetadata)) ;;
           match r with
           | inr e => exit (statusError name "Error getting proxy configuration" e)
           | inl proxyConfig =>
           ApplyToEnvironment proxyConfig ;;
           let sshRunner := Env.CreateRunner env host in
           let ocConfig := UseOCWithSSH sshRunner in
           '(operatorsStatus, err) <- cluster_GetClusterOperatorsStatus ocConfig ;;
           openshiftStatus <-
             match err with
             | Some e => logging_Debug "%s" [AErr e] ;; ret "Not Reachable"
             | None => ret openshiftStatus
             end ;;
           let openshiftStatus :=
             operatorsStatusString operatorsStatus crcBundleMetadata openshiftStatus in
           r <- cluster_GetRootPartitionUsage sshRunner ;;
           match r with
           | inr e => exit (statusError name "Cannot get root partition usage" e)
           | inl (diskSize, diskUse) => ret (openshiftStatus, diskSize, diskUse)
           end
           end
           end
         else ret (openshiftStatus, diskSize, diskUse)) ;;
      ret ({| csName := name;
              csCrcStatus := State_String vmStatus;
              csOpenshiftStatus := openshiftStatus;
              csDiskUse := diskUse;
              csDiskSize := diskSize;
              csSuccess := true |}, None)
      end
      end
      end
      end)).

(** *** Start *)

Section StartSteps.

Variable startConfig : StartConfig.

(** What a [return] of Start carries. *)
Definition StartReturn : Type := Outcome (StartResult * option error).

(** The creation branch of the existence test: the instance is not
    recorded.  Yields [crcBundleMetadata], [privateKeyPath], [pullSecret]. *)
Definition startNewVM : M StartReturn (CrcBundleInfo * string * string) :=
  let driverInfo_Driver := Env.DefaultDriver_Driver env in
  let driverInfo_DriverPath := Env.DefaultDriver_DriverPath env in
  r <- GetPullSecret ;;
  match r with
  | inr e => exit (startError (Name startConfig) "Failed to get pull secret" e)
  | inl pullSecret =>
  r <- call (getCrcBundleInfo (BundlePath startConfig)) ;;
  match r with
  | inr e => exit (startError (Name startConfig) "Error getting bundle metadata" e)
  | inl crcBundleMetadata =>
  logging_Info "Checking size of the disk image %s ..."
    [AStr (DiskImagePath crcBundleMetadata)] ;;
  err <- CheckDiskImageSize crcBundleMetadata ;;
  match err with
  | Some e =>
      exit (startError (Name startConfig)
              ("Invalid bundle disk image '" +++ DiskImagePath crcBundleMetadata +++ "'") e)
  | None =>
  let openshiftVersion := OpenshiftVersion crcBundleMetadata in
  (if openshiftVersion =? "" then logging_Info "Creating VM..." []
   else logging_Info "Creating CodeReady Containers VM for OpenShift %s..."
          [AStr openshiftVersion]) ;;
  let diskPath := DiskImagePath crcBundleMetadata in
  match Nodes crcBundleMetadata with
  | [] => exit (Panicked "index out of range [0] with length 0")
  | node0 :: _ =>
  let machineConfig :=
    {| mcName := Name startConfig;
       mcBundleName := Env.filepath_Base env (BundlePath startConfig);
       mcVMDriver := driverInfo_Driver;
       mcCPUs := CPUs startConfig;
       mcMemory := Memory startConfig;
       mcDiskPathURL := "file://" +++ Env.filepath_ToSlash env diskPath;
       mcSSHKeyPath := SSHKeyPath crcBundleMetadata;
       mcKernelCmdLine := KernelCmdLine node0;
       mcInitramfs := InitramfsPath crcBundleMetadata;
       mcKernel := KernelPath crcBundleMetadata |} in
  r <- call (createHost driverInfo_DriverPath machineConfig) ;;
  match r with
  | inr e => exit (startError (Name startConfig) "Error creating machine" e)
  | inl _ =>
  let privateKeyPath := SSHKeyPath crcBundleMetadata in
  ret (crcBundleMetadata, privateKeyPath, pullSecret)
  end
  end
  end
  end
  end.

(** The other branch: the instance is recorded.  Yields
    [crcBundleMetadata] and [privateKeyPath]. *)
Definition startExistingVM : M StartReturn (CrcBundleInfo * string) :=
  r <- api_Load (Name startConfig) ;;
  match r with
  | inr e => exit (startError (Name startConfig) "Error loading machine" e)
  | inl host =>
  r <- call (getBundleMetadataFromDriver host) ;;
  match r with
  | inr e => exit (startError (Name startConfig) "Error loading bundle metadata" e)
  | inl (bundleName, crcBundleMetadata) =>
  if negb (bundleName =? Env.filepath_Base env (BundlePath startConfig)) then
    logging_Debug "Bundle '%s' was requested, but the existing VM is using '%s'"
      [AStr (Env.filepath_Base env (BundlePath startConfig)); AStr bundleName] ;;
    exit (startError (Name startConfig) "Invalid bundle"
            (Errorf "Bundle '%s' was requested, but the existing VM is using '%s'"
               [Env.filepath_Base env (BundlePath startConfig); bundleName]))
  else
  r <- Driver_GetState host ;;
  match r with
  | inr e => exit (startError (Name startConfig) "Error getting the machine state" e)
  | inl vmState =>
  if IsRunning vmState then
    let openshiftVersion := OpenshiftVersion crcBundleMetadata in
    (if openshiftVersion =? ""
     then logging_Info "A CodeReady Containers VM is already running" []
     else logging_Info "A CodeReady Containers VM for OpenShift %s is already running"
            [AStr openshiftVersion]) ;;
    exit (Returned ({| srName := Name startConfig;
                       srKubeletStarted := false;
                       srClusterConfig := ClusterConfig_zero;
                       srStatus := State_String vmState |}, None))
  else
  let openshiftVersion := OpenshiftVersion crcBundleMetadata in
  (if openshiftVersion =? ""
   then logging_Info "Starting CodeReady Containers VM ..." []
   else logging_Info "Starting CodeReady Containers VM for OpenShift %s..."
          [AStr openshiftVersion]) ;;
  err <- Driver_Start host ;;
  match err with
  | Some e => exit (startError (Name startConfig) "Error starting stopped VM" e)
  | None =>
  err <- api_Save host ;;
  match err with
  | Some e => exit (startError (Name startConfig) "Error saving state for VM" e)
  | None =>
  let privateKeyPath := Env.GetPrivateKeyPath env in
  ret (crcBundleMetadata, privateKeyPath)
  end
  end
  end
  end
  end.

(** Pre-VM start: the error of [Exists] is assigned and never read. *)
Definition preVMStart : M StartReturn (bool * CrcBundleInfo * string * string) :=
  '(exists_, _) <- call (Exists (Name startConfig)) ;;
  if negb exists_ then
    '(crcBundleMetadata, privateKeyPath, pullSecret) <- startNewVM ;;
    ret (exists_, crcBundleMetadata, privateKeyPath, pullSecret)
  else
    '(crcBundleMetadata, privateKeyPath) <- startExistingVM ;;
    ret (exists_, crcBundleMetadata, privateKeyPath, "").

(** Cluster configuration, reload of the instance, SSH reachability. *)
Definition connectToVM (crcBundleMetadata : CrcBundleInfo) (privateKeyPath : string)
  : M StartReturn (ClusterConfig * Host * State * Runner) :=
  r <- call (getClusterConfig crcBundleMetadata) ;;
  match r with
  | inr e => exit (startError (Name startConfig) "Cannot create cluster configuration" e)
  | inl clusterConfig =>
  (* Post-VM start *)
  r <- api_Load (Name startConfig) ;;
  match r with
  | inr e =>
      exit (startError (Name startConfig) ("Error loading " +++ Name startConfig +++ " vm") e)
  | inl host =>
  r <- Driver_GetState host ;;
  match r with
  | inr e => exit (startError (Name startConfig) "Error getting the state" e)
  | inl vmState =>
  let sshRunner := CreateRunnerWithPrivateKey host privateKeyPath in
  logging_Debug "Waiting until ssh is available" [] ;;
  err <- cluster_WaitForSSH sshRunner ;;
  match err with
  | Some e =>
      exit (startError (Name startConfig)
              "Failed to connect to the CRC VM with SSH -- host might be unreachable" e)
  | None =>
  logging_Info "CodeReady Containers VM is running" [] ;;
  ret (clusterConfig, host, vmState, sshRunner)
  end
  end
  end
  end.

(** Check the certs validity inside the vm.  Yields [needsCertsRenewal]. *)
Definition checkCertsValidity (sshRunner : Runner) : M StartReturn bool :=
  let needsCertsRenewal := false in
  logging_Info "Verifying validity of the cluster certificates ..." [] ;;
  '(certExpiryState, err) <- cluster_CheckCertsValidity sshRunner ;;
  match err with
  | Some e =>
      match certExpiryState with
      | CertExpired => ret true
      | _ => exit (startError (Name startConfig) "Failed to check certificate validity" e)
      end
  | None => ret needsCertsRenewal
  end.

(** Add nameserver to VM if provided by User. *)
Definition addNameServer (sshRunner : Runner) : M StartReturn unit :=
  if negb (NameServer startConfig =? "") then
    err <- call (addNameServerToInstance sshRunner (NameServer startConfig)) ;;
    match err with
    | Some e => exit (startError (Name startConfig) "Failed to add nameserver to the VM" e)
    | None => ret tt
    end
  else ret tt.

(** The closure [determineHostIP]; it assigns the captured [hostIP]. *)
Definition determineHostIP (instanceIP : string) : Action string :=
  fun _ => runFn (
    '(hostIP, err) <- network_DetermineHostIP instanceIP ;;
    match err with
    | Some e =>
        logging_Debug "Error finding host IP (%v) - retrying" [AErr e] ;;
        exit (hostIP, Some (RetriableError e))
    | None => ret (hostIP, None)
    end).

(** Instance IP and host IP.  Yields [instanceIP] and [hostIP]. *)
Definition determineIPs (host : Host) : M StartReturn (string * string) :=
  r <- Driver_GetIP host ;;
  match r with
  | inr e => exit (startError (Name startConfig) "Error getting the IP" e)
  | inl instanceIP =>
  '(hostIP, err) <- call (retryAfter 30 (determineHostIP instanceIP) (2 * time_Second) "") ;;
  match err with
  | Some e => exit (startError (Name startConfig) "Error determining host IP" e)
  | None => ret (instanceIP, hostIP)
  end
  end.

(** Proxy policy, the DNS server inside the VM, and the DNS checks.  Yields
    [proxyConfig]. *)
Definition dnsBringUp (crcBundleMetadata : CrcBundleInfo) (host : Host)
    (sshRunner : Runner) (instanceIP hostIP : string) : M StartReturn ProxyConfig :=
  r <- call (getProxyConfig (BaseDomain crcBundleMetadata)) ;;
  match r with
  | inr e => exit (startError (Name startConfig) "Error getting proxy configuration" e)
  | inl proxyConfig =>
  ApplyToEnvironment proxyConfig ;;
  driverName <- Driver_DriverName host ;;
  let servicePostStartConfig :=
    {| spName := Name startConfig;
       spDriverName := driverName;
       spSSHRunner := sshRunner;
       spIP := instanceIP;
       spHostIP := hostIP;
       spBundleMetadata := crcBundleMetadata |} in
  (* Run the DNS server inside the VM *)
  err <- dns_RunPostStart servicePostStartConfig ;;
  match err with
  | Some e => exit (startError (Name startConfig) "Error running post start" e)
  | None =>
  (* Check DNS lookup before starting the kubelet *)
  '(queryOutput, err) <- dns_CheckCRCLocalDNSReachable servicePostStartConfig ;;
  match err with
  | Some e =>
      exit (startError (Name startConfig) ("Failed internal DNS query: " +++ queryOutput) e)
  | None =>
  logging_Info "Check internal and public DNS query ..." [] ;;
  '(queryOutput, err) <- dns_CheckCRCPublicDNSReachable servicePostStartConfig ;;
  match err with
  | Some e =>
      logging_Warn "Failed public DNS query from the cluster: %v : %s" [AErr e; AStr queryOutput]
  | None => ret tt
  end ;;
  (* Check DNS lookup from host to VM *)
  logging_Info "Check DNS query from host ..." [] ;;
  err <- network_CheckCRCLocalDNSReachableFromHost crcBundleMetadata instanceIP ;;
  match err with
  | Some e => exit (startError (Name startConfig) "Failed to query DNS from host" e)
  | None => ret proxyConfig
  end
  end
  end
  end.

(** Additional steps to perform after newly created VM is up.  Yields the
    runner, which [updateSSHKeyPair] modifies. *)
Definition firstBootSteps (exists_ : bool) (crcBundleMetadata : CrcBundleInfo)
    (sshRunner : Runner) : M StartReturn Runner :=
  if negb exists_ then
    logging_Info "Generating new SSH key" [] ;;
    '(sshRunner, err) <- call (updateSSHKeyPair sshRunner) ;;
    match err with
    | Some e => exit (startError (Name startConfig) "Error updating public key" e)
    | None =>
    logging_Info "Copying kubeconfig file to instance dir ..." [] ;;
    let kubeConfigFilePath :=
      Env.filepath_Join env [Env.MachineInstanceDir env; Name startConfig; "kubeconfig"] in
    err <- crcos_CopyFileContents (KubeConfigPath crcBundleMetadata) kubeConfigFilePath ;;
    match err with
    | Some e => exit (startError (Name startConfig) "Error copying kubeconfig file" e)
    | None =>
    (* Copy kubeconfig file inside the VM *)
    '(kubeconfigContent, _) <- ioutil_ReadFile kubeConfigFilePath ;;
    err <- sshRunner_RunPrivate sshRunner
             ("cat <<EOF | sudo tee /opt/kubeconfig" +++ String "010" kubeconfigContent
              +++ String "010" "EOF") ;;
    match err with
    | Some e => exit (startError (Name startConfig) "Error copying kubeconfig file in VM" e)
    | None => ret sshRunner
    end
    end
    end
  else ret sshRunner.

(** 30 days, as the age test of the renewal failure path reads it.  The
    source computes the age in float64 days; the test and the truncation
    are taken here on the exact quotient, and feed a debug message only. *)
Definition bundleAgeDays (since : Z) : Z := since / (24 * 60 * time_Minute).

(** Renewal of expired certificates. *)
Definition renewCertificates (needsCertsRenewal : bool)
    (crcBundleMetadata : CrcBundleInfo) (sshRunner : Runner) (ocConfig : OcConfig)
  : M StartReturn unit :=
  if needsCertsRenewal then
    logging_Info
      "Cluster TLS certificates have expired, renewing them... [will take up to 5 minutes]" [] ;;
    err <- cluster_RegenerateCertificates sshRunner ocConfig ;;
    match err with
    | Some e =>
        logging_Debug "Failed to renew TLS certificates: %v" [AErr e] ;;
        match BundleBuildTime crcBundleMetadata with
        | inl buildTime =>
            since <- time_Since buildTime ;;
            if (30 <=? bundleAgeDays since)%Z then
              (* Initial bundle certificates are only valid for 30 days *)
              logging_Debug "Bundle has been generated %d days ago" [AInt (bundleAgeDays since)]
            else ret tt
        | inr _ => ret tt
        end ;;
        exit (startError (Name startConfig)
                "Failed to renew TLS certificates: please check if a newer CodeReady Containers release is available" e)
    | None => ret tt
    end
  else ret tt.

(** Kubelet activation and, on first boot, cluster configuration.  Yields
    the proxy configuration, which [configureCluster] modifies. *)
Definition startKubelet (exists_ : bool) (ocConfig : OcConfig) (sshRunner : Runner)
    (proxyConfig : ProxyConfig) (pullSecret instanceIP : string)
  : M StartReturn ProxyConfig :=
  logging_Info "Starting OpenShift kubelet service" [] ;;
  let sd := NewInstanceSystemdCommander sshRunner in
  err <- sd_Start sd "kubelet" ;;
  match err with
  | Some e => exit (startError (Name startConfig) "Error starting kubelet" e)
  | None =>
  if negb exists_ then
    logging_Info "Configuring cluster for first start" [] ;;
    '(proxyConfig, err) <-
       call (configureCluster ocConfig sshRunner proxyConfig pullSecret instanceIP) ;;
    match err with
    | Some e => exit (startError (Name startConfig) "Error Setting cluster config" e)
    | None => ret proxyConfig
    end
  else ret proxyConfig
  end.

(** Check if kubelet service is running inside the VM, and the work-around
    for the client-ca request header.  Yields [kubeletStarted]. *)
Definition confirmKubelet (ocConfig : OcConfig) (sshRunner : Runner)
  : M StartReturn bool :=
  let sd := NewInstanceSystemdCommander sshRunner in
  r <- sd_IsActive sd "kubelet" ;;
  match r with
  | inr e => exit (startError (Name startConfig) "kubelet service is not running" e)
  | inl kubeletStarted =>
  (if kubeletStarted then
     logging_Debug "Waiting for update of client-ca request header ..." [] ;;
     err <- cluster_WaitforRequestHeaderClientCaFile ocConfig ;;
     match err with
     | Some e =>
         exit (startError (Name startConfig)
                 "Failed to wait for the client-ca request header update" e)
     | None =>
     err <- cluster_DeleteOpenshiftAPIServerPods ocConfig ;;
     match err with
     | Some e =>
         exit (startError (Name startConfig) "Cannot delete OpenShift API Server pods" e)
     | None => logging_Info "Starting OpenShift cluster ... [waiting 3m]" []
     end
     end
   else ret tt) ;;
  ret kubeletStarted
  end.

(** The settle delay, the node certificate and the proxy propagation. *)
Definition settleAndApprove (ocConfig : OcConfig) (proxyConfig : ProxyConfig)
  : M StartReturn unit :=
  time_Sleep (time_Minute * 3) ;;
  (* Approve the node certificate. *)
  err <- cluster_ApproveNodeCSR ocConfig ;;
  match err with
  | Some e => exit (startError (Name startConfig) "Error approving the node csr" e)
  | None =>
  if IsEnabled proxyConfig then
    logging_Info "Waiting for the proxy configuration to be applied ..." [] ;;
    call (waitForProxyPropagation ocConfig proxyConfig)
  else ret tt
  end.

(** If no error, return usage message. *)
Definition usageMessage (clusterConfig : ClusterConfig) : M StartReturn unit :=
  logging_Info "" [] ;;
  logging_Info
    "To access the cluster, first set up your environment by following 'crc oc-env' instructions" [] ;;
  logging_Info "Then you can access it by running 'oc login -u developer -p developer %s'"
    [AStr (ClusterAPI clusterConfig)] ;;
  logging_Info "To login as an admin, run 'oc login -u kubeadmin -p %s %s'"
    [AStr (KubeAdminPass clusterConfig); AStr (ClusterAPI clusterConfig)] ;;
  logging_Info "" [] ;;
  logging_Info
    "You can now run 'crc console' and use these credentials to access the OpenShift web console" [].

(** The body of Start once the libmachine client is there.  The error
    returned at the end is the one of [sd.IsActive], nil on this path. *)
Definition startBody : M StartReturn StartReturn :=
  '(exists_, crcBundleMetadata, privateKeyPath, pullSecret) <- preVMStart ;;
  '(clusterConfig, host, vmState, sshRunner) <-
     connectToVM crcBundleMetadata privateKeyPath ;;
  needsCertsRenewal <- checkCertsValidity sshRunner ;;
  addNameServer sshRunner ;;
  '(instanceIP, hostIP) <- determineIPs host ;;
  proxyConfig <- dnsBringUp crcBundleMetadata host sshRunner instanceIP hostIP ;;
  sshRunner <- firstBootSteps exists_ crcBundleMetadata sshRunner ;;
  let ocConfig := UseOCWithSSH sshRunner in
  renewCertificates needsCertsRenewal crcBundleMetadata sshRunner ocConfig ;;
  proxyConfig <- startKubelet exists_ ocConfig sshRunner proxyConfig pullSecret instanceIP ;;
  kubeletStarted <- confirmKubelet ocConfig sshRunner ;;
  settleAndApprove ocConfig proxyConfig ;;
  usageMessage clusterConfig ;;
  ret (Returned ({| srName := Name startConfig;
                    srKubeletStarted := kubeletStarted;
                    srClusterConfig := clusterConfig;
                    srStatus := State_String vmState |}, None)).

Definition Start : Fn StartReturn :=
  runFn (
    '(cleanup, err) <- call (createLibMachineClient (Debug startConfig)) ;;
    defer (deferCleanup cleanup) (
      match err with
      | Some e => exit (startError (Name startConfig) "Cannot initialize libmachine" e)
      | None => startBody
      end)).

End StartSteps.

(** *** IP, proxy and console queries *)

(** Modelled from the spec: the configurations and results of [IP] and
    [GetConsoleURL], and the helpers [ipError] and [consoleURLError], are in
    a file of the package that is not under src.  A result carries a
    [Success] flag and either its fields or an error; [crState] is [None]
    for the zero value of [state.State], which is none of the driver's
    states. *)
Record IPConfig := {
  ipName : string;
  ipDebug : bool
}.

Record IPResult := {
  irName : string;
  irIP : string;
  irSuccess : bool
}.

Record ConsoleResult := {
  crClusterConfig : ClusterConfig;
  crState : option State;
  crSuccess : bool
}.

Definition ipError (name description : string) (err : error)
  : IPResult * option error :=
  ({| irName := name; irIP := ""; irSuccess := false |}, Some (Described description err)).

Definition consoleURLError (description : string) (err : error)
  : ConsoleResult * option error :=
  ({| crClusterConfig := ClusterConfig_zero; crState := None; crSuccess := false |},
   Some (Described description err)).

(** The logging is set up before the client is created, which sets it up
    again; nothing is deferred before the first set-up has succeeded. *)
Definition IP (ipConfig : IPConfig) : Fn (IPResult * option error) :=
  runFn (
    err <- call (setMachineLogging (ipDebug ipConfig)) ;;
    match err with
    | Some e => exit (ipError (ipName ipConfig) "Cannot initialize logging" e)
    | None =>
    '(cleanup, err) <- call (createLibMachineClient (ipDebug ipConfig)) ;;
    defer (deferCleanup cleanup) (
      match err with
      | Some e => exit (ipError (ipName ipConfig) "Cannot initialize libmachine" e)
      | None =>
      r <- api_Load (ipName ipConfig) ;;
      match r with
      | inr e => exit (ipError (ipName ipConfig) "Cannot load machine" e)
      | inl host =>
      r <- Driver_GetIP host ;;
      match r with
      | inr e => exit (ipError (ipName ipConfig) "Cannot get IP" e)
      | inl ip =>
          ret ({| irName := ipName ipConfig; irIP := ip; irSuccess := true |}, None)
      end
      end
      end)
    end).

(** Return proxy config if VM is present.  [errors.New(err.Error())] and
    [errors.Newf] build an error from the message of the cause. *)
Definition GetProxyConfig (machineName : string) : Fn (option ProxyConfig + error) :=
  runFn (
    '(cleanup, err) <- call (createLibMachineClient false) ;;
    defer (deferCleanup cleanup) (
      match err with
      | Some e => exit (inr e)
      | None =>
      r <- api_Load machineName ;;
      match r with
      | inr e => exit (inr (Wrapf "%s" e))
      | inl host =>
      r <- call (getBundleMetadataFromDriver host) ;;
      match r with
      | inr e => exit (inr (Wrapf "Error loading bundle metadata: %v" e))
      | inl (_, crcBundleMetadata) =>
      r <- call (getClusterConfig crcBundleMetadata) ;;
      match r with
      | inr e => exit (inr (Wrapf "Error loading cluster configuration: %v" e))
      | inl clusterConfig => ret (inl (ProxyConfig_ clusterConfig))
      end
      end
      end
      end)).

(** Return console URL if the VM is present. *)
Definition GetConsoleURL (name : string) : Fn (ConsoleResult * option error) :=
  runFn (
    '(cleanup, err) <- call (createLibMachineClient false) ;;
    defer (deferCleanup cleanup) (
      match err with
      | Some e => exit (consoleURLError "Cannot initialize libmachine" e)
      | None =>
      r <- api_Load name ;;
      match r with
      | inr e => exit (consoleURLError "Cannot load machine" e)
      | inl host =>
      r <- Driver_GetState host ;;
      match r with
      | inr e => exit (consoleURLError "Error getting the state for host" e)
      | inl vmState =>
      r <- call (getBundleMetadataFromDriver host) ;;
      match r with
      | inr e => exit (consoleURLError "Error loading bundle metadata" e)
      | inl (_, crcBundleMetadata) =>
      r <- call (getClusterConfig crcBundleMetadata) ;;
      match r with
      | inr e => exit (consoleURLError "Error loading cluster configuration" e)
      | inl clusterConfig =>
          ret ({| crClusterConfig := clusterConfig;
                  crState := Some vmState;
                  crSuccess := true |}, None)
      end
      end
      end
      end
      end)).

End Machine.

(** The value a body returns, however it leaves. *)
Definition flowValue {R} (f : Flow R R) : R :=
  match f with Next r => r | Return r => r end.

(** ** Vocabulary of the statements *)

(** The attempts of the retry primitive, as the spec words them: [k]
    invocations of the action, each but the last answered by an error tagged
    retriable and followed by one sleep of the interval; the result is the
    answer of the last invocation. *)
Inductive Attempts {C} (action : Action C) (interval : Z)
  : nat -> C -> Trace -> list Event -> C * option error -> Prop :=
| Attempts_last c h :
    Attempts action interval 1 c h (fst (action c h)) (snd (action c h))
| Attempts_again k c h c1 e evs res :
    snd (action c h) = (c1, Some e) ->
    isRetriable e = true ->
    Attempts action interval k c1
      ((h ++ fst (action c h)) ++ [Ev.time_Sleep interval]) evs res ->
    Attempts action interval (S k) c h
      (fst (action c h) ++ Ev.time_Sleep interval :: evs) res.

(** The time slept in a list of calls. *)
Fixpoint totalSleep (evs : list Event) : Z :=
  match evs with
  | [] => 0
  | Ev.time_Sleep d :: rest => d + totalSleep rest
  | _ :: rest => totalSleep rest
  end.

Definition countEv (P : Event -> bool) (evs : list Event) : nat :=
  length (filter P evs).

Definition isDetermineHostIP (ev : Event) : bool :=
  match ev with Ev.network_DetermineHostIP _ _ => true | _ => false end.

Definition isCheckProxySettings (ev : Event) : bool :=
  match ev with
  | Ev.cluster_CheckProxySettingsForOperator _ _ _ _ _ => true
  | _ => false
  end.

Definition isSleep (ev : Event) : bool :=
  match ev with Ev.time_Sleep _ => true | _ => false end.

(** [Only P f]: every call [f] makes satisfies [P], whatever the history. *)
Definition Only {X} (P : Event -> bool) (f : Trace -> list Event * X) : Prop :=
  forall h, forallb P (fst (f h)) = true.

(** [Guard bad m]: whenever [m] makes a call that [bad] maps to a return
    value, [m] returns that value. *)
Definition Guard {R A} (bad : Event -> option R) (m : M R A) : Prop :=
  forall h ev r, In ev (fst (m h)) -> bad ev = Some r -> snd (m h) = Return r.

Definition harmless {R} (bad : Event -> option R) (ev : Event) : bool :=
  match bad ev with None => true | Some _ => false end.

(** The calls of logging set-up, client creation and clean-up. *)
Definition isClientEvent (ev : Event) : bool :=
  match ev with
  | Ev.log_SetDebug _ | Ev.logging_OpenLogFile _ _ | Ev.log_SetOutWriter
  | Ev.log_SetErrWriter | Ev.logging_CloseLogFile | Ev.libmachine_NewClient _ _
  | Ev.client_Close => true
  | _ => false
  end.

(** The steps of [startBody], and for the calls that only one step makes,
    which one. *)
Inductive Phase :=
| PhPreVM | PhConnect | PhCerts | PhNameServer | PhIPs | PhDNS | PhFirstBoot
| PhRenew | PhKubelet | PhConfirm | PhSettle | PhUsage.

Definition Phase_eqb (p q : Phase) : bool :=
  match p, q with
  | PhPreVM, PhPreVM | PhConnect, PhConnect | PhCerts, PhCerts
  | PhNameServer, PhNameServer | PhIPs, PhIPs | PhDNS, PhDNS
  | PhFirstBoot, PhFirstBoot | PhRenew, PhRenew | PhKubelet, PhKubelet
  | PhConfirm, PhConfirm | PhSettle, PhSettle | PhUsage, PhUsage => true
  | _, _ => false
  end.

Definition phaseOf (ev : Event) : option Phase :=
  match ev with
  | Ev.api_Exists _ _ | Ev.api_Save _ _ | Ev.api_NewHost _ _ _ _ | Ev.api_Create _ _
  | Ev.Driver_GetBundleName _ _ | Ev.Driver_Start _ _ | Ev.GetPullSecret _
  | Ev.bundle_GetCachedBundleInfo _ _ | Ev.bundle_Extract _ _
  | Ev.CheckDiskImageSize _ _ => Some PhPreVM
  | Ev.GetKubeadminPassword _ _ | Ev.cluster_WaitForSSH _ _ => Some PhConnect
  | Ev.cluster_CheckCertsValidity _ _ => Some PhCerts
  | Ev.network_HasGivenNameserversConfigured _ _ _
  | Ev.network_AddNameserversToInstance _ _ _ => Some PhNameServer
  | Ev.Driver_GetIP _ _ | Ev.network_DetermineHostIP _ _ => Some PhIPs
  | Ev.ApplyToEnvironment _ | Ev.Driver_DriverName _ _ | Ev.dns_RunPostStart _ _
  | Ev.dns_CheckCRCLocalDNSReachable _ _ | Ev.dns_CheckCRCPublicDNSReachable _ _
  | Ev.network_CheckCRCLocalDNSReachableFromHost _ _ _ => Some PhDNS
  | Ev.ssh_GenerateSSHKey _ _ | Ev.ioutil_ReadFile _ _ | Ev.crcos_CopyFileContents _ _ _
  | Ev.sshRunner_Run _ _ _ | Ev.sshRunner_RunPrivate _ _ _ => Some PhFirstBoot
  | Ev.cluster_RegenerateCertificates _ _ _ | Ev.time_Since _ _ => Some PhRenew
  | Ev.sd_Start _ _ _ | Ev.sd_Restart _ _ _ | Ev.cluster_AddProxyConfigToCluster _ _ _
  | Ev.cluster_AddProxyToKubeletAndCriO _ _ _ | Ev.cluster_AddPullSecret _ _ _ _
  | Ev.cluster_UpdateClusterID _ _ => Some PhKubelet
  | Ev.sd_IsActive _ _ _ | Ev.cluster_WaitforRequestHeaderClientCaFile _ _
  | Ev.cluster_DeleteOpenshiftAPIServerPods _ _ => Some PhConfirm
  | Ev.cluster_ApproveNodeCSR _ _
  | Ev.cluster_CheckProxySettingsForOperator _ _ _ _ _ => Some PhSettle
  | _ => None
  end.

Definition inPhase (p : Phase) (ev : Event) : bool :=
  match phaseOf ev with
  | None => true
  | Some q => Phase_eqb p q
  end.

(** A block of consecutive calls inside a list of calls, and one call
    somewhere before another. *)
Definition Infix (block evs : list Event) : Prop :=
  exists l1 l2, evs = l1 ++ block ++ l2.

Definition Before (a b : Event) (evs : list Event) : Prop :=
  exists l1 l2 l3, evs = l1 ++ a :: l2 ++ b :: l3.






(** Facts about an environment that hold throughout a call: the log file
    can be opened; the instance [name] is recorded and loads as [host]; the
    driver of [host] records the bundle [bundleName], whose metadata is
    cached; the driver reports the state [st]. *)
Definition logFileOpens (env : Env.t) : Prop :=
  forall t, Env.logging_OpenLogFile env t (Env.LogFilePath env) = None.

Definition recorded (env : Env.t) (name : string) (host : Host) : Prop :=
  (forall t, Env.api_Exists env t name = (true, None)) /\
  (forall t, Env.api_Load env t name = inl host).

Definition createdFrom (env : Env.t) (host : Host) (bundleName : string)
    (meta : CrcBundleInfo) : Prop :=
  (bundleName =? "") = false /\
  (forall t, Env.Driver_GetBundleName env t host = (bundleName, None)) /\
  (forall t, Env.bundle_GetCachedBundleInfo env t bundleName = inl meta).

Definition vmStateIs (env : Env.t) (host : Host) (st : State) : Prop :=
  forall t, Env.Driver_GetState env t host = inl st.

(** The calls that change the VM or its record. *)
Definition mutatesVM (ev : Event) : bool :=
  match ev with
  | Ev.Driver_Start _ _ | Ev.Driver_Remove _ _ | Ev.api_Save _ _
  | Ev.api_Remove _ _ | Ev.api_NewHost _ _ _ _ | Ev.api_Create _ _ => true
  | _ => false
  end.

(** The calls of the existence test and of the inspection of a recorded
    instance: logging, the libmachine client, and reads of the store, of the
    driver and of the bundle cache. *)
Definition inspectsOnly (ev : Event) : bool :=
  match ev with
  | Ev.logging _ _ _ | Ev.log_SetDebug _ | Ev.logging_OpenLogFile _ _
  | Ev.log_SetOutWriter | Ev.log_SetErrWriter | Ev.logging_CloseLogFile
  | Ev.libmachine_NewClient _ _ | Ev.client_Close
  | Ev.api_Exists _ _ | Ev.api_Load _ _ | Ev.Driver_GetBundleName _ _
  | Ev.bundle_GetCachedBundleInfo _ _ | Ev.Driver_GetState _ _ => true
  | _ => false
  end.


(** The calls that are neither an attempt of one of the two retried
    actions nor a sleep. *)
Definition outsideRetry (ev : Event) : bool :=
  negb (isDetermineHostIP ev || isCheckProxySettings ev || isSleep ev).

(** What the inspection of a recorded instance learns from its driver: the
    first answer about the state, and the first answer about the bundle
    name, when nothing but inspections comes before it in the run. *)
Fixpoint inspectedState (evs : list Event) : option (Host * (State + error)) :=
  match evs with
  | [] => None
  | Ev.Driver_GetState host r :: _ => Some (host, r)
  | ev :: rest => if inspectsOnly ev then inspectedState rest else None
  end.

Fixpoint inspectedBundle (evs : list Event) : option (Host * (string * option error)) :=
  match evs with
  | [] => None
  | Ev.Driver_GetBundleName host r :: _ => Some (host, r)
  | ev :: rest => if inspectsOnly ev then inspectedBundle rest else None
  end.

(** What Start returns for an instance that already runs, and for a bundle
    other than the one of the instance. *)
Definition alreadyRunning (cfg : StartConfig) : StartReturn :=
  Returned ({| srName := Name cfg; srKubeletStarted := false;
               srClusterConfig := ClusterConfig_zero;
               srStatus := "Running" |}, None).

Definition invalidBundle (env : Env.t) (cfg : StartConfig) (bundleName : string)
  : StartReturn :=
  startError (Name cfg) "Invalid bundle"
    (Errorf "Bundle '%s' was requested, but the existing VM is using '%s'"
       [Env.filepath_Base env (BundlePath cfg); bundleName]).

(** The metadata of the bundle [bundleName] could not be loaded in the run
    [evs], and Start returned [r] for it. *)
Definition metadataFailure (cfg : StartConfig) (bundleName : string)
    (evs : list Event) (r : StartReturn) : Prop :=
  (exists e, r = startError (Name cfg) "Error loading bundle metadata" e) /\
  forall meta, ~ In (Ev.bundle_GetCachedBundleInfo bundleName (inl meta)) evs.

(** ** Sample environments

    Concrete collaborators on which the statements can be run: everything
    succeeds except what a scenario says. *)

Module Sample.

(** The last element of a slash-separated path, as path/filepath.Base
    computes it on a POSIX host. *)
Fixpoint dropSlashes (l : list ascii) : list ascii :=
  match l with
  | "/"%char :: rest => dropSlashes rest
  | _ => l
  end.

Fixpoint takeElement (l : list ascii) : list ascii :=
  match l with
  | [] => []
  | "/"%char :: _ => []
  | c :: rest => c :: takeElement rest
  end.

Definition Base (path : string) : string :=
  match list_ascii_of_string path with
  | [] => "."
  | chars =>
      match takeElement (dropSlashes (rev chars)) with
      | [] => "/"
      | element => string_of_list_ascii (rev element)
      end
  end.

Definition bundle : CrcBundleInfo :=
  {| BundleName := "crc_hyperkit_4.6.crcbundle";
     OpenshiftVersion := "4.6";
     DiskImagePath := "/cache/crc.qcow2";
     SSHKeyPath := "/cache/id_rsa_crc";
     InitramfsPath := "/cache/initramfs";
     KernelPath := "/cache/vmlinuz";
     KubeConfigPath := "/cache/kubeconfig";
     BaseDomain := "crc.testing";
     BundleBuildTime := inl 0%Z;
     Nodes := [{| KernelCmdLine := "console=ttyS0" |}] |}.

Definition host : Host := {| HostName := "crc" |}.

Definition noProxyConfig : ProxyConfig :=
  {| HTTPProxy := ""; HTTPSProxy := ""; noProxy := ["127.0.0.1"] |}.

Definition corporateProxy : ProxyConfig :=
  {| HTTPProxy := "http://proxy.example:3128"; HTTPSProxy := "";
     noProxy := ["127.0.0.1"] |}.

Definition boom : error := Errorf "boom" [].

(** What may go differently from one scenario to the next.  With
    [OperatorsUnknown] the operator-status query fails; it then hands back
    a status with no flag set, or with [StaleOperatorsStatus] one with the
    flag Available set. *)
Inductive Deviation :=
| InstanceRecorded | ExistenceTestFails | OtherBundleRecorded | VMStopped
| CertificatesExpired | ProbeFails | RenewalFails
| InternalDNSFails | PublicDNSFails | HostDNSFails
| ProxyConfigured | PushToClusterFails
| OperatorsUnknown | StaleOperatorsStatus | DiskUsageFails | DriverRemoveFails
| HostIPNeverFound.

Definition Deviation_eqb (a b : Deviation) : bool :=
  match a, b with
  | InstanceRecorded, InstanceRecorded
  | ExistenceTestFails, ExistenceTestFails
  | OtherBundleRecorded, OtherBundleRecorded
  | VMStopped, VMStopped
  | CertificatesExpired, CertificatesExpired
  | ProbeFails, ProbeFails
  | RenewalFails, RenewalFails
  | InternalDNSFails, InternalDNSFails
  | PublicDNSFails, PublicDNSFails
  | HostDNSFails, HostDNSFails
  | ProxyConfigured, ProxyConfigured
  | PushToClusterFails, PushToClusterFails
  | OperatorsUnknown, OperatorsUnknown
  | StaleOperatorsStatus, StaleOperatorsStatus
  | DiskUsageFails, DiskUsageFails
  | DriverRemoveFails, DriverRemoveFails
  | HostIPNeverFound, HostIPNeverFound => true
  | _, _ => false
  end.

Definition Scenario : Type := list Deviation.

Definition has (d : Deviation) (sc : Scenario) : bool :=
  existsb (Deviation_eqb d) sc.

Definition failsWhen (d : Deviation) (sc : Scenario) : option error :=
  if has d sc then Some boom else None.

Definition noFlag : OperatorsStatus :=
  {| Available := false; Degraded := false; Progressing := false |}.

Definition available : OperatorsStatus :=
  {| Available := true; Degraded := false; Progressing := false |}.

Definition env (sc : Scenario) : Env.t :=
  {| Env.MachineBaseDir := "/home/u/.crc";
     Env.MachineCertsDir := "/home/u/.crc/certs";
     Env.MachineInstanceDir := "/home/u/.crc/machines";
     Env.LogFilePath := "/home/u/.crc/crc.log";
     Env.DefaultWebConsoleURL := "https://console-openshift-console.apps-crc.testing";
     Env.DefaultAPIURL := "https://api.crc.testing:6443";
     Env.GetPrivateKeyPath := "/home/u/.crc/machines/crc/id_rsa";
     Env.GetPublicKeyPath := "/home/u/.crc/machines/crc/id_rsa.pub";
     Env.DefaultDriver_Driver := "hyperkit";
     Env.DefaultDriver_DriverPath := "/home/u/.crc/bin";
     Env.filepath_Base := Base;
     Env.filepath_ToSlash := fun p => p;
     Env.filepath_Join := fun parts => String.concat "/" parts;
     Env.marshalDriverOptions := fun c => inl (mcName c);
     Env.CreateRunner := fun h => CreateRunnerWithPrivateKey h "/home/u/.crc/machines/crc/id_rsa";
     Env.logging_OpenLogFile := fun _ _ => None;
     Env.api_Exists := fun _ _ =>
       if has ExistenceTestFails sc then (false, Some boom)
       else (has InstanceRecorded sc, None);
     Env.api_Load := fun _ _ => inl host;
     Env.api_Save := fun _ _ => None;
     Env.api_Remove := fun _ _ => None;
     Env.api_NewHost := fun _ _ _ _ => inl host;
     Env.api_Create := fun _ _ => None;
     Env.Driver_GetBundleName := fun _ _ =>
       (if has OtherBundleRecorded sc then "crc_hyperkit_4.5.crcbundle"
        else BundleName bundle, None);
     Env.Driver_GetState := fun _ _ => inl (if has VMStopped sc then Stopped else Running);
     Env.Driver_Start := fun _ _ => None;
     Env.Driver_GetIP := fun _ _ => inl "192.168.64.2";
     Env.Driver_DriverName := fun _ _ => "hyperkit";
     Env.Driver_Remove := fun _ _ => failsWhen DriverRemoveFails sc;
     Env.GetPullSecret := fun _ => inl "pull-secret";
     Env.bundle_GetCachedBundleInfo := fun _ _ => inl bundle;
     Env.bundle_Extract := fun _ _ => inl bundle;
     Env.CheckDiskImageSize := fun _ _ => None;
     Env.GetKubeadminPassword := fun _ _ => inl "kubeadmin-password";
     Env.network_NewProxyConfig := fun _ =>
       inl (if has ProxyConfigured sc then corporateProxy else noProxyConfig);
     Env.network_HasGivenNameserversConfigured := fun _ _ _ => inl false;
     Env.network_AddNameserversToInstance := fun _ _ _ => None;
     Env.network_DetermineHostIP := fun t _ =>
       if has HostIPNeverFound sc || Nat.ltb (countEv isDetermineHostIP t) 2
       then ("", Some (Errorf "no route to host" []))
       else ("192.168.64.1", None);
     Env.network_CheckCRCLocalDNSReachableFromHost := fun _ _ _ => failsWhen HostDNSFails sc;
     Env.cluster_WaitForSSH := fun _ _ => None;
     Env.cluster_CheckCertsValidity := fun _ _ =>
       if has CertificatesExpired sc then (CertExpired, Some boom)
       else if has ProbeFails sc then (CertCheckFailed, Some boom)
       else (CertValid, None);
     Env.cluster_RegenerateCertificates := fun _ _ _ => failsWhen RenewalFails sc;
     Env.cluster_WaitforRequestHeaderClientCaFile := fun _ _ => None;
     Env.cluster_DeleteOpenshiftAPIServerPods := fun _ _ => None;
     Env.cluster_ApproveNodeCSR := fun _ _ => None;
     Env.cluster_AddProxyConfigToCluster := fun _ _ _ => failsWhen PushToClusterFails sc;
     Env.cluster_AddProxyToKubeletAndCriO := fun _ _ _ => None;
     Env.cluster_AddPullSecret := fun _ _ _ _ => None;
     Env.cluster_UpdateClusterID := fun _ _ => None;
     Env.cluster_CheckProxySettingsForOperator := fun t _ _ _ _ =>
       inl (Nat.ltb 2 (countEv isCheckProxySettings t));
     Env.cluster_GetClusterOperatorsStatus := fun _ _ =>
       if has OperatorsUnknown sc
       then (if has StaleOperatorsStatus sc then available else noFlag, Some boom)
       else (available, None);
     Env.cluster_GetRootPartitionUsage := fun _ _ =>
       if has DiskUsageFails sc then inr boom
       else inl (32000000000, 9000000000)%Z;
     Env.dns_RunPostStart := fun _ _ => None;
     Env.dns_CheckCRCLocalDNSReachable := fun _ _ =>
       if has InternalDNSFails sc then ("SERVFAIL", Some boom) else ("", None);
     Env.dns_CheckCRCPublicDNSReachable := fun _ _ =>
       if has PublicDNSFails sc then ("timed out", Some boom) else ("", None);
     Env.ssh_GenerateSSHKey := fun _ _ => None;
     Env.ioutil_ReadFile := fun _ _ => ("contents", None);
     Env.crcos_CopyFileContents := fun _ _ _ => None;
     Env.sshRunner_Run := fun _ _ _ => None;
     Env.sshRunner_RunPrivate := fun _ _ _ => None;
     Env.sd_Start := fun _ _ _ => None;
     Env.sd_Restart := fun _ _ _ => None;
     Env.sd_IsActive := fun _ _ _ => inl true;
     Env.time_Since := fun _ _ => (40 * 24 * 60 * time_Minute)%Z |}.

Definition startConfig : StartConfig :=
  {| Name := "crc";
     BundlePath := "/home/u/Downloads/crc_hyperkit_4.6.crcbundle";
     CPUs := 4;
     Memory := 9216;
     NameServer := "";
     Debug := false |}.

End Sample.

(** ** Vocabulary of the further properties *)

(** [Exits P m]: every value that [m] returns early satisfies [P]. *)
Definition Exits {R A} (P : R -> Prop) (m : M R A) : Prop :=
  forall h r, snd (m h) = Return r -> P r.

(** A return of Start that carries an error, or a panic. *)
Definition failed (r : Outcome (StartResult * option error)) : Prop :=
  match r with
  | Returned (_, None) => False
  | _ => True
  end.

(** The calls of Start whose failure ends it at once, with what Start then
    returns: the stage label and the cause. *)
Definition fatalCall (cfg : StartConfig) (ev : Event)
  : option (Outcome (StartResult * option error)) :=
  match ev with
  | Ev.GetPullSecret (inr e) =>
      Some (startError (Name cfg) "Failed to get pull secret" e)
  | Ev.bundle_Extract _ (inr e) =>
      Some (startError (Name cfg) "Error getting bundle metadata" e)
  | Ev.CheckDiskImageSize b (Some e) =>
      Some (startError (Name cfg)
              ("Invalid bundle disk image '" +++ DiskImagePath b +++ "'") e)
  | Ev.api_NewHost _ _ _ (inr e) =>
      Some (startError (Name cfg) "Error creating machine"
              (Wrapf "Error creating new host: %s" e))
  | Ev.api_Create _ (Some e) =>
      Some (startError (Name cfg) "Error creating machine"
              (Wrapf "Error creating the VM: %s" e))
  | Ev.Driver_Start _ (Some e) =>
      Some (startError (Name cfg) "Error starting stopped VM" e)
  | Ev.api_Save _ (Some e) =>
      Some (startError (Name cfg) "Error saving state for VM" e)
  | Ev.GetKubeadminPassword _ (inr e) =>
      Some (startError (Name cfg) "Cannot create cluster configuration"
              (Wrapf "Error reading kubeadmin password from bundle %v" e))
  | Ev.cluster_WaitForSSH _ (Some e) =>
      Some (startError (Name cfg)
              "Failed to connect to the CRC VM with SSH -- host might be unreachable" e)
  | Ev.network_HasGivenNameserversConfigured _ _ (inr e)
  | Ev.network_AddNameserversToInstance _ _ (Some e) =>
      Some (startError (Name cfg) "Failed to add nameserver to the VM" e)
  | Ev.Driver_GetIP _ (inr e) =>
      Some (startError (Name cfg) "Error getting the IP" e)
  | Ev.dns_RunPostStart _ (Some e) =>
      Some (startError (Name cfg) "Error running post start" e)
  | Ev.ssh_GenerateSSHKey _ (Some e) =>
      Some (startError (Name cfg) "Error updating public key"
              (Wrapf "Error generating ssh key pair: %v" e))
  | Ev.sshRunner_Run _ _ (Some e) =>
      Some (startError (Name cfg) "Error updating public key" e)
  | Ev.crcos_CopyFileContents _ _ (Some e) =>
      Some (startError (Name cfg) "Error copying kubeconfig file" e)
  | Ev.sshRunner_RunPrivate _ _ (Some e) =>
      Some (startError (Name cfg) "Error copying kubeconfig file in VM" e)
  | Ev.sd_Start _ _ (Some e) =>
      Some (startError (Name cfg) "Error starting kubelet" e)
  | Ev.cluster_AddPullSecret _ _ _ (Some e) =>
      Some (startError (Name cfg) "Error Setting cluster config"
              (Wrapf "Failed to update user pull secret or cluster ID: %v" e))
  | Ev.cluster_UpdateClusterID _ (Some e) =>
      Some (startError (Name cfg) "Error Setting cluster config"
              (Wrapf "Failed to update cluster ID: %v" e))
  | Ev.sd_IsActive _ _ (inr e) =>
      Some (startError (Name cfg) "kubelet service is not running" e)
  | Ev.cluster_WaitforRequestHeaderClientCaFile _ (Some e) =>
      Some (startError (Name cfg)
              "Failed to wait for the client-ca request header update" e)
  | Ev.cluster_DeleteOpenshiftAPIServerPods _ (Some e) =>
      Some (startError (Name cfg) "Cannot delete OpenShift API Server pods" e)
  | Ev.cluster_ApproveNodeCSR _ (Some e) =>
      Some (startError (Name cfg) "Error approving the node csr" e)
  | _ => None
  end.

(** The machine configuration Start builds for a new instance from its
    configuration and the metadata of the bundle. *)
Definition machineConfigOf (env : Env.t) (cfg : StartConfig) (meta : CrcBundleInfo)
    (node0 : Node) : MachineConfig :=
  {| mcName := Name cfg;
     mcBundleName := Env.filepath_Base env (BundlePath cfg);
     mcVMDriver := Env.DefaultDriver_Driver env;
     mcCPUs := CPUs cfg;
     mcMemory := Memory cfg;
     mcDiskPathURL := "file://" +++ Env.filepath_ToSlash env (DiskImagePath meta);
     mcSSHKeyPath := SSHKeyPath meta;
     mcKernelCmdLine := KernelCmdLine node0;
     mcInitramfs := InitramfsPath meta;
     mcKernel := KernelPath meta |}.

(** The calls of the creation branch of Start, and those of the restart of
    a recorded instance. *)
Definition creationCall (ev : Event) : bool :=
  match ev with
  | Ev.GetPullSecret _ | Ev.bundle_Extract _ _ | Ev.CheckDiskImageSize _ _
  | Ev.api_NewHost _ _ _ _ | Ev.api_Create _ _ => true
  | _ => false
  end.

Definition restartCall (ev : Event) : bool :=
  match ev with
  | Ev.Driver_GetBundleName _ _ | Ev.Driver_Start _ _ | Ev.api_Save _ _ => true
  | _ => false
  end.

(** The calls of the first-boot provisioning and of the first-boot cluster
    configuration. *)
Definition firstBootCall (ev : Event) : bool :=
  match ev with
  | Ev.ssh_GenerateSSHKey _ _ | Ev.ioutil_ReadFile _ _ | Ev.crcos_CopyFileContents _ _ _
  | Ev.sshRunner_Run _ _ _ | Ev.sshRunner_RunPrivate _ _ _
  | Ev.cluster_AddProxyConfigToCluster _ _ _ | Ev.cluster_AddProxyToKubeletAndCriO _ _ _
  | Ev.sd_Restart _ _ _ | Ev.cluster_AddPullSecret _ _ _ _
  | Ev.cluster_UpdateClusterID _ _ => true
  | _ => false
  end.

(** The calls of the queries: logging, the libmachine client, reads of the
    store, of the driver, of the bundle cache and of the bundle, the proxy
    settings of the host and two reads of the cluster. *)
Definition queryCall (ev : Event) : bool :=
  match ev with
  | Ev.logging _ _ _ | Ev.log_SetDebug _ | Ev.logging_OpenLogFile _ _
  | Ev.log_SetOutWriter | Ev.log_SetErrWriter | Ev.logging_CloseLogFile
  | Ev.libmachine_NewClient _ _ | Ev.client_Close
  | Ev.api_Exists _ _ | Ev.api_Load _ _ | Ev.Driver_GetState _ _ | Ev.Driver_GetIP _ _
  | Ev.Driver_GetBundleName _ _ | Ev.bundle_GetCachedBundleInfo _ _
  | Ev.GetKubeadminPassword _ _ | Ev.network_NewProxyConfig _ | Ev.ApplyToEnvironment _
  | Ev.cluster_GetClusterOperatorsStatus _ _ | Ev.cluster_GetRootPartitionUsage _ _ => true
  | _ => false
  end.

(** The proxy settings as [getProxyConfig] hands them on for a base
    domain. *)
Definition proxyFor (baseDomain : string) (proxy : ProxyConfig) : ProxyConfig :=
  if IsEnabled proxy then AddNoProxy ("." +++ baseDomain) proxy else proxy.

(** The creation and the closing of a libmachine client. *)
Definition isNewClient (ev : Event) : bool :=
  match ev with Ev.libmachine_NewClient _ _ => true | _ => false end.

Definition isClientClose (ev : Event) : bool :=
  match ev with Ev.client_Close => true | _ => false end.


Definition noClientCall (ev : Event) : bool :=
  negb (isNewClient ev) && negb (isClientClose ev).

(** A list of calls in which as many clients are closed as created, which
    ends with the closing of the log file, and which closes a client just
    before that when it has created one. *)
Definition ClosesItsClient (evs : list Event) : Prop :=
  countEv isNewClient evs = countEv isClientClose evs /\
  (exists pre, evs = pre ++ [Ev.logging_CloseLogFile]) /\
  (countEv isNewClient evs <> 0 ->
   exists pre, evs = pre ++ [Ev.client_Close; Ev.logging_CloseLogFile]).

(** [Every P f]: every call [f] makes satisfies the property [P], whatever
    the history. *)
Definition Every {X} (P : Event -> Prop) (f : Trace -> list Event * X) : Prop :=
  forall h ev, In ev (fst (f h)) -> P ev.

(** The runners a call goes through: the runner it is given, and the one
    inside the oc configuration, the systemd commander or the DNS service
    configuration it is given. *)
Definition runnersOf (ev : Event) : list Runner :=
  match ev with
  | Ev.network_HasGivenNameserversConfigured s _ _
  | Ev.network_AddNameserversToInstance s _ _
  | Ev.cluster_WaitForSSH s _
  | Ev.cluster_CheckCertsValidity s _
  | Ev.cluster_AddProxyToKubeletAndCriO s _ _
  | Ev.cluster_GetRootPartitionUsage s _
  | Ev.sshRunner_Run s _ _
  | Ev.sshRunner_RunPrivate s _ _ => [s]
  | Ev.cluster_RegenerateCertificates s oc _
  | Ev.cluster_AddPullSecret s oc _ _ => [s; ocRunner oc]
  | Ev.cluster_WaitforRequestHeaderClientCaFile oc _
  | Ev.cluster_DeleteOpenshiftAPIServerPods oc _
  | Ev.cluster_ApproveNodeCSR oc _
  | Ev.cluster_AddProxyConfigToCluster oc _ _
  | Ev.cluster_UpdateClusterID oc _
  | Ev.cluster_CheckProxySettingsForOperator oc _ _ _ _
  | Ev.cluster_GetClusterOperatorsStatus oc _ => [ocRunner oc]
  | Ev.dns_RunPostStart c _
  | Ev.dns_CheckCRCLocalDNSReachable c _
  | Ev.dns_CheckCRCPublicDNSReachable c _ => [spSSHRunner c]
  | Ev.sd_Start sd _ _
  | Ev.sd_Restart sd _ _
  | Ev.sd_IsActive sd _ _ => [sdRunner sd]
  | _ => []
  end.

(** The calls Start makes over SSH before the key of the instance is
    replaced: the wait for SSH, the certificate probe, the nameserver calls,
    the calls of the DNS service and the command that installs the new
    public key. *)
Definition connectionCall (ev : Event) : bool :=
  match ev with
  | Ev.cluster_WaitForSSH _ _
  | Ev.cluster_CheckCertsValidity _ _
  | Ev.network_HasGivenNameserversConfigured _ _ _
  | Ev.network_AddNameserversToInstance _ _ _
  | Ev.dns_RunPostStart _ _
  | Ev.dns_CheckCRCLocalDNSReachable _ _
  | Ev.dns_CheckCRCPublicDNSReachable _ _
  | Ev.sshRunner_Run _ _ _ => true
  | _ => false
  end.

(** The two reads of the cluster that only Status makes. *)
Definition statusQuery (ev : Event) : bool :=
  match ev with
  | Ev.cluster_GetClusterOperatorsStatus _ _
  | Ev.cluster_GetRootPartitionUsage _ _ => true
  | _ => false
  end.

(** Every runner a call goes through is the runner [s]. *)
Definition through (s : Runner) (ev : Event) : Prop :=
  forall s', In s' (runnersOf ev) -> s' = s.

(** ** Sample environments with faults

    The sample environment of a scenario with the answers of some
    collaborators replaced. *)

Module Faults.

Inductive Fault :=
| NoPullSecret | BundleNotCached | BundleWithoutNodes | KubeletInactive
| NameserverKnown | StoreRemoveFails | KubeletRestartFails | LogFileUnwritable.

Definition Fault_eqb (a b : Fault) : bool :=
  match a, b with
  | NoPullSecret, NoPullSecret
  | BundleNotCached, BundleNotCached
  | BundleWithoutNodes, BundleWithoutNodes
  | KubeletInactive, KubeletInactive
  | NameserverKnown, NameserverKnown
  | StoreRemoveFails, StoreRemoveFails
  | KubeletRestartFails, KubeletRestartFails
  | LogFileUnwritable, LogFileUnwritable => true
  | _, _ => false
  end.

Definition has (f : Fault) (fs : list Fault) : bool := existsb (Fault_eqb f) fs.

(** A bundle whose metadata list no node. *)
Definition emptyBundle : CrcBundleInfo :=
  {| BundleName := BundleName Sample.bundle;
     OpenshiftVersion := OpenshiftVersion Sample.bundle;
     DiskImagePath := DiskImagePath Sample.bundle;
     SSHKeyPath := SSHKeyPath Sample.bundle;
     InitramfsPath := InitramfsPath Sample.bundle;
     KernelPath := KernelPath Sample.bundle;
     KubeConfigPath := KubeConfigPath Sample.bundle;
     BaseDomain := BaseDomain Sample.bundle;
     BundleBuildTime := BundleBuildTime Sample.bundle;
     Nodes := [] |}.

Definition theBundle (fs : list Fault) : CrcBundleInfo :=
  if has BundleWithoutNodes fs then emptyBundle else Sample.bundle.

Definition env (sc : Sample.Scenario) (fs : list Fault) : Env.t :=
  let base := Sample.env sc in
  {| Env.MachineBaseDir := Env.MachineBaseDir base;
     Env.MachineCertsDir := Env.MachineCertsDir base;
     Env.MachineInstanceDir := Env.MachineInstanceDir base;
     Env.LogFilePath := Env.LogFilePath base;
     Env.DefaultWebConsoleURL := Env.DefaultWebConsoleURL base;
     Env.DefaultAPIURL := Env.DefaultAPIURL base;
     Env.GetPrivateKeyPath := Env.GetPrivateKeyPath base;
     Env.GetPublicKeyPath := Env.GetPublicKeyPath base;
     Env.DefaultDriver_Driver := Env.DefaultDriver_Driver base;
     Env.DefaultDriver_DriverPath := Env.DefaultDriver_DriverPath base;
     Env.filepath_Base := Env.filepath_Base base;
     Env.filepath_ToSlash := Env.filepath_ToSlash base;
     Env.filepath_Join := Env.filepath_Join base;
     Env.marshalDriverOptions := Env.marshalDriverOptions base;
     Env.CreateRunner := Env.CreateRunner base;
     Env.logging_OpenLogFile := fun t p =>
       if has LogFileUnwritable fs then Some (Errorf "permission denied" [])
       else Env.logging_OpenLogFile base t p;
     Env.api_Exists := Env.api_Exists base;
     Env.api_Load := Env.api_Load base;
     Env.api_Save := Env.api_Save base;
     Env.api_Remove := fun t n =>
       if has StoreRemoveFails fs then Some (Errorf "directory not empty" [])
       else Env.api_Remove base t n;
     Env.api_NewHost := Env.api_NewHost base;
     Env.api_Create := Env.api_Create base;
     Env.Driver_GetBundleName := Env.Driver_GetBundleName base;
     Env.Driver_GetState := Env.Driver_GetState base;
     Env.Driver_Start := Env.Driver_Start base;
     Env.Driver_GetIP := Env.Driver_GetIP base;
     Env.Driver_DriverName := Env.Driver_DriverName base;
     Env.Driver_Remove := Env.Driver_Remove base;
     Env.GetPullSecret := fun t =>
       if has NoPullSecret fs then inr (Errorf "pull secret not provided" [])
       else Env.GetPullSecret base t;
     Env.bundle_GetCachedBundleInfo := fun _ _ =>
       if has BundleNotCached fs then inr (Errorf "bundle not in the cache" [])
       else inl (theBundle fs);
     Env.bundle_Extract := fun _ _ => inl (theBundle fs);
     Env.CheckDiskImageSize := Env.CheckDiskImageSize base;
     Env.GetKubeadminPassword := Env.GetKubeadminPassword base;
     Env.network_NewProxyConfig := Env.network_NewProxyConfig base;
     Env.network_HasGivenNameserversConfigured := fun t s ns =>
       if has NameserverKnown fs then inl true
       else Env.network_HasGivenNameserversConfigured base t s ns;
     Env.network_AddNameserversToInstance := Env.network_AddNameserversToInstance base;
     Env.network_DetermineHostIP := Env.network_DetermineHostIP base;
     Env.network_CheckCRCLocalDNSReachableFromHost :=
       Env.network_CheckCRCLocalDNSReachableFromHost base;
     Env.cluster_WaitForSSH := Env.cluster_WaitForSSH base;
     Env.cluster_CheckCertsValidity := Env.cluster_CheckCertsValidity base;
     Env.cluster_RegenerateCertificates := Env.cluster_RegenerateCertificates base;
     Env.cluster_WaitforRequestHeaderClientCaFile :=
       Env.cluster_WaitforRequestHeaderClientCaFile base;
     Env.cluster_DeleteOpenshiftAPIServerPods :=
       Env.cluster_DeleteOpenshiftAPIServerPods base;
     Env.cluster_ApproveNodeCSR := Env.cluster_ApproveNodeCSR base;
     Env.cluster_AddProxyConfigToCluster := Env.cluster_AddProxyConfigToCluster base;
     Env.cluster_AddProxyToKubeletAndCriO := Env.cluster_AddProxyToKubeletAndCriO base;
     Env.cluster_AddPullSecret := Env.cluster_AddPullSecret base;
     Env.cluster_UpdateClusterID := Env.cluster_UpdateClusterID base;
     Env.cluster_CheckProxySettingsForOperator :=
       Env.cluster_CheckProxySettingsForOperator base;
     Env.cluster_GetClusterOperatorsStatus := Env.cluster_GetClusterOperatorsStatus base;
     Env.cluster_GetRootPartitionUsage := Env.cluster_GetRootPartitionUsage base;
     Env.dns_RunPostStart := Env.dns_RunPostStart base;
     Env.dns_CheckCRCLocalDNSReachable := Env.dns_CheckCRCLocalDNSReachable base;
     Env.dns_CheckCRCPublicDNSReachable := Env.dns_CheckCRCPublicDNSReachable base;
     Env.ssh_GenerateSSHKey := Env.ssh_GenerateSSHKey base;
     Env.ioutil_ReadFile := Env.ioutil_ReadFile base;
     Env.crcos_CopyFileContents := Env.crcos_CopyFileContents base;
     Env.sshRunner_Run := Env.sshRunner_Run base;
     Env.sshRunner_RunPrivate := Env.sshRunner_RunPrivate base;
     Env.sd_Start := Env.sd_Start base;
     Env.sd_Restart := fun t sd service =>
       if has KubeletRestartFails fs && (service =? "kubelet")
       then Some (Errorf "unit failed to restart" [])
       else Env.sd_Restart base t sd service;
     Env.sd_IsActive := fun t sd service =>
       if has KubeletInactive fs then inl false else Env.sd_IsActive base t sd service;
     Env.time_Since := Env.time_Since base |}.

(** A start configuration that names a nameserver. *)
Definition startConfig : StartConfig :=
  {| Name := Name Sample.startConfig;
     BundlePath := BundlePath Sample.startConfig;
     CPUs := CPUs Sample.startConfig;
     Memory := Memory Sample.startConfig;
     NameServer := "10.0.0.53";
     Debug := Debug Sample.startConfig |}.

End Faults.

(** * Verification *)

(** ** Running the control-flow combinators *)

Lemma bind_Next {R A B} (m : M R A) (k : A -> M R B) h e a :
  m h = (e, Next a) ->
  bind m k h = (e ++ fst (k a (h ++ e)), snd (k a (h ++ e))).
Proof. intros H. unfold bind. rewrite H. destruct (k a (h ++ e)); reflexivity. Qed.

Lemma bind_Return {R A B} (m : M R A) (k : A -> M R B) h e r :
  m h = (e, Return r) -> bind m k h = (e, Return r).
Proof. intros H. unfold bind. rewrite H. reflexivity. Qed.

Lemma bind_fst {R A B} (m : M R A) (k : A -> M R B) h :
  fst (bind m k h) =
  fst (m h) ++ match snd (m h) with
               | Next a => fst (k a (h ++ fst (m h)))
               | Return _ => []
               end.
Proof.
  unfold bind. destruct (m h) as [e1 [a|r]]; cbn.
  - destruct (k a (h ++ e1)). reflexivity.
  - rewrite app_nil_r. reflexivity.
Qed.

Lemma bind_snd {R A B} (m : M R A) (k : A -> M R B) h :
  snd (bind m k h) =
  match snd (m h) with
  | Next a => snd (k a (h ++ fst (m h)))
  | Return r => Return r
  end.
Proof.
  unfold bind. destruct (m h) as [e1 [a|r]]; cbn; [|reflexivity].
  destruct (k a (h ++ e1)). reflexivity.
Qed.

Lemma bind_ask_fst {R A B} (answer : Trace -> A) (ev : A -> Event) (k : A -> M R B) h :
  fst (bind (ask answer ev) k h) =
  ev (answer h) :: fst (k (answer h) (h ++ [ev (answer h)])).
Proof.
  unfold bind, ask. cbn. destruct (k (answer h) (h ++ [ev (answer h)])). reflexivity.
Qed.

Lemma runFn_eq {R} (body : M R R) h :
  runFn body h = (fst (body h), flowValue (snd (body h))).
Proof. unfold runFn. destruct (body h) as [e [r|r]]; reflexivity. Qed.

Create HintDb go discriminated.

#[export] Hint Unfold bind ret exit ask emit call runFn defer deferCleanup runCleanup
    unsetMachineLogging setMachineLogging createLibMachineClient
    logging_Info logging_Debug logging_Warn logging_OpenLogFile
    api_Exists api_Load api_Save api_Remove api_NewHost api_Create
    Driver_GetBundleName Driver_GetState Driver_Start Driver_GetIP
    Driver_DriverName Driver_Remove GetPullSecret bundle_GetCachedBundleInfo
    bundle_Extract CheckDiskImageSize GetKubeadminPassword
    network_NewProxyConfig ApplyToEnvironment
    network_HasGivenNameserversConfigured network_AddNameserversToInstance
    network_DetermineHostIP network_CheckCRCLocalDNSReachableFromHost
    cluster_WaitForSSH cluster_CheckCertsValidity cluster_RegenerateCertificates
    cluster_WaitforRequestHeaderClientCaFile cluster_DeleteOpenshiftAPIServerPods
    cluster_ApproveNodeCSR cluster_AddProxyConfigToCluster
    cluster_AddProxyToKubeletAndCriO cluster_AddPullSecret cluster_UpdateClusterID
    cluster_CheckProxySettingsForOperator cluster_GetClusterOperatorsStatus
    cluster_GetRootPartitionUsage dns_RunPostStart dns_CheckCRCLocalDNSReachable
    dns_CheckCRCPublicDNSReachable ssh_GenerateSSHKey ioutil_ReadFile
    crcos_CopyFileContents sshRunner_Run sshRunner_RunPrivate sd_Start sd_Restart
    sd_IsActive time_Since time_Sleep : go.

(** Unfolds the combinators and the call wrappers down to the answers of
    the environment. *)
Ltac run := repeat (progress (autounfold with go; cbn)).

(** ** Proxy policy *)

Lemma IsEnabled_iff (p : ProxyConfig) :
  IsEnabled p = true <-> HTTPProxy p <> "" \/ HTTPSProxy p <> "".
Proof.
  unfold IsEnabled. rewrite orb_true_iff, !negb_true_iff, !String.eqb_neq. tauto.
Qed.

Lemma AddNoProxy_In (entry : string) (p : ProxyConfig) :
  In entry (noProxy (AddNoProxy entry p)).
Proof. simpl. apply in_or_app. right. left. reflexivity. Qed.

(** C7.  Whatever proxy configuration [getProxyConfig baseDomain] hands
    back: it is enabled exactly when a proxy URL is set; when one is set, the
    entry [.baseDomain] is in its no-proxy list; and when none is set it is
    not enabled, whatever the no-proxy list holds. *)
Theorem getProxyConfig_noProxy_invariant :
  forall (env : Env.t) (baseDomain : string) (h : Trace) (evs : list Event)
         (proxy : ProxyConfig),
    getProxyConfig env baseDomain h = (evs, inl proxy) ->
    (IsEnabled proxy = true <-> HTTPProxy proxy <> "" \/ HTTPSProxy proxy <> "") /\
    (HTTPProxy proxy <> "" \/ HTTPSProxy proxy <> "" ->
       In ("." +++ baseDomain) (noProxy proxy)) /\
    (HTTPProxy proxy = "" -> HTTPSProxy proxy = "" ->
       forall entries : list string,
         IsEnabled {| HTTPProxy := HTTPProxy proxy; HTTPSProxy := HTTPSProxy proxy;
                      noProxy := entries |} = false).
Proof.
  intros env baseDomain h evs proxy H.
  split; [apply IsEnabled_iff|]. split.
  - intros Hset. apply IsEnabled_iff in Hset.
    unfold getProxyConfig in H. revert H. run.
    destruct (Env.network_NewProxyConfig env h) as [p0|e]; [|discriminate].
    destruct (IsEnabled p0) eqn:Hen.
    + intros H. injection H as _ <-. apply AddNoProxy_In.
    + intros H. injection H as _ <-. congruence.
  - intros H1 H2 entries. unfold IsEnabled. simpl. rewrite H1, H2. reflexivity.
Qed.


(** Case analysis on the membership of a call in an explicit list. *)
Ltac in_cases H :=
  cbn in H;
  repeat (destruct H as [H|H]; [try discriminate H|]); try contradiction.

(** One step of symbolic execution: case analysis on the innermost answer
    the goal is waiting for. *)
Ltac step :=
  match goal with
  | |- context [match ?X with _ => _ end] =>
      lazymatch X with
      | context [match _ with _ => _ end] => fail
      | _ => destruct X eqn:?
      end
  end; cbn -[In].

Lemma IsEnabled_AddNoProxy (entry : string) (p : ProxyConfig) :
  IsEnabled (AddNoProxy entry p) = IsEnabled p.
Proof. reflexivity. Qed.

(** ** Delete *)

(** C6.  In every run of [Delete]: when the driver's [Remove] returns an
    error, Delete returns that failure and never calls the store's
    [Remove]; and whenever the store's [Remove] is called, the call just
    before it is a driver [Remove] that succeeded. *)
Theorem Delete_removes_record_only_after_driver :
  forall (env : Env.t) (name : string) (h : Trace),
    let evs := fst (Delete env name h) in
    let result := snd (Delete env name h) in
    (forall host e,
        In (Ev.Driver_Remove host (Some e)) evs ->
        result = deleteError name "Driver cannot remove machine" e /\
        forall n r, ~ In (Ev.api_Remove n r) evs) /\
    (forall n r,
        In (Ev.api_Remove n r) evs ->
        exists host l1 l2,
          evs = l1 ++ Ev.Driver_Remove host None :: Ev.api_Remove n r :: l2).
Proof.
  intros env name h. unfold Delete. run.
  destruct (Env.logging_OpenLogFile env _ _) as [e0|]; cbn -[In].
  { split; [intros host e Hin | intros n r Hin]; in_cases Hin. }
  destruct (Env.api_Load env _ _) as [host|e1]; cbn -[In].
  2: { split; [intros host e Hin | intros n r Hin]; in_cases Hin. }
  destruct (Env.Driver_Remove env _ _) as [e2|] eqn:Hrm; cbn -[In].
  { split.
    - intros host' e Hin. in_cases Hin.
      injection Hin as -> ->. split; [reflexivity|].
      intros n r Hin. in_cases Hin.
    - intros n r Hin. in_cases Hin. }
  destruct (Env.api_Remove env _ _) as [e3|]; cbn -[In].
  - split.
    + intros host' e Hin. in_cases Hin.
    + intros n r Hin. in_cases Hin.
      injection Hin as <- <-.
      exists host. eexists [_; _; _; _; _; _], _. reflexivity.
  - split.
    + intros host' e Hin. in_cases Hin.
    + intros n r Hin. in_cases Hin.
      injection Hin as <- <-.
      exists host. eexists [_; _; _; _; _; _], _. reflexivity.
Qed.

(** ** Status *)

(** In every run of [Status] in which the operator-status query fails
    (it is only made for a recorded instance whose VM runs) and hands back a
    status with no flag set: when the root-disk-usage query succeeds, Status
    returns no error and a result with Success true and OpenshiftStatus
    "Not Reachable"; and whenever the root-disk-usage query fails, Status
    fails with that error. *)
Theorem Status_operator_query_failure :
  forall (env : Env.t) (name : string) (h : Trace),
    let evs := fst (Status env name h) in
    let result := snd (Status env name h) in
    (forall oc st e,
        In (Ev.cluster_GetClusterOperatorsStatus oc (st, Some e)) evs ->
        Available st = false -> Degraded st = false -> Progressing st = false ->
        forall s size use,
          In (Ev.cluster_GetRootPartitionUsage s (inl (size, use))) evs ->
          result =
            ({| csName := name; csCrcStatus := "Running";
                csOpenshiftStatus := "Not Reachable";
                csDiskUse := use; csDiskSize := size; csSuccess := true |}, None)) /\
    (forall s e,
        In (Ev.cluster_GetRootPartitionUsage s (inr e)) evs ->
        result = statusError name "Cannot get root partition usage" e).
Proof.
  intros env name h.
  unfold Status, getBundleMetadataFromDriver, getProxyConfig. run.
  repeat step.
  all: split; [intros oc' st' e' Hin Ha Hd Hp s' size' use' Hin2 | intros s' e' Hin].
  all: try solve [in_cases Hin].
  all: try solve [in_cases Hin; inversion Hin; subst; in_cases Hin2].
  all: try solve [in_cases Hin; inversion Hin; subst; reflexivity].
  all: in_cases Hin; inversion Hin; subst; clear Hin; in_cases Hin2;
       inversion Hin2; subst; clear Hin2.
  all: unfold operatorsStatusString; rewrite Ha, Hd, Hp.
  all: match goal with H : IsRunning ?s = true |- _ =>
         destruct s; try discriminate H end; reflexivity.
Qed.

(** C5.  The run on which [Status] and the claim part: the instance is
    recorded and its VM runs, the operator-status query fails and hands back
    a status with the flag Available set, and the root-disk-usage query
    succeeds.  Status sets "Not Reachable" on the error, and the switch on
    the flags that follows overwrites it: the result has Success true and
    the OpenShift status "Running (v4.6)", not "Not Reachable". *)
Theorem Status_overwrites_not_reachable :
  In (Ev.api_Exists "crc" (true, None))
     (fst (Status (Sample.env [Sample.InstanceRecorded; Sample.OperatorsUnknown;
                               Sample.StaleOperatorsStatus]) "crc" [])) /\
  In (Ev.Driver_GetState Sample.host (inl Running))
     (fst (Status (Sample.env [Sample.InstanceRecorded; Sample.OperatorsUnknown;
                               Sample.StaleOperatorsStatus]) "crc" [])) /\
  In (Ev.cluster_GetClusterOperatorsStatus
        (UseOCWithSSH (CreateRunnerWithPrivateKey Sample.host "/home/u/.crc/machines/crc/id_rsa"))
        (Sample.available, Some Sample.boom))
     (fst (Status (Sample.env [Sample.InstanceRecorded; Sample.OperatorsUnknown;
                               Sample.StaleOperatorsStatus]) "crc" [])) /\
  In (Ev.logging LDebug "%s" [AErr Sample.boom])
     (fst (Status (Sample.env [Sample.InstanceRecorded; Sample.OperatorsUnknown;
                               Sample.StaleOperatorsStatus]) "crc" [])) /\
  snd (Status (Sample.env [Sample.InstanceRecorded; Sample.OperatorsUnknown;
                           Sample.StaleOperatorsStatus]) "crc" []) =
    ({| csName := "crc"; csCrcStatus := "Running";
        csOpenshiftStatus := "Running (v4.6)";
        csDiskUse := 9000000000; csDiskSize := 32000000000;
        csSuccess := true |}, None) /\
  csOpenshiftStatus
    (fst (snd (Status (Sample.env [Sample.InstanceRecorded; Sample.OperatorsUnknown;
                                   Sample.StaleOperatorsStatus]) "crc" []))) <>
    "Not Reachable".
Proof.
  repeat match goal with
         | |- In _ _ /\ _ =>
             split; [cbv; repeat first [left; reflexivity | right]|]
         end.
  split; [reflexivity|]. vm_compute. discriminate.
Qed.

(** ** First-boot proxy configuration *)

(** C9.  With a proxy enabled, every run of [configProxyForCluster] ends
    with the restart of crio and then of kubelet, after the pushes, in each
    of the three cases: the push into the cluster failed, the push into the
    kubelet and crio configuration failed, or both succeeded. *)
Theorem configProxyForCluster_restarts_services :
  forall (env : Env.t) (oc : OcConfig) (s : Runner) (sd : SystemdCommander)
         (proxy : ProxyConfig) (instanceIP : string) (h : Trace),
    IsEnabled proxy = true ->
    let proxy' := AddNoProxy instanceIP proxy in
    let evs := fst (configProxyForCluster env oc s sd proxy instanceIP h) in
    let intro := Ev.logging LInfo "Adding proxy configuration to the cluster ..." [] in
    let intro2 :=
      Ev.logging LInfo "Adding proxy configuration to kubelet and crio service ..." [] in
    exists pushes rc rk,
      evs = pushes ++ [Ev.sd_Restart sd "crio" rc; Ev.sd_Restart sd "kubelet" rk] /\
      ((exists e, pushes = [intro; Ev.cluster_AddProxyConfigToCluster oc proxy' (Some e)]) \/
       (exists e, pushes = [intro; Ev.cluster_AddProxyConfigToCluster oc proxy' None;
                            intro2; Ev.cluster_AddProxyToKubeletAndCriO s proxy' (Some e)]) \/
       pushes = [intro; Ev.cluster_AddProxyConfigToCluster oc proxy' None;
                 intro2; Ev.cluster_AddProxyToKubeletAndCriO s proxy' None]).
Proof.
  intros env oc s sd proxy instanceIP h Hen.
  unfold configProxyForCluster, restartServices. run. rewrite Hen. cbn.
  destruct (Env.cluster_AddProxyConfigToCluster env _ _ _) as [e1|]; cbn.
  - rewrite IsEnabled_AddNoProxy, Hen. cbn.
    eexists [_; _], _, _. split; [reflexivity|]. left. eexists. reflexivity.
  - destruct (Env.cluster_AddProxyToKubeletAndCriO env _ _ _) as [e2|]; cbn;
      rewrite IsEnabled_AddNoProxy, Hen; cbn.
    + eexists [_; _; _; _], _, _. split; [reflexivity|]. right. left.
      eexists. reflexivity.
    + eexists [_; _; _; _], _, _. split; [reflexivity|]. right. right.
      reflexivity.
Qed.

(** ** The retry primitive *)

Arguments retryAfter : simpl never.

Lemma retryLoop_S {C} (more : nat) (action : Action C) (d : Z) (c : C) (h : Trace) :
  retryLoop (S more) action d c h =
  match snd (snd (action c h)) with
  | None => (fst (action c h), (fst (snd (action c h)), None))
  | Some e =>
      if isRetriable e then
        match more with
        | O => (fst (action c h), (fst (snd (action c h)), Some e))
        | S _ =>
            (fst (action c h) ++ Ev.time_Sleep d ::
               fst (retryLoop more action d (fst (snd (action c h)))
                      ((h ++ fst (action c h)) ++ [Ev.time_Sleep d])),
             snd (retryLoop more action d (fst (snd (action c h)))
                      ((h ++ fst (action c h)) ++ [Ev.time_Sleep d])))
        end
      else (fst (action c h), (fst (snd (action c h)), Some e))
  end.
Proof.
  cbn [retryLoop]. generalize (retryLoop more action d). intros rec. run.
  destruct (action c h) as [e1 [c1 [e|]]]; cbn.
  - destruct (isRetriable e); cbn.
    + destruct more; cbn.
      * rewrite app_nil_r. reflexivity.
      * destruct (rec c1 _) as [e2 r]. reflexivity.
    + rewrite app_nil_r. reflexivity.
  - rewrite app_nil_r. reflexivity.
Qed.

Lemma retryLoop_Attempts {C} (action : Action C) (d : Z) :
  forall (n : nat) (c : C) (h : Trace),
    exists k,
      1 <= k <= S n /\
      Attempts action d k c h (fst (retryLoop (S n) action d c h))
        (snd (retryLoop (S n) action d c h)) /\
      (forall e, snd (snd (retryLoop (S n) action d c h)) = Some e ->
                 isRetriable e = true -> k = S n).
Proof.
  induction n as [|n IH]; intros c h; rewrite retryLoop_S.
  - exists 1. split; [lia|].
    pose proof (Attempts_last action d c h) as HA.
    destruct (action c h) as [e1 [c1 [e|]]]; cbn in *.
    + destruct (isRetriable e); cbn; auto.
    + split; [exact HA|]. discriminate.
  - pose proof (Attempts_last action d c h) as HA.
    destruct (action c h) as [e1 [c1 [e|]]] eqn:Hact; cbn [fst snd] in *.
    + destruct (isRetriable e) eqn:Hr; cbn [fst snd].
      * destruct (IH c1 ((h ++ e1) ++ [Ev.time_Sleep d])) as (k & Hk & HA' & Hlast).
        exists (S k). split; [lia|]. split.
        -- replace e1 with (fst (action c h)) at 1 by (rewrite Hact; reflexivity).
           eapply Attempts_again; rewrite ?Hact; cbn [fst snd]; eauto.
        -- intros e' He' Hr'. rewrite (Hlast e' He' Hr'). reflexivity.
      * exists 1. split; [lia|]. split; [exact HA|].
        intros e' He' Hr'. injection He' as <-. congruence.
    + exists 1. split; [lia|]. split; [exact HA|]. discriminate.
Qed.

Lemma totalSleep_app (a b : list Event) :
  totalSleep (a ++ b) = (totalSleep a + totalSleep b)%Z.
Proof.
  induction a as [|ev a IH]; cbn [app totalSleep]; [reflexivity|].
  destruct ev; rewrite ?IH; lia.
Qed.

Lemma totalSleep_filter (evs : list Event) :
  totalSleep evs = totalSleep (filter isSleep evs).
Proof.
  induction evs as [|ev evs IH]; [reflexivity|].
  destruct ev; cbn [filter isSleep totalSleep]; rewrite ?IH; reflexivity.
Qed.

Lemma totalSleep_repeat (d : Z) (m : nat) :
  totalSleep (repeat (Ev.time_Sleep d) m) = (Z.of_nat m * d)%Z.
Proof. induction m as [|m IH]; cbn [repeat totalSleep]; lia. Qed.

Lemma countEv_app (P : Event -> bool) (a b : list Event) :
  countEv P (a ++ b) = countEv P a + countEv P b.
Proof. unfold countEv. rewrite filter_app, length_app. reflexivity. Qed.

Lemma Attempts_sleeps {C} (action : Action C) (d : Z) :
  (forall c h, filter isSleep (fst (action c h)) = []) ->
  forall k c h evs res,
    Attempts action d k c h evs res ->
    filter isSleep evs = repeat (Ev.time_Sleep d) (k - 1).
Proof.
  intros Hquiet k c h evs res HA.
  induction HA as [c h | k c h c1 e evs res Hres Hr HA IH].
  - apply Hquiet.
  - rewrite filter_app, Hquiet. cbn [app filter isSleep]. rewrite IH.
    inversion HA; subst; cbn; rewrite ?Nat.sub_0_r; reflexivity.
Qed.

Lemma Attempts_countEv {C} (action : Action C) (d : Z) (P : Event -> bool) :
  (forall c h, countEv P (fst (action c h)) = 1) ->
  P (Ev.time_Sleep d) = false ->
  forall k c h evs res,
    Attempts action d k c h evs res -> countEv P evs = k.
Proof.
  intros Hone Hsleep k c h evs res HA.
  induction HA as [c h | k c h c1 e evs res Hres Hr HA IH].
  - apply Hone.
  - rewrite countEv_app, Hone. unfold countEv in *. cbn [filter].
    rewrite Hsleep, IH. reflexivity.
Qed.

Lemma Attempts_positive {C} (action : Action C) (d : Z) k c h evs res :
  Attempts action d k c h evs res -> 1 <= k.
Proof. intros HA. inversion HA; lia. Qed.

(** The retry primitive: general contract. *)
Lemma retryAfter_Attempts {C} (maxAttempts : Z) (action : Action C) (interval : Z)
    (c : C) (h : Trace) :
  (1 <= maxAttempts)%Z ->
  exists k,
    1 <= k <= Z.to_nat maxAttempts /\
    Attempts action interval k c h
      (fst (retryAfter maxAttempts action interval c h))
      (snd (retryAfter maxAttempts action interval c h)) /\
    (forall e,
        snd (snd (retryAfter maxAttempts action interval c h)) = Some e ->
        isRetriable e = true -> k = Z.to_nat maxAttempts).
Proof.
  intros Hn. unfold retryAfter.
  destruct (Z.to_nat maxAttempts) as [|n] eqn:Hk; [lia|].
  apply retryLoop_Attempts.
Qed.

Lemma Attempts_result {C} (action : Action C) (d : Z) k c h evs res :
  Attempts action d k c h evs res -> exists c' h', res = snd (action c' h').
Proof.
  intros HA. induction HA as [c h | k c h c1 e evs res Hres Hr HA IH].
  - exists c, h. reflexivity.
  - exact IH.
Qed.

(** The two closures handed to the retry primitive. *)
Lemma determineHostIP_run (env : Env.t) (instanceIP : string) (c : string) (h : Trace) :
  let a := Env.network_DetermineHostIP env h instanceIP in
  determineHostIP env instanceIP c h =
  match snd a with
  | Some e =>
      ([Ev.network_DetermineHostIP instanceIP a;
        Ev.logging LDebug "Error finding host IP (%v) - retrying" [AErr e]],
       (fst a, Some (RetriableError e)))
  | None => ([Ev.network_DetermineHostIP instanceIP a], (fst a, None))
  end.
Proof.
  unfold determineHostIP. run.
  destruct (Env.network_DetermineHostIP env h instanceIP) as [ip [e|]]; reflexivity.
Qed.

Lemma checkProxySettingsForOperator_run (env : Env.t) (oc : OcConfig) (p : ProxyConfig)
    (c : unit) (h : Trace) :
  let a := Env.cluster_CheckProxySettingsForOperator env h oc p
             "redhat-operators" "openshift-marketplace" in
  let ev := Ev.cluster_CheckProxySettingsForOperator oc p
              "redhat-operators" "openshift-marketplace" a in
  checkProxySettingsForOperator env oc p c h =
  match a with
  | inr e =>
      ([ev; Ev.logging LDebug
              "Error getting proxy setting for openshift-marketplace operator %v" [AErr e]],
       (tt, Some (RetriableError e)))
  | inl false =>
      ([ev; Ev.logging LDebug "Proxy changes for cluster in progress" []],
       (tt, Some (RetriableError (Errorf "" []))))
  | inl true => ([ev], (tt, None))
  end.
Proof.
  unfold checkProxySettingsForOperator. run.
  destruct (Env.cluster_CheckProxySettingsForOperator env h oc p _ _) as [[|]|e];
    reflexivity.
Qed.

Lemma determineHostIP_quiet env ip c h :
  filter isSleep (fst (determineHostIP env ip c h)) = [] /\
  countEv isDetermineHostIP (fst (determineHostIP env ip c h)) = 1.
Proof.
  rewrite determineHostIP_run. cbv zeta.
  destruct (snd (Env.network_DetermineHostIP env h ip)); split; reflexivity.
Qed.

Lemma checkProxySettingsForOperator_quiet env oc p c h :
  filter isSleep (fst (checkProxySettingsForOperator env oc p c h)) = [] /\
  countEv isCheckProxySettings (fst (checkProxySettingsForOperator env oc p c h)) = 1.
Proof.
  rewrite checkProxySettingsForOperator_run. cbv zeta.
  destruct (Env.cluster_CheckProxySettingsForOperator env h oc p _ _) as [[|]|e];
    split; reflexivity.
Qed.

(** What a run of the retry primitive on a closure that does not sleep and
    makes one marked call per invocation looks like. *)
Lemma retryAfter_counts {C} (n : Z) (action : Action C) (d : Z) (P : Event -> bool)
    (c : C) (h : Trace) :
  (1 <= n)%Z ->
  (forall c h, filter isSleep (fst (action c h)) = []) ->
  (forall c h, countEv P (fst (action c h)) = 1) ->
  P (Ev.time_Sleep d) = false ->
  let evs := fst (retryAfter n action d c h) in
  1 <= countEv P evs <= Z.to_nat n /\
  filter isSleep evs = repeat (Ev.time_Sleep d) (countEv P evs - 1) /\
  totalSleep evs = ((Z.of_nat (countEv P evs) - 1) * d)%Z /\
  (forall e, snd (snd (retryAfter n action d c h)) = Some e ->
             isRetriable e = true -> countEv P evs = Z.to_nat n).
Proof.
  intros Hn Hq Hone Hs evs.
  destruct (retryAfter_Attempts n action d c h Hn) as (k & Hk & HA & Hlast).
  fold evs in HA.
  rewrite (Attempts_countEv action d P Hone Hs _ _ _ _ _ HA).
  split; [exact Hk|]. split; [exact (Attempts_sleeps action d Hq _ _ _ _ _ HA)|].
  split; [|exact Hlast].
  rewrite totalSleep_filter, (Attempts_sleeps action d Hq _ _ _ _ _ HA),
    totalSleep_repeat.
  f_equal. lia.
Qed.

Lemma determineIPs_run (env : Env.t) (cfg : StartConfig) (host : Host) (h : Trace) :
  determineIPs env cfg host h =
  match Env.Driver_GetIP env h host with
  | inr e =>
      ([Ev.Driver_GetIP host (inr e)],
       Return (startError (Name cfg) "Error getting the IP" e))
  | inl instanceIP =>
      let r := retryAfter 30 (determineHostIP env instanceIP) (2 * time_Second) ""
                 (h ++ [Ev.Driver_GetIP host (inl instanceIP)]) in
      (Ev.Driver_GetIP host (inl instanceIP) :: fst r,
       match snd (snd r) with
       | Some e => Return (startError (Name cfg) "Error determining host IP" e)
       | None => Next (instanceIP, fst (snd r))
       end)
  end.
Proof.
  unfold determineIPs. run.
  destruct (Env.Driver_GetIP env h host) as [ip|e]; [|reflexivity].
  cbn.
  destruct (retryAfter 30 _ _ _ _) as [e1 [hostIP [e|]]]; cbn;
    rewrite ?app_nil_r; reflexivity.
Qed.

Lemma waitForProxyPropagation_run (env : Env.t) (oc : OcConfig) (p : ProxyConfig)
    (h : Trace) :
  waitForProxyPropagation env oc p h =
  let r := retryAfter 60 (checkProxySettingsForOperator env oc p) (2 * time_Second) tt h in
  (fst r ++
   match snd (snd r) with
   | Some _ => [Ev.logging LDebug "Failed to propagate proxy settings to cluster" []]
   | None => []
   end, tt).
Proof.
  unfold waitForProxyPropagation. run.
  destruct (retryAfter 60 _ _ _ _) as [e1 [[] [e|]]]; cbn; reflexivity.
Qed.

Lemma host_ip_discovery_bounds (env : Env.t) (cfg : StartConfig) (host : Host) (h : Trace) :
  let evs := fst (determineIPs env cfg host h) in
  countEv isDetermineHostIP evs <= 30 /\
  filter isSleep evs =
    repeat (Ev.time_Sleep (2 * time_Second)) (countEv isDetermineHostIP evs - 1) /\
  (totalSleep evs <= 29 * (2 * time_Second))%Z /\
  (forall instanceIP,
      Env.Driver_GetIP env h host = inl instanceIP ->
      (forall t, snd (Env.network_DetermineHostIP env t instanceIP) <> None) ->
      countEv isDetermineHostIP evs = 30 /\
      totalSleep evs = (29 * (2 * time_Second))%Z /\
      exists e, snd (determineIPs env cfg host h) =
                Return (startError (Name cfg) "Error determining host IP"
                          (RetriableError e))).
Proof.
  intros evs. subst evs. rewrite determineIPs_run.
  destruct (Env.Driver_GetIP env h host) as [ip|e] eqn:Hip.
  2: { cbn [fst snd]. split; [cbn; lia|]. split; [reflexivity|].
       split; [cbn; unfold time_Second; lia|]. intros ? [=]. }
  cbv zeta. cbn [fst snd].
  set (h1 := h ++ [Ev.Driver_GetIP host (inl ip)]).
  destruct (retryAfter_counts 30 (determineHostIP env ip) (2 * time_Second)
              isDetermineHostIP "" h1) as (Hc & Hs & Ht & Hlast);
    [lia | intros; apply determineHostIP_quiet
     | intros; apply determineHostIP_quiet | reflexivity |].
  cbv zeta in *.
  set (r := retryAfter 30 (determineHostIP env ip) (2 * time_Second) "" h1) in *.
  assert (Hcount : countEv isDetermineHostIP (Ev.Driver_GetIP host (inl ip) :: fst r)
                   = countEv isDetermineHostIP (fst r)) by reflexivity.
  assert (Hsl : filter isSleep (Ev.Driver_GetIP host (inl ip) :: fst r)
                = filter isSleep (fst r)) by reflexivity.
  assert (Htot : totalSleep (Ev.Driver_GetIP host (inl ip) :: fst r)
                 = totalSleep (fst r)) by reflexivity.
  rewrite Hcount, Hsl, Htot. change (Z.to_nat 30) with 30 in *.
  split; [lia|]. split; [exact Hs|]. split.
  { rewrite Ht. unfold time_Second. lia. }
  intros ip' [= <-] Hfail.
  destruct (retryAfter_Attempts 30 (determineHostIP env ip) (2 * time_Second) "" h1)
    as (k & Hk & HA & _); [lia|].
  destruct (Attempts_result _ _ _ _ _ _ _ HA) as (c' & h' & Hres).
  fold r in Hres. rewrite determineHostIP_run in Hres. cbv zeta in Hres.
  specialize (Hfail h').
  destruct (snd (Env.network_DetermineHostIP env h' ip)) as [e|] eqn:He;
    [|congruence].
  cbn in Hres.
  assert (Herr : snd (snd r) = Some (RetriableError e)) by (rewrite Hres; reflexivity).
  specialize (Hlast _ Herr eq_refl).
  split; [exact Hlast|]. split.
  { rewrite Ht, Hlast. reflexivity. }
  exists e. rewrite Herr. reflexivity.
Qed.

Lemma proxy_propagation_bounds (env : Env.t) (oc : OcConfig) (p : ProxyConfig) (h : Trace) :
  let evs := fst (waitForProxyPropagation env oc p h) in
  1 <= countEv isCheckProxySettings evs <= 60 /\
  filter isSleep evs =
    repeat (Ev.time_Sleep (2 * time_Second)) (countEv isCheckProxySettings evs - 1) /\
  (totalSleep evs <= 59 * (2 * time_Second))%Z /\
  ((forall t, Env.cluster_CheckProxySettingsForOperator env t oc p
                "redhat-operators" "openshift-marketplace" <> inl true) ->
   countEv isCheckProxySettings evs = 60 /\
   totalSleep evs = (59 * (2 * time_Second))%Z).
Proof.
  intros evs. subst evs. rewrite waitForProxyPropagation_run. cbv zeta. cbn [fst].
  destruct (retryAfter_counts 60 (checkProxySettingsForOperator env oc p)
              (2 * time_Second) isCheckProxySettings tt h) as (Hc & Hs & Ht & Hlast);
    [lia | intros; apply checkProxySettingsForOperator_quiet
     | intros; apply checkProxySettingsForOperator_quiet | reflexivity |].
  cbv zeta in *.
  set (r := retryAfter 60 (checkProxySettingsForOperator env oc p)
              (2 * time_Second) tt h) in *.
  match goal with |- context [fst r ++ ?t] => set (tail := t) end.
  assert (Htail : countEv isCheckProxySettings tail = 0 /\
                  filter isSleep tail = [] /\ totalSleep tail = 0%Z).
  { subst tail. destruct (snd (snd r)); repeat split. }
  destruct Htail as (Ht1 & Ht2 & Ht3).
  rewrite countEv_app, filter_app, totalSleep_app, Ht1, Ht2, Ht3,
    Nat.add_0_r, app_nil_r, Z.add_0_r.
  change (Z.to_nat 60) with 60 in *.
  split; [lia|]. split; [exact Hs|]. split.
  { rewrite Ht. unfold time_Second. lia. }
  intros Hfail.
  destruct (retryAfter_Attempts 60 (checkProxySettingsForOperator env oc p)
              (2 * time_Second) tt h) as (k & Hk & HA & _); [lia|].
  destruct (Attempts_result _ _ _ _ _ _ _ HA) as (c' & h' & Hres).
  fold r in Hres. rewrite checkProxySettingsForOperator_run in Hres.
  cbv zeta in Hres. specialize (Hfail h').
  assert (Herr : exists e, snd (snd r) = Some (RetriableError e)).
  { destruct (Env.cluster_CheckProxySettingsForOperator env h' oc p _ _) as [[|]|e];
      [congruence | | ]; rewrite Hres; eexists; reflexivity. }
  destruct Herr as (e & Herr). specialize (Hlast _ Herr eq_refl).
  split; [exact Hlast|]. rewrite Ht, Hlast. reflexivity.
Qed.

(** ** Which calls a function makes *)

Section OnlyRules.
Context (P : Event -> bool).

Lemma Only_ret {R A} (a : A) : Only P (@ret R A a).
Proof. intros h. reflexivity. Qed.

Lemma Only_exit {R A} (r : R) : Only P (@exit R A r).
Proof. intros h. reflexivity. Qed.

Lemma Only_emit {R} (ev : Event) : P ev = true -> Only P (@emit R ev).
Proof. intros H h. cbn. rewrite H. reflexivity. Qed.

Lemma Only_ask {R A} (answer : Trace -> A) (ev : A -> Event) :
  (forall r, P (ev r) = true) -> Only P (@ask R A answer ev).
Proof. intros H h. cbn. rewrite H. reflexivity. Qed.

Lemma Only_bind {R A B} (m : M R A) (k : A -> M R B) :
  Only P m -> (forall a, Only P (k a)) -> Only P (bind m k).
Proof.
  intros Hm Hk h. unfold bind. specialize (Hm h).
  destruct (m h) as [e1 [a|r]]; cbn in *; [|exact Hm].
  specialize (Hk a (h ++ e1)). destruct (k a (h ++ e1)) as [e2 f]. cbn in *.
  rewrite forallb_app, Hm, Hk. reflexivity.
Qed.

Lemma Only_call {R R'} (f : Fn R') : Only P f -> Only P (@call R R' f).
Proof.
  intros Hf h. unfold call. specialize (Hf h). destruct (f h). exact Hf.
Qed.

Lemma Only_runFn {R} (body : M R R) : Only P body -> Only P (runFn body).
Proof.
  intros Hb h. unfold runFn. specialize (Hb h).
  destruct (body h) as [e [r|r]]; exact Hb.
Qed.

Lemma Only_defer {R} (d : R -> Fn R) (rest : M R R) :
  (forall r, Only P (d r)) -> Only P rest -> Only P (defer d rest).
Proof.
  intros Hd Hr h. unfold defer. pose proof (Only_runFn rest Hr h) as H1.
  destruct (runFn rest h) as [e1 r]. specialize (Hd r (h ++ e1)).
  destruct (d r (h ++ e1)) as [e2 r']. cbn in *.
  rewrite forallb_app, H1, Hd. reflexivity.
Qed.

Lemma Only_deferCleanup {R} (c : Cleanup) (r : R) :
  Only P (runCleanup c) -> Only P (deferCleanup c r).
Proof. intros H h. exact (H h). Qed.

Lemma Only_retryLoop {C} (action : Action C) (d : Z) :
  (forall c, Only P (action c)) -> P (Ev.time_Sleep d) = true ->
  forall n c, Only P (retryLoop n action d c).
Proof.
  intros Ha Hs. induction n as [|n IH]; intros c; cbn [retryLoop].
  - apply Only_runFn, Only_ret.
  - apply Only_runFn, Only_bind; [apply Only_call, Ha|].
    intros [c1 [e|]]; [|apply Only_exit].
    destruct (isRetriable e); [|apply Only_exit].
    destruct n; [apply Only_exit|].
    apply Only_bind; [apply Only_emit, Hs|]. intros _. apply Only_call, IH.
Qed.

Lemma Only_retryAfter {C} (n : Z) (action : Action C) (d : Z) (c : C) :
  (forall c, Only P (action c)) -> P (Ev.time_Sleep d) = true ->
  Only P (retryAfter n action d c).
Proof. intros Ha Hs. apply Only_retryLoop; assumption. Qed.

Lemma Only_In {X} (f : Trace -> list Event * X) (h : Trace) (ev : Event) :
  Only P f -> In ev (fst (f h)) -> P ev = true.
Proof.
  intros Hf Hin. specialize (Hf h). rewrite forallb_forall in Hf. auto.
Qed.

End OnlyRules.

Create HintDb gofuns discriminated.
#[export] Hint Unfold
    logging_Info logging_Debug logging_Warn logging_OpenLogFile
    api_Exists api_Load api_Save api_Remove api_NewHost api_Create
    Driver_GetBundleName Driver_GetState Driver_Start Driver_GetIP
    Driver_DriverName Driver_Remove GetPullSecret bundle_GetCachedBundleInfo
    bundle_Extract CheckDiskImageSize GetKubeadminPassword
    network_NewProxyConfig ApplyToEnvironment
    network_HasGivenNameserversConfigured network_AddNameserversToInstance
    network_DetermineHostIP network_CheckCRCLocalDNSReachableFromHost
    cluster_WaitForSSH cluster_CheckCertsValidity cluster_RegenerateCertificates
    cluster_WaitforRequestHeaderClientCaFile cluster_DeleteOpenshiftAPIServerPods
    cluster_ApproveNodeCSR cluster_AddProxyConfigToCluster
    cluster_AddProxyToKubeletAndCriO cluster_AddPullSecret cluster_UpdateClusterID
    cluster_CheckProxySettingsForOperator cluster_GetClusterOperatorsStatus
    cluster_GetRootPartitionUsage dns_RunPostStart dns_CheckCRCLocalDNSReachable
    dns_CheckCRCPublicDNSReachable ssh_GenerateSSHKey ioutil_ReadFile
    crcos_CopyFileContents sshRunner_Run sshRunner_RunPrivate sd_Start sd_Restart
    sd_IsActive time_Since time_Sleep
    setMachineLogging unsetMachineLogging runCleanup createLibMachineClient Exists
    getProxyConfig getClusterConfig getCrcBundleInfo getBundleMetadataFromDriver
    createHost addNameServerToInstance updateSSHKeyPair restartServices
    configProxyForCluster configureCluster checkProxySettingsForOperator
    waitForProxyPropagation determineHostIP
    startNewVM startExistingVM preVMStart connectToVM checkCertsValidity addNameServer
    determineIPs dnsBringUp firstBootSteps renewCertificates startKubelet
    confirmKubelet settleAndApprove usageMessage startBody : gofuns.

(** Walks the text of a function and checks every call it makes. *)
Ltac only_step :=
  first
    [ apply Only_ret
    | apply Only_exit
    | apply Only_emit; reflexivity
    | apply Only_ask; intros; reflexivity
    | apply Only_bind; [|intros]
    | apply Only_call
    | apply Only_runFn
    | apply Only_defer; [intros|]
    | apply Only_deferCleanup
    | apply Only_retryAfter; [intros|reflexivity]
    | match goal with
      | |- Only _ (match ?x with _ => _ end) => destruct x
      | |- Only _ (fun h => match ?x with _ => _ end h) => destruct x
      end
    | progress autounfold with gofuns ].

Ltac only_calls := repeat only_step.


Section GuardRules.
Context {R : Type} (bad : Event -> option R).

Lemma Guard_only {A} (m : M R A) : Only (harmless bad) m -> Guard bad m.
Proof.
  intros Hm h ev r Hin Hbad. apply (Only_In _ _ h ev Hm) in Hin.
  unfold harmless in Hin. rewrite Hbad in Hin. discriminate.
Qed.

Lemma Guard_ret {A} (a : A) : Guard bad (@ret R A a).
Proof. intros h ev r []. Qed.

Lemma Guard_exit {A} (r : R) : Guard bad (@exit R A r).
Proof. intros h ev r' []. Qed.

Lemma Guard_bind {A B} (m : M R A) (k : A -> M R B) :
  Guard bad m -> (forall a, Guard bad (k a)) -> Guard bad (bind m k).
Proof.
  intros Hm Hk h ev r Hin Hbad. unfold bind in *. specialize (Hm h ev r).
  destruct (m h) as [e1 [a|r']]; cbn in *.
  - specialize (Hk a (h ++ e1) ev r).
    destruct (k a (h ++ e1)) as [e2 f]. cbn in *.
    apply in_app_or in Hin. destruct Hin as [Hin|Hin]; [|exact (Hk Hin Hbad)].
    specialize (Hm Hin Hbad). discriminate.
  - specialize (Hm Hin Hbad). injection Hm as ->. reflexivity.
Qed.

Lemma Guard_bind_ask {A B} (answer : Trace -> A) (ev : A -> Event) (k : A -> M R B) :
  (forall x, Guard bad (k x) /\
             (forall r, bad (ev x) = Some r -> forall h, snd (k x h) = Return r)) ->
  Guard bad (bind (ask answer ev) k).
Proof.
  intros Hk h ev' r Hin Hbad. unfold bind, ask in *. cbn in *.
  destruct (Hk (answer h)) as [Hg Hb]. specialize (Hg (h ++ [ev (answer h)]) ev' r).
  specialize (fun r H => Hb r H (h ++ [ev (answer h)])).
  destruct (k (answer h) (h ++ [ev (answer h)])) as [e2 f]. cbn in *.
  destruct Hin as [<-|Hin]; auto.
Qed.

End GuardRules.

(** The calls around the body of an entry point. *)
Lemma createLibMachineClient_run (env : Env.t) (debug : bool) (h : Trace) :
  createLibMachineClient env debug h =
  if debug then
    ([Ev.log_SetDebug true;
      Ev.libmachine_NewClient (Env.MachineBaseDir env) (Env.MachineCertsDir env)],
     (CloseClientAndUnsetLogging, None))
  else
    match Env.logging_OpenLogFile env (h ++ [Ev.log_SetDebug true]) (Env.LogFilePath env)
    with
    | Some e =>
        ([Ev.log_SetDebug true; Ev.logging_OpenLogFile (Env.LogFilePath env) (Some e)],
         (UnsetLogging, Some e))
    | None =>
        ([Ev.log_SetDebug true; Ev.logging_OpenLogFile (Env.LogFilePath env) None;
          Ev.log_SetOutWriter; Ev.log_SetErrWriter;
          Ev.libmachine_NewClient (Env.MachineBaseDir env) (Env.MachineCertsDir env)],
         (CloseClientAndUnsetLogging, None))
    end.
Proof.
  unfold createLibMachineClient, setMachineLogging. destruct debug; run; [reflexivity|].
  destruct (Env.logging_OpenLogFile env _ _); reflexivity.
Qed.

Lemma runCleanup_run (c : Cleanup) (h : Trace) :
  runCleanup c h =
  (match c with
   | UnsetLogging => [Ev.logging_CloseLogFile]
   | CloseClientAndUnsetLogging => [Ev.client_Close; Ev.logging_CloseLogFile]
   end, tt).
Proof. destruct c; reflexivity. Qed.

Lemma createLibMachineClient_events env debug h :
  forallb isClientEvent (fst (createLibMachineClient env debug h)) = true.
Proof.
  rewrite createLibMachineClient_run. destruct debug; [reflexivity|].
  destruct (Env.logging_OpenLogFile env _ _); reflexivity.
Qed.

Lemma runCleanup_events c h : forallb isClientEvent (fst (runCleanup c h)) = true.
Proof. rewrite runCleanup_run. destruct c; reflexivity. Qed.

Lemma Start_run (env : Env.t) (cfg : StartConfig) (h : Trace) :
  Start env cfg h =
  let cl := createLibMachineClient env (Debug cfg) h in
  let h1 := h ++ fst cl in
  let b := match snd (snd cl) with
           | Some e =>
               ([], Return (startError (Name cfg) "Cannot initialize libmachine" e))
           | None => startBody env cfg h1
           end in
  (fst cl ++ fst b ++ fst (runCleanup (fst (snd cl)) (h1 ++ fst b)), flowValue (snd b)).
Proof.
  unfold Start, runFn, bind, call, defer, deferCleanup, runFn, exit.
  destruct (createLibMachineClient env (Debug cfg) h) as [e0 [cleanup [e|]]];
    cbn [fst snd].
  - destruct (runCleanup cleanup _) as [e2 []]. reflexivity.
  - destruct (startBody env cfg (h ++ e0)) as [e1 [r|r]]; cbn [fst snd flowValue];
      destruct (runCleanup cleanup _) as [e2 []]; reflexivity.
Qed.

(** A guard on the body of Start is a guard on Start. *)
Lemma Start_guard (env : Env.t) (cfg : StartConfig) (bad : Event -> option StartReturn) :
  Guard bad (startBody env cfg) ->
  (forall ev, isClientEvent ev = true -> bad ev = None) ->
  forall h ev r,
    In ev (fst (Start env cfg h)) -> bad ev = Some r -> snd (Start env cfg h) = r.
Proof.
  intros Hg Hc h ev r Hin Hbad. rewrite Start_run in *. cbv zeta in *. cbn [fst snd] in *.
  pose proof (createLibMachineClient_events env (Debug cfg) h) as H1.
  set (cl := createLibMachineClient env (Debug cfg) h) in *.
  rewrite forallb_forall in H1.
  apply in_app_or in Hin. destruct Hin as [Hin|Hin].
  { apply H1, Hc in Hin. congruence. }
  apply in_app_or in Hin. destruct Hin as [Hin|Hin].
  2: { match type of Hin with In _ (fst (runCleanup ?c ?hh)) =>
         pose proof (runCleanup_events c hh) as H2 end.
       rewrite forallb_forall in H2. apply H2, Hc in Hin. congruence. }
  destruct (snd (snd cl)) as [e|]; [destruct Hin|].
  exact (f_equal flowValue (Hg _ _ _ Hin Hbad)).
Qed.


Arguments preVMStart : simpl never.
Arguments connectToVM : simpl never.
Arguments checkCertsValidity : simpl never.
Arguments addNameServer : simpl never.
Arguments determineIPs : simpl never.
Arguments dnsBringUp : simpl never.
Arguments firstBootSteps : simpl never.
Arguments renewCertificates : simpl never.
Arguments startKubelet : simpl never.
Arguments confirmKubelet : simpl never.
Arguments settleAndApprove : simpl never.
Arguments usageMessage : simpl never.


(** ** The steps of Start and their calls *)

Section Phases.
Variable env : Env.t.
Variable cfg : StartConfig.

Lemma preVMStart_phase : Only (inPhase PhPreVM) (preVMStart env cfg).
Proof. only_calls. Qed.

Lemma connectToVM_phase b k : Only (inPhase PhConnect) (connectToVM env cfg b k).
Proof. only_calls. Qed.

Lemma checkCertsValidity_phase s : Only (inPhase PhCerts) (checkCertsValidity env cfg s).
Proof. only_calls. Qed.

Lemma addNameServer_phase s : Only (inPhase PhNameServer) (addNameServer env cfg s).
Proof. only_calls. Qed.

Lemma determineIPs_phase host : Only (inPhase PhIPs) (determineIPs env cfg host).
Proof. only_calls. Qed.

Lemma dnsBringUp_phase b host s ip hostIP :
  Only (inPhase PhDNS) (dnsBringUp env cfg b host s ip hostIP).
Proof. only_calls. Qed.

Lemma firstBootSteps_phase ex b s : Only (inPhase PhFirstBoot) (firstBootSteps env cfg ex b s).
Proof. only_calls. Qed.

Lemma renewCertificates_phase flag b s oc :
  Only (inPhase PhRenew) (renewCertificates env cfg flag b s oc).
Proof. only_calls. Qed.

Lemma startKubelet_phase ex oc s p ps ip :
  Only (inPhase PhKubelet) (startKubelet env cfg ex oc s p ps ip).
Proof. only_calls. Qed.

Lemma confirmKubelet_phase oc s : Only (inPhase PhConfirm) (confirmKubelet env cfg oc s).
Proof. only_calls. Qed.

Lemma settleAndApprove_phase oc p : Only (inPhase PhSettle) (settleAndApprove env cfg oc p).
Proof. only_calls. Qed.

Lemma usageMessage_phase c : Only (inPhase PhUsage) (usageMessage c).
Proof. only_calls. Qed.

End Phases.

Arguments preVMStart : simpl never.
Arguments connectToVM : simpl never.
Arguments checkCertsValidity : simpl never.
Arguments addNameServer : simpl never.
Arguments determineIPs : simpl never.
Arguments dnsBringUp : simpl never.
Arguments firstBootSteps : simpl never.
Arguments renewCertificates : simpl never.
Arguments startKubelet : simpl never.
Arguments confirmKubelet : simpl never.
Arguments settleAndApprove : simpl never.
Arguments usageMessage : simpl never.

Lemma Only_weaken {X} (P Q : Event -> bool) (f : Trace -> list Event * X) :
  Only P f -> (forall ev, P ev = true -> Q ev = true) -> Only Q f.
Proof.
  intros Hf HPQ h. specialize (Hf h). rewrite forallb_forall in *. auto.
Qed.

Lemma Only_eq {X} (P : Event -> bool) (f : Trace -> list Event * X) h l x :
  Only P f -> f h = (l, x) -> forall ev, In ev l -> P ev = true.
Proof.
  intros Hf Heq. specialize (Hf h). rewrite Heq in Hf. cbn in Hf.
  rewrite forallb_forall in Hf. exact Hf.
Qed.

(** A call that belongs to another step is harmless for a guard on the
    calls of one step. *)
Ltac other_phase :=
  let ev := fresh "ev" in
  let H := fresh "H" in
  intros ev H; destruct ev; first [reflexivity | cbn in H; discriminate H].

Ltac guard_phase :=
  apply Guard_only;
  first
    [ eapply Only_weaken; [apply preVMStart_phase | other_phase]
    | eapply Only_weaken; [apply connectToVM_phase | other_phase]
    | eapply Only_weaken; [apply checkCertsValidity_phase | other_phase]
    | eapply Only_weaken; [apply addNameServer_phase | other_phase]
    | eapply Only_weaken; [apply determineIPs_phase | other_phase]
    | eapply Only_weaken; [apply dnsBringUp_phase | other_phase]
    | eapply Only_weaken; [apply firstBootSteps_phase | other_phase]
    | eapply Only_weaken; [apply renewCertificates_phase | other_phase]
    | eapply Only_weaken; [apply startKubelet_phase | other_phase]
    | eapply Only_weaken; [apply confirmKubelet_phase | other_phase]
    | eapply Only_weaken; [apply settleAndApprove_phase | other_phase]
    | eapply Only_weaken; [apply usageMessage_phase | other_phase] ].

(** One step of the proof of a guard, by the shape of the code. *)
Ltac guard_step :=
  lazymatch goal with
  | |- Guard _ (ret _) => apply Guard_ret
  | |- Guard _ (exit _) => apply Guard_exit
  | |- Guard _ (bind (ask _ _) _) =>
      apply Guard_bind_ask;
      let x := fresh "x" in
      intros x; split;
      [ | let r := fresh "r" in let H := fresh "Hbad" in let h := fresh "h" in
          intros r H h; cbn in H;
          repeat match type of H with
                 | context [match ?y with _ => _ end] => destruct y
                 end;
          try discriminate H;
          injection H as <-; run; repeat step; reflexivity ]
  | |- Guard _ (bind _ _) => apply Guard_bind; [|intros]
  | |- Guard _ (match ?x with _ => _ end) => destruct x
  | |- Guard _ (ask _ _) => apply Guard_only; solve [only_calls]
  | |- Guard _ (emit _) => apply Guard_only; solve [only_calls]
  | |- Guard _ (call _) => apply Guard_only; solve [only_calls]
  | |- Guard _ _ => progress (repeat autounfold with gofuns)
  end.

Ltac guard_calls := repeat guard_step.

(** A guard on the body of Start: the steps that cannot make the guarded
    call are skipped as wholes, the one that can is walked through. *)
Ltac guard_body :=
  unfold startBody;
  repeat lazymatch goal with
    | |- Guard _ (ret _) => apply Guard_ret
    | |- Guard _ (bind _ _) => apply Guard_bind; [|intros]
    | |- Guard _ (let _ := _ in _) => cbv zeta
    | |- Guard _ (match ?x with _ => _ end) => destruct x
    | |- Guard _ _ => first [guard_phase | solve [guard_calls]]
    end.



Lemma Infix_app_l (block x y : list Event) : Infix block x -> Infix block (x ++ y).
Proof.
  intros (l1 & l2 & ->). exists l1, (l2 ++ y). rewrite <- !app_assoc. reflexivity.
Qed.

Lemma Infix_app_r (block x y : list Event) : Infix block y -> Infix block (x ++ y).
Proof.
  intros (l1 & l2 & ->). exists (x ++ l1), l2. rewrite <- !app_assoc. reflexivity.
Qed.

Lemma Before_app_l (a b : Event) (x y : list Event) : Before a b x -> Before a b (x ++ y).
Proof.
  intros (l1 & l2 & l3 & ->). exists l1, l2, (l3 ++ y).
  repeat (rewrite <- app_assoc; cbn). reflexivity.
Qed.

Lemma Before_app_r (a b : Event) (x y : list Event) : Before a b y -> Before a b (x ++ y).
Proof.
  intros (l1 & l2 & l3 & ->). exists (x ++ l1), l2, l3.
  rewrite <- !app_assoc. reflexivity.
Qed.

Lemma Before_In (a b : Event) (x y : list Event) :
  In a x -> In b y -> Before a b (x ++ y).
Proof.
  intros Ha Hb. apply in_split in Ha. apply in_split in Hb.
  destruct Ha as (l1 & l2 & ->). destruct Hb as (l3 & l4 & ->).
  exists l1, (l2 ++ l3), l4. repeat (rewrite <- app_assoc; cbn). reflexivity.
Qed.

(** In the trace of a run that stopped in or went through the steps of
    [startBody], a call that only one step makes lies in the segment of
    that step. *)
Ltac wrong_phase Hin :=
  match type of Hin with
  | In _ ?l =>
      match goal with
      | H : preVMStart _ _ _ = (l, _) |- _ =>
          apply (Only_eq _ _ _ _ _ (preVMStart_phase _ _) H) in Hin
      | H : connectToVM _ _ _ _ _ = (l, _) |- _ =>
          apply (Only_eq _ _ _ _ _ (connectToVM_phase _ _ _ _) H) in Hin
      | H : checkCertsValidity _ _ _ _ = (l, _) |- _ =>
          apply (Only_eq _ _ _ _ _ (checkCertsValidity_phase _ _ _) H) in Hin
      | H : addNameServer _ _ _ _ = (l, _) |- _ =>
          apply (Only_eq _ _ _ _ _ (addNameServer_phase _ _ _) H) in Hin
      | H : determineIPs _ _ _ _ = (l, _) |- _ =>
          apply (Only_eq _ _ _ _ _ (determineIPs_phase _ _ _) H) in Hin
      | H : dnsBringUp _ _ _ _ _ _ _ _ = (l, _) |- _ =>
          apply (Only_eq _ _ _ _ _ (dnsBringUp_phase _ _ _ _ _ _ _) H) in Hin
      | H : firstBootSteps _ _ _ _ _ _ = (l, _) |- _ =>
          apply (Only_eq _ _ _ _ _ (firstBootSteps_phase _ _ _ _ _) H) in Hin
      | H : renewCertificates _ _ _ _ _ _ _ = (l, _) |- _ =>
          apply (Only_eq _ _ _ _ _ (renewCertificates_phase _ _ _ _ _ _) H) in Hin
      | H : startKubelet _ _ _ _ _ _ _ _ _ = (l, _) |- _ =>
          apply (Only_eq _ _ _ _ _ (startKubelet_phase _ _ _ _ _ _ _ _) H) in Hin
      | H : confirmKubelet _ _ _ _ _ = (l, _) |- _ =>
          apply (Only_eq _ _ _ _ _ (confirmKubelet_phase _ _ _ _) H) in Hin
      | H : settleAndApprove _ _ _ _ _ = (l, _) |- _ =>
          apply (Only_eq _ _ _ _ _ (settleAndApprove_phase _ _ _ _) H) in Hin
      | H : usageMessage _ _ = (l, _) |- _ =>
          apply (Only_eq _ _ _ _ _ (usageMessage_phase _) H) in Hin
      end
  end;
  cbn in Hin; discriminate Hin.

Ltac locate Hin :=
  repeat (apply in_app_or in Hin; destruct Hin as [Hin|Hin]);
  try solve [wrong_phase Hin]; try solve [destruct Hin].

Ltac body_cases :=
  unfold startBody, bind; repeat step;
  let H := fresh in intros H; injection H as <- <-.

Section DNS.
Variable env : Env.t.
Variable cfg : StartConfig.



Lemma Start_decompose h :
  exists ecl eb ecu,
    fst (Start env cfg h) = ecl ++ eb ++ ecu /\
    forallb isClientEvent ecl = true /\
    forallb isClientEvent ecu = true /\
    ((exists e, eb = [] /\
                snd (Start env cfg h) =
                startError (Name cfg) "Cannot initialize libmachine" e) \/
     (exists fb, startBody env cfg (h ++ ecl) = (eb, fb) /\
                 snd (Start env cfg h) = flowValue fb)).
Proof.
  rewrite Start_run. cbv zeta. cbn [fst snd].
  pose proof (createLibMachineClient_events env (Debug cfg) h) as Hcl.
  destruct (createLibMachineClient env (Debug cfg) h) as [ecl [cleanup [e|]]];
    cbn [fst snd] in *.
  - eexists ecl, [], _. split; [reflexivity|]. split; [exact Hcl|].
    split; [apply runCleanup_events|]. left. exists e. split; reflexivity.
  - destruct (startBody env cfg (h ++ ecl)) as [eb fb] eqn:Hb. cbn [fst snd].
    eexists ecl, eb, _. split; [reflexivity|]. split; [exact Hcl|].
    split; [apply runCleanup_events|]. right. exists fb. split; [exact Hb|reflexivity].
Qed.

Lemma In_body (ecl eb ecu : list Event) (ev : Event) :
  forallb isClientEvent ecl = true -> forallb isClientEvent ecu = true ->
  isClientEvent ev = false ->
  In ev (ecl ++ eb ++ ecu) -> In ev eb.
Proof.
  intros H1 H2 Hev Hin. rewrite forallb_forall in H1, H2.
  apply in_app_or in Hin. destruct Hin as [Hin|Hin].
  { apply H1 in Hin. congruence. }
  apply in_app_or in Hin. destruct Hin as [Hin|Hin]; [exact Hin|].
  apply H2 in Hin. congruence.
Qed.

End DNS.

(** ** Certificates *)

Section Certs.
Variable env : Env.t.
Variable cfg : StartConfig.








End Certs.

(** ** Start on a recorded instance *)

Section Existing.
Variable env : Env.t.
Variable cfg : StartConfig.

Lemma Exists_run name h :
  Exists env name h =
  match Env.logging_OpenLogFile env (h ++ [Ev.log_SetDebug true]) (Env.LogFilePath env) with
  | Some e =>
      ([Ev.log_SetDebug true; Ev.logging_OpenLogFile (Env.LogFilePath env) (Some e);
        Ev.logging_CloseLogFile], (false, Some e))
  | None =>
      let h1 := h ++ [Ev.log_SetDebug true; Ev.logging_OpenLogFile (Env.LogFilePath env) None;
                      Ev.log_SetOutWriter; Ev.log_SetErrWriter;
                      Ev.libmachine_NewClient (Env.MachineBaseDir env) (Env.MachineCertsDir env)] in
      ([Ev.log_SetDebug true; Ev.logging_OpenLogFile (Env.LogFilePath env) None;
        Ev.log_SetOutWriter; Ev.log_SetErrWriter;
        Ev.libmachine_NewClient (Env.MachineBaseDir env) (Env.MachineCertsDir env);
        Ev.api_Exists name (Env.api_Exists env h1 name);
        Ev.client_Close; Ev.logging_CloseLogFile],
       match Env.api_Exists env h1 name with
       | (_, Some e) => (false, Some (Wrapf "Error checking if the host exists: %s" e))
       | (exists_, None) => (exists_, None)
       end)
  end.
Proof.
  unfold Exists. run.
  destruct (Env.logging_OpenLogFile env _ _) as [e0|]; cbn; [reflexivity|].
  rewrite <- app_assoc. cbn.
  destruct (Env.api_Exists env _ name) as [ex [e1|]]; reflexivity.
Qed.

(** The two branches of the first step. *)
Lemma preVMStart_run h :
  preVMStart env cfg h =
  let ex := Exists env (Name cfg) h in
  let h1 := h ++ fst ex in
  if fst (snd ex) then
    (fst ex ++ fst (startExistingVM env cfg h1),
     match snd (startExistingVM env cfg h1) with
     | Next (crcBundleMetadata, privateKeyPath) =>
         Next (true, crcBundleMetadata, privateKeyPath, "")
     | Return r => Return r
     end)
  else
    (fst ex ++ fst (startNewVM env cfg h1),
     match snd (startNewVM env cfg h1) with
     | Next (crcBundleMetadata, privateKeyPath, pullSecret) =>
         Next (false, crcBundleMetadata, privateKeyPath, pullSecret)
     | Return r => Return r
     end).
Proof.
  unfold preVMStart, bind, call.
  destruct (Exists env (Name cfg) h) as [e0 [[|] err]]; cbn [fst snd negb].
  - destruct (startExistingVM env cfg (h ++ e0)) as [e1 [[m k]|r]]; cbn;
      rewrite ?app_nil_r; reflexivity.
  - destruct (startNewVM env cfg (h ++ e0)) as [e1 [[[m k] p]|r]]; cbn;
      rewrite ?app_nil_r; reflexivity.
Qed.

(** The creation branch opens with the request for the pull secret, which
    is no inspection. *)
Lemma startNewVM_inspected h l :
  inspectedState (fst (startNewVM env cfg h) ++ l) = None /\
  inspectedBundle (fst (startNewVM env cfg h) ++ l) = None.
Proof.
  unfold startNewVM, GetPullSecret. cbv zeta. rewrite bind_ask_fst. split; reflexivity.
Qed.

(** The inspection of the recorded instance, by cases on what the store and
    the driver answer: a state report Running ends it with success. *)
Lemma startExistingVM_inspected h l host :
  inspectedState (fst (startExistingVM env cfg h) ++ l) = Some (host, inl Running) ->
  (snd (startExistingVM env cfg h) = Return (alreadyRunning cfg) /\
   forallb inspectsOnly (fst (startExistingVM env cfg h)) = true) \/
  (inspectedState l = Some (host, inl Running) /\
   forallb inspectsOnly (fst (startExistingVM env cfg h)) = true /\
   exists r, snd (startExistingVM env cfg h) = Return r).
Proof.
  unfold startExistingVM, getBundleMetadataFromDriver, alreadyRunning. run.
  destruct (Env.api_Load env _ _) as [host0|e]; cbn; [|right; eauto].
  destruct (Env.Driver_GetBundleName env _ _) as [bundleName [e|]]; cbn.
  { rewrite orb_true_r. cbn. right; eauto. }
  rewrite orb_false_r.
  destruct (bundleName =? "") eqn:Hne; cbn; [right; eauto|].
  destruct (Env.bundle_GetCachedBundleInfo env _ _) as [meta|e]; cbn; [|right; eauto].
  destruct (bundleName =? Env.filepath_Base env (BundlePath cfg)); cbn; [|right; eauto].
  destruct (Env.Driver_GetState env _ _) as [st|e]; cbn; [|discriminate].
  destruct st; cbn;
    [destruct (OpenshiftVersion meta =? ""); cbn; left; split; reflexivity | ..].
  all: destruct (OpenshiftVersion meta =? ""); cbn;
    (destruct (Env.Driver_Start env _ _); cbn; [discriminate|]);
    destruct (Env.api_Save env _ _); cbn; discriminate.
Qed.

(** The same inspection when the driver names a bundle other than the one
    of the bundle path. *)
Lemma startExistingVM_bundle h l host B :
  inspectedBundle (fst (startExistingVM env cfg h) ++ l) = Some (host, (B, None)) ->
  B <> Env.filepath_Base env (BundlePath cfg) ->
  forallb inspectsOnly (fst (startExistingVM env cfg h)) = true /\
  exists r, snd (startExistingVM env cfg h) = Return r /\
            (inspectedBundle l = Some (host, (B, None)) \/
             r = invalidBundle env cfg B \/
             metadataFailure cfg B (fst (startExistingVM env cfg h)) r).
Proof.
  unfold startExistingVM, getBundleMetadataFromDriver, invalidBundle, metadataFailure. run.
  destruct (Env.api_Load env _ _) as [host0|e]; cbn -[In]; [|eauto 6].
  destruct (Env.Driver_GetBundleName env _ _) as [bundleName [e|]]; cbn -[In].
  { rewrite orb_true_r. cbn -[In]. discriminate. }
  rewrite orb_false_r.
  destruct (bundleName =? "") eqn:Hne; cbn -[In].
  { intros H Hdiff. injection H as -> ->.
    split; [reflexivity|]. eexists. split; [reflexivity|]. right. right.
    split; [eauto|]. intros meta Hin. in_cases Hin. }
  destruct (Env.bundle_GetCachedBundleInfo env _ _) as [meta|e]; cbn -[In].
  - destruct (bundleName =? Env.filepath_Base env (BundlePath cfg)) eqn:Heq; cbn -[In].
    + apply String.eqb_eq in Heq.
      assert (Hno : Some (host0, (bundleName, @None error)) = Some (host, (B, None)) ->
                    B <> Env.filepath_Base env (BundlePath cfg) -> False)
        by (intros H Hdiff; injection H as -> ->; contradiction).
      destruct (Env.Driver_GetState env _ _) as [st|e]; cbn -[In];
        [|intros H Hdiff; destruct (Hno H Hdiff)].
      destruct st; cbn -[In]; destruct (OpenshiftVersion meta =? ""); cbn -[In];
        try (intros H Hdiff; destruct (Hno H Hdiff)).
      all: (destruct (Env.Driver_Start env _ _); cbn -[In];
            [intros H Hdiff; destruct (Hno H Hdiff)|]);
        destruct (Env.api_Save env _ _); cbn -[In];
        intros H Hdiff; destruct (Hno H Hdiff).
    + intros H Hdiff. injection H as -> ->. eauto 6.
  - intros H Hdiff. injection H as -> ->.
    split; [reflexivity|]. eexists. split; [reflexivity|]. right. right.
    split; [eauto|]. intros meta Hin. in_cases Hin.
Qed.

Lemma preVMStart_inspected h l host :
  inspectedState (fst (preVMStart env cfg h) ++ l) = Some (host, inl Running) ->
  (snd (preVMStart env cfg h) = Return (alreadyRunning cfg) /\
   forallb inspectsOnly (fst (preVMStart env cfg h)) = true) \/
  (inspectedState l = Some (host, inl Running) /\
   forallb inspectsOnly (fst (preVMStart env cfg h)) = true /\
   exists r, snd (preVMStart env cfg h) = Return r).
Proof.
  rewrite preVMStart_run. cbv zeta. rewrite Exists_run.
  destruct (Env.logging_OpenLogFile env _ _) as [e0|]; cbn -[startNewVM startExistingVM].
  { rewrite (proj1 (startNewVM_inspected _ _)). discriminate. }
  destruct (Env.api_Exists env _ _) as [ex [e1|]]; cbn -[startNewVM startExistingVM].
  { rewrite (proj1 (startNewVM_inspected _ _)). discriminate. }
  destruct ex; cbn -[startNewVM startExistingVM].
  - intros H. apply startExistingVM_inspected in H.
    destruct H as [[H1 H2]|(H1 & H2 & r & H3)].
    + left. rewrite H1. split; [reflexivity|exact H2].
    + right. rewrite H3. eauto.
  - rewrite (proj1 (startNewVM_inspected _ _)). discriminate.
Qed.

Lemma preVMStart_bundle h l host B :
  inspectedBundle (fst (preVMStart env cfg h) ++ l) = Some (host, (B, None)) ->
  B <> Env.filepath_Base env (BundlePath cfg) ->
  forallb inspectsOnly (fst (preVMStart env cfg h)) = true /\
  exists r, snd (preVMStart env cfg h) = Return r /\
            (inspectedBundle l = Some (host, (B, None)) \/
             r = invalidBundle env cfg B \/
             metadataFailure cfg B (fst (preVMStart env cfg h)) r).
Proof.
  rewrite preVMStart_run. cbv zeta. rewrite Exists_run.
  destruct (Env.logging_OpenLogFile env _ _) as [e0|]; cbn -[startNewVM startExistingVM In].
  { rewrite (proj2 (startNewVM_inspected _ _)). discriminate. }
  destruct (Env.api_Exists env _ _) as [ex [e1|]]; cbn -[startNewVM startExistingVM In].
  { rewrite (proj2 (startNewVM_inspected _ _)). discriminate. }
  destruct ex; cbn -[startNewVM startExistingVM In].
  - intros H Hdiff. destruct (startExistingVM_bundle _ _ _ _ H Hdiff) as (H1 & r & H2 & H3).
    split; [exact H1|]. exists r. rewrite H2. split; [reflexivity|].
    destruct H3 as [H3|[H3|[H3 H4]]]; auto.
    right. right. split; [exact H3|]. intros meta Hin.
    repeat (destruct Hin as [Hin|Hin]; [discriminate Hin|]).
    exact (H4 meta Hin).
  - rewrite (proj2 (startNewVM_inspected _ _)). discriminate.
Qed.

(** A state report Running in the inspection ends Start with success. *)
Lemma Start_inspected_running h host :
  inspectedState (fst (Start env cfg h)) = Some (host, inl Running) ->
  snd (Start env cfg h) = alreadyRunning cfg /\
  forallb inspectsOnly (fst (Start env cfg h)) = true.
Proof.
  assert (Hbody : forall h1 pre post,
    forallb inspectsOnly pre = true ->
    forallb inspectsOnly post = true ->
    inspectedState post = None ->
    (forall l, inspectedState (pre ++ l) = inspectedState l) ->
    inspectedState (pre ++ fst (startBody env cfg h1) ++ post) = Some (host, inl Running) ->
    flowValue (snd (startBody env cfg h1)) = alreadyRunning cfg /\
    forallb inspectsOnly (pre ++ fst (startBody env cfg h1) ++ post) = true).
  { intros h1 pre post Hpre Hpost Hnone Hskip. rewrite Hskip.
    unfold startBody. rewrite bind_fst, bind_snd, <- app_assoc.
    intros H. apply preVMStart_inspected in H.
    destruct H as [[H1 H2]|(H1 & H2 & r & H3)].
    - rewrite H1. cbn. rewrite !forallb_app, Hpre, H2, Hpost. split; reflexivity.
    - rewrite H3 in H1. cbn in H1. congruence. }
  rewrite Start_run. cbv zeta. rewrite runCleanup_run, createLibMachineClient_run.
  destruct (Debug cfg).
  - cbn [fst snd]. apply Hbody; reflexivity.
  - destruct (Env.logging_OpenLogFile env _ _) as [e0|]; cbn [fst snd]; [discriminate|].
    apply Hbody; reflexivity.
Qed.

(** A bundle name other than the requested one ends Start with an error. *)
Lemma Start_inspected_bundle h host B :
  inspectedBundle (fst (Start env cfg h)) = Some (host, (B, None)) ->
  B <> Env.filepath_Base env (BundlePath cfg) ->
  forallb inspectsOnly (fst (Start env cfg h)) = true /\
  (snd (Start env cfg h) = invalidBundle env cfg B \/
   metadataFailure cfg B (fst (Start env cfg h)) (snd (Start env cfg h))).
Proof.
  assert (Hbody : forall h1 pre post,
    forallb inspectsOnly pre = true ->
    forallb inspectsOnly post = true ->
    forallb isClientEvent pre = true ->
    forallb isClientEvent post = true ->
    inspectedBundle post = None ->
    (forall l, inspectedBundle (pre ++ l) = inspectedBundle l) ->
    inspectedBundle (pre ++ fst (startBody env cfg h1) ++ post) = Some (host, (B, None)) ->
    B <> Env.filepath_Base env (BundlePath cfg) ->
    forallb inspectsOnly (pre ++ fst (startBody env cfg h1) ++ post) = true /\
    (flowValue (snd (startBody env cfg h1)) = invalidBundle env cfg B \/
     metadataFailure cfg B (pre ++ fst (startBody env cfg h1) ++ post)
       (flowValue (snd (startBody env cfg h1))))).
  { intros h1 pre post Hpre Hpost Cpre Cpost Hnone Hskip. rewrite Hskip.
    unfold startBody. rewrite bind_fst, bind_snd, <- app_assoc.
    intros H Hdiff. destruct (preVMStart_bundle _ _ _ _ H Hdiff) as (H1 & r & H2 & H3).
    rewrite H2 in *. cbn [flowValue]. rewrite !forallb_app, Hpre, H1, Hpost.
    split; [reflexivity|].
    destruct H3 as [H3|[H3|[H3 H4]]]; [cbn in H3; congruence|auto|].
    right. split; [exact H3|]. intros meta Hin.
    rewrite forallb_forall in Cpre, Cpost.
    apply in_app_or in Hin. destruct Hin as [Hin|Hin]; [apply Cpre in Hin; discriminate|].
    apply in_app_or in Hin. destruct Hin as [Hin|Hin]; [|apply Cpost in Hin; discriminate].
    exact (H4 meta Hin). }
  rewrite Start_run. cbv zeta. rewrite runCleanup_run, createLibMachineClient_run.
  destruct (Debug cfg).
  - cbn [fst snd]. apply Hbody; reflexivity.
  - destruct (Env.logging_OpenLogFile env _ _) as [e0|]; cbn [fst snd]; [discriminate|].
    apply Hbody; reflexivity.
Qed.

Lemma inspectsOnly_quiet evs :
  forallb inspectsOnly evs = true ->
  forall ev, In ev evs ->
             mutatesVM ev = false /\ (phaseOf ev = None \/ phaseOf ev = Some PhPreVM).
Proof.
  intros H ev Hin. rewrite forallb_forall in H. apply H in Hin.
  destruct ev; try discriminate Hin; cbn; auto.
Qed.

(** Runs the inspection of a recorded instance on the stable facts. *)
Ltac inspect Hlog Hex Hload Hne Hbn Hmeta :=
  rewrite Start_run, createLibMachineClient_run;
  unfold startBody, preVMStart, Exists, startExistingVM, getBundleMetadataFromDriver;
  destruct (Debug cfg); run;
  repeat first
    [ rewrite Hlog | rewrite Hex | rewrite Hload | rewrite Hbn | rewrite Hne
    | rewrite Hmeta | progress cbn ].

(** C2.  In every run of [Start] whose inspection of the recorded instance
    gets from the driver a bundle name other than the base name of the
    bundle path: Start only inspects (it makes none of the calls Start,
    Save, Create, nor any other call that changes the VM or its record), and
    it returns the error "Invalid bundle" (when the metadata of the recorded
    bundle cannot be loaded, the error "Error loading bundle metadata"
    instead).  So for an instance that is recorded and was created from the
    bundle [bundleName] (the driver records that name and its metadata is
    cached), with a log file that can be opened, Start with another bundle
    returns "Invalid bundle" and changes nothing. *)
Theorem Start_bundle_mismatch :
  (forall (h : Trace) (host : Host) (bundleName : string),
      let evs := fst (Start env cfg h) in
      let out := snd (Start env cfg h) in
      inspectedBundle evs = Some (host, (bundleName, None)) ->
      bundleName <> Env.filepath_Base env (BundlePath cfg) ->
      forallb inspectsOnly evs = true /\
      (forall ev, In ev evs -> mutatesVM ev = false) /\
      (out = invalidBundle env cfg bundleName \/ metadataFailure cfg bundleName evs out) /\
      (forall meta,
          In (Ev.bundle_GetCachedBundleInfo bundleName (inl meta)) evs ->
          out = invalidBundle env cfg bundleName)) /\
  (forall (host : Host) (bundleName : string) (meta : CrcBundleInfo),
      logFileOpens env ->
      recorded env (Name cfg) host ->
      createdFrom env host bundleName meta ->
      bundleName <> Env.filepath_Base env (BundlePath cfg) ->
      forall h : Trace,
        inspectedBundle (fst (Start env cfg h)) = Some (host, (bundleName, None)) /\
        snd (Start env cfg h) = invalidBundle env cfg bundleName /\
        forallb inspectsOnly (fst (Start env cfg h)) = true /\
        (forall ev, In ev (fst (Start env cfg h)) -> mutatesVM ev = false)).
Proof.
  split.
  - intros h host B evs out Hb Hdiff.
    destruct (Start_inspected_bundle h host B Hb Hdiff) as [H1 H2].
    split; [exact H1|]. split; [intros ev Hin; apply (inspectsOnly_quiet _ H1 ev Hin)|].
    split; [exact H2|]. intros meta Hin.
    destruct H2 as [H2|[_ H2]]; [exact H2|destruct (H2 meta Hin)].
  - intros host bundleName meta Hlog [Hex Hload] (Hne & Hbn & Hmeta) Hdiff h.
    apply String.eqb_neq in Hdiff.
    assert (H : inspectedBundle (fst (Start env cfg h)) = Some (host, (bundleName, None)) /\
                snd (Start env cfg h) = invalidBundle env cfg bundleName /\
                forallb inspectsOnly (fst (Start env cfg h)) = true).
    { unfold invalidBundle.
      inspect Hlog Hex Hload Hne Hbn Hmeta; rewrite Hdiff; cbn; repeat split; reflexivity. }
    destruct H as (H0 & H1 & H2). repeat split; try assumption.
    intros ev Hin. apply (inspectsOnly_quiet _ H2 ev Hin).
Qed.

(** C1.  In every run of [Start] whose inspection of the recorded instance
    gets from the driver the state Running: Start returns, without error,
    the result that carries the name and the state "Running"; it only
    inspects, so it makes no call that changes the VM or its record (no
    [Driver.Start], no [Save]) and no call of a post-start step.  Hence a
    second Start right after it, on the instance still running, returns the
    same result and again only inspects.  The inspection gets the state
    Running for an instance that is recorded, was created from the bundle the
    path names, and whose driver reports Running (with a log file that can be
    opened). *)
Theorem Start_already_running :
  (forall (h : Trace) (host : Host),
      let evs := fst (Start env cfg h) in
      inspectedState evs = Some (host, inl Running) ->
      snd (Start env cfg h) = alreadyRunning cfg /\
      forallb inspectsOnly evs = true /\
      (forall ev, In ev evs ->
                  mutatesVM ev = false /\
                  (phaseOf ev = None \/ phaseOf ev = Some PhPreVM))) /\
  (forall (h : Trace) (host host' : Host),
      let evs := fst (Start env cfg h) in
      let evs' := fst (Start env cfg (h ++ evs)) in
      inspectedState evs = Some (host, inl Running) ->
      inspectedState evs' = Some (host', inl Running) ->
      snd (Start env cfg (h ++ evs)) = snd (Start env cfg h) /\
      forallb inspectsOnly evs' = true /\
      (forall ev, In ev evs' -> mutatesVM ev = false)) /\
  (forall (host : Host) (bundleName : string) (meta : CrcBundleInfo),
      logFileOpens env ->
      recorded env (Name cfg) host ->
      createdFrom env host bundleName meta ->
      bundleName = Env.filepath_Base env (BundlePath cfg) ->
      vmStateIs env host Running ->
      forall h : Trace,
        inspectedState (fst (Start env cfg h)) = Some (host, inl Running)).
Proof.
  split; [|split].
  - intros h host evs Hst.
    destruct (Start_inspected_running h host Hst) as [H1 H2].
    split; [exact H1|]. split; [exact H2|]. apply inspectsOnly_quiet, H2.
  - intros h host host' evs evs' Hst Hst'.
    destruct (Start_inspected_running h host Hst) as [H1 _].
    destruct (Start_inspected_running (h ++ evs) host' Hst') as [H1' H2'].
    split; [congruence|]. split; [exact H2'|].
    intros ev Hin. apply (inspectsOnly_quiet _ H2' ev Hin).
  - intros host bundleName meta Hlog [Hex Hload] (Hne & Hbn & Hmeta) Hsame Hst h.
    apply String.eqb_eq in Hsame.
    inspect Hlog Hex Hload Hne Hbn Hmeta; rewrite Hsame; cbn; rewrite Hst; cbn;
      destruct (OpenshiftVersion meta =? ""); reflexivity.
Qed.
End Existing.

(** ** The existence check *)

Section ExistsError.
Variable env : Env.t.
Variable cfg : StartConfig.






End ExistsError.

(** ** The retry primitive in Start *)

Lemma outsideRetry_counts (l : list Event) :
  forallb outsideRetry l = true ->
  countEv isDetermineHostIP l = 0 /\ countEv isCheckProxySettings l = 0 /\
  totalSleep l = 0%Z.
Proof.
  induction l as [|ev l IH]; [repeat split|].
  cbn [forallb]. rewrite andb_true_iff. intros [Hev Hl].
  destruct (IH Hl) as (H1 & H2 & H3). unfold countEv in *.
  destruct ev; cbn in Hev |- *; try discriminate Hev; auto.
Qed.

Lemma Only_eqb {X} (P : Event -> bool) (f : Trace -> list Event * X) h l x :
  Only P f -> f h = (l, x) -> forallb P l = true.
Proof. intros Hf Heq. specialize (Hf h). rewrite Heq in Hf. exact Hf. Qed.

Section RetryInStart.
Variable env : Env.t.
Variable cfg : StartConfig.

Lemma preVMStart_outsideRetry : Only outsideRetry (preVMStart env cfg).
Proof. only_calls. Qed.
Lemma connectToVM_outsideRetry b k : Only outsideRetry (connectToVM env cfg b k).
Proof. only_calls. Qed.
Lemma checkCertsValidity_outsideRetry s : Only outsideRetry (checkCertsValidity env cfg s).
Proof. only_calls. Qed.
Lemma addNameServer_outsideRetry s : Only outsideRetry (addNameServer env cfg s).
Proof. only_calls. Qed.
Lemma dnsBringUp_outsideRetry b host s ip hostIP :
  Only outsideRetry (dnsBringUp env cfg b host s ip hostIP).
Proof. only_calls. Qed.
Lemma firstBootSteps_outsideRetry ex b s : Only outsideRetry (firstBootSteps env cfg ex b s).
Proof. only_calls. Qed.
Lemma renewCertificates_outsideRetry flag b s oc :
  Only outsideRetry (renewCertificates env cfg flag b s oc).
Proof. only_calls. Qed.
Lemma startKubelet_outsideRetry ex oc s p ps ip :
  Only outsideRetry (startKubelet env cfg ex oc s p ps ip).
Proof. only_calls. Qed.
Lemma confirmKubelet_outsideRetry oc s : Only outsideRetry (confirmKubelet env cfg oc s).
Proof. only_calls. Qed.
Lemma usageMessage_outsideRetry c : Only outsideRetry (usageMessage c).
Proof. only_calls. Qed.

Lemma determineIPs_counts host h :
  let l := fst (determineIPs env cfg host h) in
  countEv isDetermineHostIP l <= 30 /\ countEv isCheckProxySettings l = 0 /\
  (totalSleep l <= 29 * (2 * time_Second))%Z.
Proof.
  intros l. destruct (host_ip_discovery_bounds env cfg host h) as (H1 & _ & H3 & _).
  split; [exact H1|]. split; [|exact H3].
  pose proof (determineIPs_phase env cfg host h) as Hp. fold l in Hp.
  unfold countEv. induction l as [|ev l IH]; [reflexivity|].
  cbn [forallb] in Hp. apply andb_true_iff in Hp. destruct Hp as [Hev Hl].
  destruct ev; cbn in Hev |- *; try discriminate Hev; auto.
Qed.

Lemma settleAndApprove_counts oc p h :
  let l := fst (settleAndApprove env cfg oc p h) in
  countEv isDetermineHostIP l = 0 /\ countEv isCheckProxySettings l <= 60 /\
  (totalSleep l <= time_Minute * 3 + 59 * (2 * time_Second))%Z.
Proof.
  intros l.
  assert (Hd : countEv isDetermineHostIP l = 0).
  { pose proof (settleAndApprove_phase env cfg oc p h) as Hp. fold l in Hp.
    unfold countEv. induction l as [|ev l IH]; [reflexivity|].
    cbn [forallb] in Hp. apply andb_true_iff in Hp. destruct Hp as [Hev Hl].
    destruct ev; cbn in Hev |- *; try discriminate Hev; auto. }
  split; [exact Hd|]. subst l. clear Hd.
  unfold settleAndApprove, bind, time_Sleep, emit, cluster_ApproveNodeCSR, ask.
  cbn [fst snd app].
  destruct (Env.cluster_ApproveNodeCSR env _ oc) as [e|]; cbn [fst snd app].
  { unfold exit. cbn. unfold time_Minute, time_Second. split; lia. }
  destruct (IsEnabled p).
  2: { unfold ret. cbn. unfold time_Minute, time_Second. split; lia. }
  unfold bind, logging_Info, emit, call. cbn [fst snd app].
  match goal with
  | |- context [waitForProxyPropagation env oc p ?hh] =>
      destruct (proxy_propagation_bounds env oc p hh) as (H1 & _ & H3 & _);
      destruct (waitForProxyPropagation env oc p hh) as [ew []]
  end.
  cbn [fst snd app] in *. unfold countEv in *. cbn [filter isCheckProxySettings length].
  cbn [totalSleep]. split; lia.
Qed.

(** The counts of each segment of a run of the body. *)
Ltac quiet_segment H lemma :=
  let C := fresh "C" in
  pose proof (outsideRetry_counts _ (Only_eqb _ _ _ _ _ lemma H)) as C;
  destruct C as (? & ? & ?).

Ltac segment_counts :=
  try match goal with H : preVMStart _ _ _ = _ |- _ =>
        quiet_segment H preVMStart_outsideRetry end;
  try match goal with H : connectToVM _ _ ?a ?b _ = _ |- _ =>
        quiet_segment H (connectToVM_outsideRetry a b) end;
  try match goal with H : checkCertsValidity _ _ ?a _ = _ |- _ =>
        quiet_segment H (checkCertsValidity_outsideRetry a) end;
  try match goal with H : addNameServer _ _ ?a _ = _ |- _ =>
        quiet_segment H (addNameServer_outsideRetry a) end;
  try match goal with H : dnsBringUp _ _ ?a ?b ?c ?d ?e _ = _ |- _ =>
        quiet_segment H (dnsBringUp_outsideRetry a b c d e) end;
  try match goal with H : firstBootSteps _ _ ?a ?b ?c _ = _ |- _ =>
        quiet_segment H (firstBootSteps_outsideRetry a b c) end;
  try match goal with H : renewCertificates _ _ ?a ?b ?c ?d _ = _ |- _ =>
        quiet_segment H (renewCertificates_outsideRetry a b c d) end;
  try match goal with H : startKubelet _ _ ?a ?b ?c ?d ?e ?f _ = _ |- _ =>
        quiet_segment H (startKubelet_outsideRetry a b c d e f) end;
  try match goal with H : confirmKubelet _ _ ?a ?b _ = _ |- _ =>
        quiet_segment H (confirmKubelet_outsideRetry a b) end;
  try match goal with H : usageMessage ?a _ = _ |- _ =>
        quiet_segment H (usageMessage_outsideRetry a) end;
  try match goal with H : determineIPs _ _ ?host ?hh = _ |- _ =>
        let C := fresh "C" in
        pose proof (determineIPs_counts host hh) as C; cbv zeta in C;
        rewrite H in C; cbn [fst] in C; destruct C as (? & ? & ?) end;
  try match goal with H : settleAndApprove _ _ ?oc ?p ?hh = _ |- _ =>
        let C := fresh "C" in
        pose proof (settleAndApprove_counts oc p hh) as C; cbv zeta in C;
        rewrite H in C; cbn [fst] in C; destruct C as (? & ? & ?) end.

Lemma startBody_retry_bounds h :
  let l := fst (startBody env cfg h) in
  countEv isDetermineHostIP l <= 30 /\ countEv isCheckProxySettings l <= 60 /\
  (totalSleep l <= 29 * (2 * time_Second) + time_Minute * 3 + 59 * (2 * time_Second))%Z.
Proof.
  intros l. subst l. destruct (startBody env cfg h) as [eb fb] eqn:Hb. cbn [fst].
  revert Hb. body_cases.
  all: segment_counts.
  all: rewrite ?countEv_app, ?totalSleep_app.
  all: change (countEv isDetermineHostIP []) with 0;
       change (countEv isCheckProxySettings []) with 0;
       change (totalSleep []) with 0%Z.
  all: unfold time_Minute, time_Second in *.
  all: split; [lia|split; lia].
Qed.

Lemma Start_retry_bounds h :
  let evs := fst (Start env cfg h) in
  countEv isDetermineHostIP evs <= 30 /\ countEv isCheckProxySettings evs <= 60 /\
  (totalSleep evs <= 29 * (2 * time_Second) + time_Minute * 3 + 59 * (2 * time_Second))%Z.
Proof.
  intros evs. subst evs.
  destruct (Start_decompose env cfg h) as (ecl & eb & ecu & Heq & H1 & H2 & Hb).
  rewrite Heq.
  assert (Hc : forall l, forallb isClientEvent l = true -> forallb outsideRetry l = true).
  { intros l Hl. rewrite forallb_forall in *. intros ev Hin. apply Hl in Hin.
    destruct ev; try discriminate Hin; reflexivity. }
  destruct (outsideRetry_counts _ (Hc _ H1)) as (A1 & A2 & A3).
  destruct (outsideRetry_counts _ (Hc _ H2)) as (B1 & B2 & B3).
  rewrite !countEv_app, !totalSleep_app, A1, A2, A3, B1, B2, B3.
  destruct Hb as [(e0 & -> & _)|(fb & Hb & _)].
  - cbn. unfold time_Minute, time_Second. repeat split; lia.
  - pose proof (startBody_retry_bounds (h ++ ecl)) as Hbd. rewrite Hb in Hbd.
    cbn [fst] in Hbd. cbv zeta in Hbd. destruct Hbd as (D1 & D2 & D3).
    repeat split; lia.
Qed.

(** C3.  [retryAfter maxAttempts action interval] makes between one and
    [maxAttempts] invocations of the action ([Attempts]: each but the last
    answered by an error tagged retriable and followed by one sleep of the
    interval, so it sleeps only between attempts and waits
    (k-1)*interval, at most (maxAttempts-1)*interval); it stops at the
    first success or error that is not retriable and returns it, and a
    retriable error is returned only when the attempts are exhausted.  Start
    uses it with 30 attempts and 2 seconds for the host IP, and with 60
    attempts and 2 seconds for the proxy propagation; a whole run of Start
    makes at most 30 and 60 such attempts. *)
Theorem retryAfter_bounded_attempts :
  (* the primitive *)
  (forall (C : Type) (maxAttempts : Z) (action : Action C) (interval : Z)
          (c : C) (h : Trace),
      let evs := fst (retryAfter maxAttempts action interval c h) in
      let res := snd (retryAfter maxAttempts action interval c h) in
      ((maxAttempts <= 0)%Z -> evs = [] /\ res = (c, None)) /\
      ((1 <= maxAttempts)%Z ->
       exists k,
         1 <= k <= Z.to_nat maxAttempts /\
         Attempts action interval k c h evs res /\
         (forall e, snd res = Some e -> isRetriable e = true ->
                    k = Z.to_nat maxAttempts) /\
         ((forall c' h', filter isSleep (fst (action c' h')) = []) ->
          filter isSleep evs = repeat (Ev.time_Sleep interval) (k - 1) /\
          totalSleep evs = ((Z.of_nat k - 1) * interval)%Z /\
          ((0 <= interval)%Z -> (totalSleep evs <= (maxAttempts - 1) * interval)%Z)))) /\
  (* host-IP discovery: 30 attempts, 2 seconds *)
  (forall (host : Host) (h : Trace),
      let evs := fst (determineIPs env cfg host h) in
      countEv isDetermineHostIP evs <= 30 /\
      filter isSleep evs =
        repeat (Ev.time_Sleep (2 * time_Second)) (countEv isDetermineHostIP evs - 1) /\
      (totalSleep evs <= 29 * (2 * time_Second))%Z /\
      (forall instanceIP,
          Env.Driver_GetIP env h host = inl instanceIP ->
          (forall t, snd (Env.network_DetermineHostIP env t instanceIP) <> None) ->
          countEv isDetermineHostIP evs = 30 /\
          totalSleep evs = (29 * (2 * time_Second))%Z /\
          exists e, snd (determineIPs env cfg host h) =
                    Return (startError (Name cfg) "Error determining host IP"
                              (RetriableError e)))) /\
  (* proxy propagation: 60 attempts, 2 seconds *)
  (forall (oc : OcConfig) (p : ProxyConfig) (h : Trace),
      let evs := fst (waitForProxyPropagation env oc p h) in
      1 <= countEv isCheckProxySettings evs <= 60 /\
      filter isSleep evs =
        repeat (Ev.time_Sleep (2 * time_Second)) (countEv isCheckProxySettings evs - 1) /\
      (totalSleep evs <= 59 * (2 * time_Second))%Z /\
      ((forall t, Env.cluster_CheckProxySettingsForOperator env t oc p
                    "redhat-operators" "openshift-marketplace" <> inl true) ->
       countEv isCheckProxySettings evs = 60 /\
       totalSleep evs = (59 * (2 * time_Second))%Z)) /\
  (* a whole run of Start *)
  (forall h : Trace,
      let evs := fst (Start env cfg h) in
      countEv isDetermineHostIP evs <= 30 /\
      countEv isCheckProxySettings evs <= 60 /\
      (totalSleep evs <=
       29 * (2 * time_Second) + time_Minute * 3 + 59 * (2 * time_Second))%Z).
Proof.
  split; [|split; [|split]].
  - intros C n action d c h evs res. split.
    + intros Hn. subst evs res. unfold retryAfter.
      replace (Z.to_nat n) with 0 by lia. split; reflexivity.
    + intros Hn.
      destruct (retryAfter_Attempts n action d c h Hn) as (k & Hk & HA & Hlast).
      exists k. split; [exact Hk|]. split; [exact HA|]. split; [exact Hlast|].
      intros Hq. pose proof (Attempts_sleeps action d Hq _ _ _ _ _ HA) as Hs.
      split; [exact Hs|].
      assert (Ht : totalSleep evs = ((Z.of_nat k - 1) * d)%Z).
      { rewrite totalSleep_filter. fold evs in Hs. rewrite Hs, totalSleep_repeat.
        f_equal. lia. }
      split; [exact Ht|]. intros Hd. rewrite Ht.
      apply Z.mul_le_mono_nonneg_r; lia.
  - intros host h. apply host_ip_discovery_bounds.
  - intros oc p h. apply proxy_propagation_bounds.
  - intros h. apply Start_retry_bounds.
Qed.
End RetryInStart.
(** * Further properties of the entry points *)

(** ** Early returns and completed steps *)

Section ExitRules.
Context {R : Type} (P : R -> Prop).

Lemma Exits_ret {A} (a : A) : Exits P (@ret R A a).
Proof. intros h r H. discriminate H. Qed.

Lemma Exits_exit {A} (r : R) : P r -> Exits P (@exit R A r).
Proof. intros H h r' [= <-]. exact H. Qed.

Lemma Exits_ask {A} (answer : Trace -> A) (ev : A -> Event) : Exits P (@ask R A answer ev).
Proof. intros h r H. discriminate H. Qed.

Lemma Exits_emit (ev : Event) : Exits P (@emit R ev).
Proof. intros h r H. discriminate H. Qed.

Lemma Exits_call {R'} (f : Fn R') : Exits P (@call R R' f).
Proof. intros h r H. unfold call in H. destruct (f h). discriminate H. Qed.

Lemma Exits_bind {A B} (m : M R A) (k : A -> M R B) :
  Exits P m -> (forall a, Exits P (k a)) -> Exits P (bind m k).
Proof.
  intros Hm Hk h r. rewrite bind_snd. specialize (Hm h).
  destruct (snd (m h)) as [a|r']; [apply Hk|].
  intros [= <-]. apply Hm. reflexivity.
Qed.

End ExitRules.

(** Walks the text of a step and checks every early return. *)
Ltac exits_step close :=
  lazymatch goal with
  | |- Exits _ (ret _) => apply Exits_ret
  | |- Exits _ (exit _) => apply Exits_exit; close
  | |- Exits _ (ask _ _) => apply Exits_ask
  | |- Exits _ (emit _) => apply Exits_emit
  | |- Exits _ (call _) => apply Exits_call
  | |- Exits _ (bind _ _) => apply Exits_bind; [|intros]
  | |- Exits _ (match ?x with _ => _ end) => destruct x eqn:?
  | |- Exits _ (let _ := _ in _) => cbv zeta
  | |- Exits _ _ => progress (repeat autounfold with gofuns)
  end.

Ltac exits_calls close := repeat exits_step close.

(** ** Guards through called functions *)

Lemma Guard_bind_call {R A B} (bad : Event -> option R) (f : Fn A) (k : A -> M R B) :
  (forall h ev r, In ev (fst (f h)) -> bad ev = Some r ->
                  forall h', snd (k (snd (f h)) h') = Return r) ->
  (forall a, Guard bad (k a)) ->
  Guard bad (bind (call f) k).
Proof.
  intros Hf Hk h ev r Hin Hbad. unfold bind, call in *.
  specialize (Hf h ev r). specialize (Hk (snd (f h)) (h ++ fst (f h)) ev r).
  destruct (f h) as [e1 a]. cbn in *.
  destruct (k a (h ++ e1)) as [e2 fl] eqn:Hka. cbn in *.
  apply in_app_or in Hin. destruct Hin as [Hin|Hin].
  - specialize (Hf Hin Hbad (h ++ e1)). rewrite Hka in Hf. exact Hf.
  - exact (Hk Hin Hbad).
Qed.

(** A called function in which a guarded call may occur: the function is
    run by cases, and at the guarded call the caller returns. *)
Ltac guard_call :=
  apply Guard_bind_call;
  [ let h := fresh "h" in let ev := fresh "ev" in let r := fresh "r" in
    let Hin := fresh "Hin" in let Hbad := fresh "Hbad" in let h' := fresh "h'" in
    let G := fresh "G" in let HG := fresh "HG" in
    intros h ev r Hin Hbad h';
    match goal with |- ?concl => remember concl as G eqn:HG end;
    revert Hin;
    repeat autounfold with gofuns; run; repeat step;
    intros Hin;
    repeat (destruct Hin as [Hin|Hin];
            [ subst ev; cbn in Hbad;
              repeat match type of Hbad with
                     | context [match ?y with _ => _ end] => destruct y eqn:?
                     end;
              try discriminate Hbad;
              injection Hbad as <-; subst G;
              repeat autounfold with gofuns; run;
              repeat match goal with
                     | H : ?x = _ |- context [?x] => rewrite H; cbn
                     end;
              reflexivity
            | ]);
    destruct Hin
  | intros ].

Ltac fatal_step :=
  lazymatch goal with
  | |- Guard _ (ret _) => apply Guard_ret
  | |- Guard _ (exit _) => apply Guard_exit
  | |- Guard _ (bind (call _) _) =>
      first [ apply Guard_bind; [apply Guard_only; solve [only_calls] | intros]
            | guard_call ]
  | |- Guard _ (bind (ask _ _) _) => guard_step
  | |- Guard _ (bind _ _) => apply Guard_bind; [|intros]
  | |- Guard _ (match ?x with _ => _ end) => destruct x
  | |- Guard _ (let _ := _ in _) => cbv zeta
  | |- Guard _ (ask _ _) => apply Guard_only; solve [only_calls]
  | |- Guard _ (emit _) => apply Guard_only; solve [only_calls]
  | |- Guard _ (call _) => apply Guard_only; solve [only_calls]
  | |- Guard _ _ => progress (repeat autounfold with gofuns)
  end.

Section Outcome.
Variable env : Env.t.
Variable cfg : StartConfig.

Ltac fails := exits_calls ltac:(exact I).

Lemma preVMStart_exits :
  Exits (fun r => failed r \/ r = alreadyRunning cfg) (preVMStart env cfg).
Proof.
  exits_calls ltac:(first [left; exact I | idtac]).
  right. unfold alreadyRunning.
  match goal with H : IsRunning ?s = true |- _ => destruct s; try discriminate H end.
  reflexivity.
Qed.

Lemma connectToVM_exits b k : Exits failed (connectToVM env cfg b k).
Proof. fails. Qed.

Lemma checkCertsValidity_exits s : Exits failed (checkCertsValidity env cfg s).
Proof. fails. Qed.

Lemma addNameServer_exits s : Exits failed (addNameServer env cfg s).
Proof. fails. Qed.

Lemma determineIPs_exits host : Exits failed (determineIPs env cfg host).
Proof. fails. Qed.

Lemma dnsBringUp_exits b host s ip hostIP :
  Exits failed (dnsBringUp env cfg b host s ip hostIP).
Proof. fails. Qed.

Lemma firstBootSteps_exits ex b s : Exits failed (firstBootSteps env cfg ex b s).
Proof. fails. Qed.

Lemma renewCertificates_exits flag b s oc :
  Exits failed (renewCertificates env cfg flag b s oc).
Proof. fails. Qed.

Lemma startKubelet_exits ex oc s p ps ip :
  Exits failed (startKubelet env cfg ex oc s p ps ip).
Proof. fails. Qed.

Lemma confirmKubelet_exits oc s : Exits failed (confirmKubelet env cfg oc s).
Proof. fails. Qed.

Lemma settleAndApprove_exits oc p : Exits failed (settleAndApprove env cfg oc p).
Proof. fails. Qed.

Lemma usageMessage_exits c : Exits (fun _ : StartReturn => False) (usageMessage c).
Proof. exits_calls ltac:(idtac). Qed.

End Outcome.

(** ** What a completed step has done *)

Section Completed.
Variable env : Env.t.
Variable cfg : StartConfig.

Lemma connectToVM_done b k h l clusterConfig host vmState sshRunner :
  connectToVM env cfg b k h = (l, Next (clusterConfig, host, vmState, sshRunner)) ->
  (exists pre, l = pre ++ [Ev.api_Load (Name cfg) (inl host);
                           Ev.Driver_GetState host (inl vmState);
                           Ev.logging LDebug "Waiting until ssh is available" [];
                           Ev.cluster_WaitForSSH sshRunner None;
                           Ev.logging LInfo "CodeReady Containers VM is running" []]) /\
  sshRunner = CreateRunnerWithPrivateKey host k /\
  KubeConfig clusterConfig = KubeConfigPath b /\
  WebConsoleURL clusterConfig = Env.DefaultWebConsoleURL env /\
  ClusterAPI clusterConfig = Env.DefaultAPIURL env /\
  In (Ev.GetKubeadminPassword b (inl (KubeAdminPass clusterConfig))) l.
Proof.
  unfold connectToVM, getClusterConfig, getProxyConfig. run. repeat step.
  all: intros H; try discriminate H; injection H as <- <- <- <- <-.
  all: split; [eexists [_; _]; reflexivity|].
  all: repeat split; left; reflexivity.
Qed.

Lemma startKubelet_done ex oc s p ps ip h l p' :
  startKubelet env cfg ex oc s p ps ip h = (l, Next p') ->
  exists rest,
    l = Ev.logging LInfo "Starting OpenShift kubelet service" [] ::
        Ev.sd_Start (NewInstanceSystemdCommander s) "kubelet" None :: rest.
Proof.
  intros H. pose proof (f_equal fst H) as Hl. pose proof (f_equal snd H) as Hr.
  cbn [fst snd] in Hl, Hr. subst l. revert Hr. unfold startKubelet.
  rewrite bind_fst, bind_snd. cbn.
  destruct (Env.sd_Start env _ _ _) as [e|]; cbn; [discriminate|].
  match goal with |- context [let '(_, _) := ?x in _] => destruct x as [e2 f] end.
  cbn. intros _. eexists. reflexivity.
Qed.

Lemma confirmKubelet_done oc s h l kubeletStarted :
  confirmKubelet env cfg oc s h = (l, Next kubeletStarted) ->
  exists rest,
    l = Ev.sd_IsActive (NewInstanceSystemdCommander s) "kubelet" (inl kubeletStarted) :: rest /\
    (kubeletStarted = false -> rest = []).
Proof.
  unfold confirmKubelet. run. repeat step.
  all: intros H; try discriminate H; injection H as <- <-.
  all: eexists; split; [reflexivity|]; intros; try discriminate; reflexivity.
Qed.

Lemma settleAndApprove_shape oc p h :
  exists r rest,
    fst (settleAndApprove env cfg oc p h) =
      Ev.time_Sleep (time_Minute * 3) :: Ev.cluster_ApproveNodeCSR oc r :: rest /\
    match r with
    | Some e =>
        rest = [] /\
        snd (settleAndApprove env cfg oc p h) =
          Return (startError (Name cfg) "Error approving the node csr" e)
    | None => snd (settleAndApprove env cfg oc p h) = Next tt
    end.
Proof.
  unfold settleAndApprove. rewrite bind_fst, bind_snd. cbn.
  destruct (Env.cluster_ApproveNodeCSR env _ _) as [e|]; cbn.
  - eexists _, _. split; [reflexivity|]. split; reflexivity.
  - destruct (IsEnabled p); cbn.
    + unfold call. destruct (waitForProxyPropagation env oc p _) as [e2 []]. cbn.
      eexists _, _. split; reflexivity.
    + eexists _, _. split; reflexivity.
Qed.

Lemma usageMessage_run c h :
  usageMessage c h =
  ([Ev.logging LInfo "" [];
    Ev.logging LInfo
      "To access the cluster, first set up your environment by following 'crc oc-env' instructions" [];
    Ev.logging LInfo "Then you can access it by running 'oc login -u developer -p developer %s'"
      [AStr (ClusterAPI c)];
    Ev.logging LInfo "To login as an admin, run 'oc login -u kubeadmin -p %s %s'"
      [AStr (KubeAdminPass c); AStr (ClusterAPI c)];
    Ev.logging LInfo "" [];
    Ev.logging LInfo
      "You can now run 'crc console' and use these credentials to access the OpenShift web console" []],
   Next tt).
Proof. reflexivity. Qed.

End Completed.

(** ** When Start reports no error *)

Lemma Exits_eq {R A} (P : R -> Prop) (m : M R A) h l r :
  Exits P m -> m h = (l, Return r) -> P r.
Proof. intros Hm Heq. apply (Hm h). rewrite Heq. reflexivity. Qed.

(** The step that ended the body early, and what it returned. *)
Ltac exited :=
  match goal with
  | H : preVMStart _ _ _ = (_, Return _) |- _ =>
      pose proof (Exits_eq _ _ _ _ _ (preVMStart_exits _ _) H)
  | H : connectToVM _ _ _ _ _ = (_, Return _) |- _ =>
      pose proof (Exits_eq _ _ _ _ _ (connectToVM_exits _ _ _ _) H)
  | H : checkCertsValidity _ _ _ _ = (_, Return _) |- _ =>
      pose proof (Exits_eq _ _ _ _ _ (checkCertsValidity_exits _ _ _) H)
  | H : addNameServer _ _ _ _ = (_, Return _) |- _ =>
      pose proof (Exits_eq _ _ _ _ _ (addNameServer_exits _ _ _) H)
  | H : determineIPs _ _ _ _ = (_, Return _) |- _ =>
      pose proof (Exits_eq _ _ _ _ _ (determineIPs_exits _ _ _) H)
  | H : dnsBringUp _ _ _ _ _ _ _ _ = (_, Return _) |- _ =>
      pose proof (Exits_eq _ _ _ _ _ (dnsBringUp_exits _ _ _ _ _ _ _) H)
  | H : firstBootSteps _ _ _ _ _ _ = (_, Return _) |- _ =>
      pose proof (Exits_eq _ _ _ _ _ (firstBootSteps_exits _ _ _ _ _) H)
  | H : renewCertificates _ _ _ _ _ _ _ = (_, Return _) |- _ =>
      pose proof (Exits_eq _ _ _ _ _ (renewCertificates_exits _ _ _ _ _ _) H)
  | H : startKubelet _ _ _ _ _ _ _ _ _ = (_, Return _) |- _ =>
      pose proof (Exits_eq _ _ _ _ _ (startKubelet_exits _ _ _ _ _ _ _ _) H)
  | H : confirmKubelet _ _ _ _ _ = (_, Return _) |- _ =>
      pose proof (Exits_eq _ _ _ _ _ (confirmKubelet_exits _ _ _ _) H)
  | H : settleAndApprove _ _ _ _ _ = (_, Return _) |- _ =>
      pose proof (Exits_eq _ _ _ _ _ (settleAndApprove_exits _ _ _ _) H)
  | H : usageMessage _ _ = (_, Return _) |- _ =>
      pose proof (Exits_eq _ _ _ _ _ (usageMessage_exits _) H)
  end.

Section Success.
Variable env : Env.t.
Variable cfg : StartConfig.

Lemma startBody_success h eb fb res :
  startBody env cfg h = (eb, fb) ->
  flowValue fb = Returned (res, None) ->
  fb = Return (alreadyRunning cfg) \/
  (srName res = Name cfg /\
   (exists host st,
       Infix [Ev.api_Load (Name cfg) (inl host); Ev.Driver_GetState host (inl st)] eb /\
       srStatus res = State_String st) /\
   (exists sd, In (Ev.sd_Start sd "kubelet" None) eb) /\
   (exists sd, In (Ev.sd_IsActive sd "kubelet" (inl (srKubeletStarted res))) eb) /\
   In (Ev.time_Sleep (time_Minute * 3)) eb /\
   (exists oc, In (Ev.cluster_ApproveNodeCSR oc None) eb)).
Proof.
  body_cases.
  all: cbn [flowValue]; intros Hres.
  all: try (exited; cbv beta in *; match goal with
                    | H : failed _ |- _ => rewrite Hres in H; destruct H
                    | H : failed _ \/ _ |- _ =>
                        destruct H as [H|H]; [rewrite Hres in H; destruct H|]
                    | H : False |- _ => destruct H
                    end).
  all: try solve [left; match goal with H : _ = alreadyRunning _ |- _ => rewrite H end;
                  reflexivity].
  right. injection Hres as <-. cbn [srName srStatus srKubeletStarted].
  destruct (connectToVM_done _ _ _ _ _ _ _ _ _ _ Heqp3) as ((pre & Hl0) & _).
  destruct (startKubelet_done _ _ _ _ _ _ _ _ _ _ _ Heqp14) as (rest7 & Hl7).
  destruct (confirmKubelet_done _ _ _ _ _ _ _ Heqp15) as (rest8 & Hl8 & _).
  destruct (settleAndApprove_shape env cfg (UseOCWithSSH a5) a7
              ((((((((((h ++ l) ++ l0) ++ l1) ++ l2) ++ l3) ++ l4) ++ l5) ++ l6) ++ l7) ++ l8))
    as (r9 & rest9 & Hl9 & Hr9).
  rewrite Heqp16 in Hl9, Hr9. cbn [fst snd] in Hl9, Hr9.
  destruct r9 as [e|]; [destruct Hr9 as [_ Hr9]; discriminate Hr9|].
  subst l0 l7 l8 l9.
  split; [reflexivity|]. split; [|split; [|split; [|split]]].
  - exists h0, s1. split; [|reflexivity].
    apply Infix_app_r, Infix_app_l.
    exists pre, [Ev.logging LDebug "Waiting until ssh is available" [];
                 Ev.cluster_WaitForSSH r None;
                 Ev.logging LInfo "CodeReady Containers VM is running" []].
    reflexivity.
  - eexists. do 8 (apply in_or_app; right). apply in_or_app. left. right. left. reflexivity.
  - eexists. do 9 (apply in_or_app; right). apply in_or_app. left. left. reflexivity.
  - do 10 (apply in_or_app; right). apply in_or_app. left. left. reflexivity.
  - eexists. do 10 (apply in_or_app; right). apply in_or_app. left. right. left. reflexivity.
Qed.

End Success.

Section SuccessOfStart.
Variable env : Env.t.
Variable cfg : StartConfig.

(** Once the node CSR is approved nothing fails the body any more. *)
Lemma startBody_approved h eb fb oc :
  startBody env cfg h = (eb, fb) ->
  In (Ev.cluster_ApproveNodeCSR oc None) eb ->
  exists res, fb = Next (Returned (res, None)).
Proof.
  body_cases.
  all: intros Hin; locate Hin.
  all: try (exited; cbv beta in *; match goal with H : False |- _ => destruct H end).
  all: try solve [eexists; reflexivity].
  all: match goal with
       | H : settleAndApprove _ _ ?oc ?p ?t = _ |- _ =>
           destruct (settleAndApprove_shape env cfg oc p t) as (r9 & rest9 & Hl9 & Hr9);
           rewrite H in Hl9, Hr9; cbn [fst snd] in Hl9, Hr9
       end.
  all: destruct r9 as [e|]; [destruct Hr9 as [-> _]|discriminate Hr9].
  all: subst; in_cases Hin.
Qed.

(** What the check of the kubelet service does. *)
Lemma confirmKubelet_shape oc s h :
  exists r rest,
    fst (confirmKubelet env cfg oc s h) =
      Ev.sd_IsActive (NewInstanceSystemdCommander s) "kubelet" r :: rest /\
    (forall sd service r', ~ In (Ev.sd_IsActive sd service r') rest) /\
    (r = inl false -> rest = [] /\ snd (confirmKubelet env cfg oc s h) = Next false).
Proof.
  unfold confirmKubelet. run. repeat step.
  all: eexists _, _; split; [reflexivity|]; split;
    [intros sd service r' Hin; in_cases Hin | intros H; try discriminate H; split; reflexivity].
Qed.

Lemma startBody_kubelet_inactive h eb fb sd :
  startBody env cfg h = (eb, fb) ->
  In (Ev.sd_IsActive sd "kubelet" (inl false)) eb ->
  (forall ev, In ev eb ->
     match ev with
     | Ev.cluster_WaitforRequestHeaderClientCaFile _ _
     | Ev.cluster_DeleteOpenshiftAPIServerPods _ _ => False
     | _ => True
     end) /\
  exists r,
    Infix [Ev.sd_IsActive sd "kubelet" (inl false);
           Ev.time_Sleep (time_Minute * 3);
           Ev.cluster_ApproveNodeCSR (UseOCWithSSH (sdRunner sd)) r] eb /\
    match r with
    | None => exists res, fb = Next (Returned (res, None)) /\ srKubeletStarted res = false
    | Some e => fb = Return (startError (Name cfg) "Error approving the node csr" e)
    end.
Proof.
  body_cases.
  all: intros Hin; locate Hin.
  all: match goal with
       | H : confirmKubelet _ _ ?oc ?s ?t = _ |- _ =>
           destruct (confirmKubelet_shape oc s t) as (r8 & rest8 & Hl8 & Hno & Hr8);
           rewrite H in Hl8, Hr8; cbn [fst snd] in Hl8, Hr8; subst
       end.
  all: destruct Hin as [Hin|Hin]; [|destruct (Hno _ _ _ Hin)].
  all: injection Hin as <- ->.
  all: destruct (Hr8 eq_refl) as [-> Hfl]; try discriminate Hfl.
  all: injection Hfl as ->.
  all: try (exited; cbv beta in *; match goal with H : False |- _ => destruct H end).
  all: match goal with
       | H : settleAndApprove _ _ ?oc ?p ?t = _ |- _ =>
           destruct (settleAndApprove_shape env cfg oc p t) as (r9 & rest9 & Hl9 & Hr9);
           rewrite H in Hl9, Hr9; cbn [fst snd] in Hl9, Hr9
       end.
  all: destruct r9 as [e|]; [destruct Hr9 as [-> Hr9]|]; try discriminate Hr9; subst.
  all: (split;
        [ intros ev Hev; destruct ev; try exact I; locate Hev; in_cases Hev | ]).
  all: match goal with
       | H : settleAndApprove _ _ _ _ _ = (_ :: Ev.cluster_ApproveNodeCSR _ ?r :: _, _) |- _ =>
           exists r
       end.
  all: split.
  all: try (cbn; first [ reflexivity | eexists; split; reflexivity
                        | match goal with
                          | H : Return _ = Return _ |- _ => injection H as ->; reflexivity
                          end ]).
  all: cbn [sdRunner NewInstanceSystemdCommander].
  all: do 9 apply Infix_app_r.
  all: cbn [app]; eexists [], _; reflexivity.
Qed.

End SuccessOfStart.

(** ** The outcome of Start *)

Section OutcomeOfStart.
Variable env : Env.t.
Variable cfg : StartConfig.

Lemma fatalCall_guard : Guard (fatalCall cfg) (startBody env cfg).
Proof. guard_body. all: repeat fatal_step. Qed.

(** X1.  In every run of [Start], the failure of a call of the table
    [fatalCall] (pull secret, bundle extraction, disk image check, creation
    of the host and of the VM, start and save of a stopped VM, kubeadmin
    password, SSH wait, nameserver, instance IP, DNS post-start, SSH key
    pair, kubeconfig copies, kubelet start, pull secret and cluster ID
    injection, kubelet check, client-ca wait, API server pods, node CSR)
    makes Start return the error with the stage label of that call and its
    cause. *)
Theorem Start_fatal_calls :
  forall (h : Trace) (ev : Event) (r : StartReturn),
    In ev (fst (Start env cfg h)) ->
    fatalCall cfg ev = Some r ->
    snd (Start env cfg h) = r.
Proof.
  intros h ev r Hin Hbad.
  apply (Start_guard env cfg (fatalCall cfg)) with (ev := ev) (h := h);
    [ apply fatalCall_guard
    | intros ev' Hc; destruct ev'; try reflexivity; discriminate Hc
    | exact Hin | exact Hbad ].
Qed.

(** X2.  Whenever [Start] returns no error, either it is the result for an
    instance that already runs, or the run has loaded the instance and read
    its state after the start (the reported status), started the kubelet
    service, asked whether it is active (the reported flag), slept three
    minutes and had the node CSR approved. *)
Theorem Start_success_requires :
  forall (h : Trace) (res : StartResult),
    let evs := fst (Start env cfg h) in
    snd (Start env cfg h) = Returned (res, None) ->
    Returned (res, None) = alreadyRunning cfg \/
    (srName res = Name cfg /\
     (exists host st,
         Infix [Ev.api_Load (Name cfg) (inl host); Ev.Driver_GetState host (inl st)] evs /\
         srStatus res = State_String st) /\
     (exists sd, In (Ev.sd_Start sd "kubelet" None) evs) /\
     (exists sd, In (Ev.sd_IsActive sd "kubelet" (inl (srKubeletStarted res))) evs) /\
     In (Ev.time_Sleep (time_Minute * 3)) evs /\
     (exists oc, In (Ev.cluster_ApproveNodeCSR oc None) evs)).
Proof.
  intros h res evs Hres. subst evs.
  destruct (Start_decompose env cfg h) as (ecl & eb & ecu & Heq & H1 & H2 & Hb).
  rewrite Heq.
  destruct Hb as [(e0 & _ & Hout)|(fb & Hb & Hout)];
    [rewrite Hout in Hres; discriminate Hres|].
  rewrite Hout in Hres.
  destruct (startBody_success env cfg _ _ _ _ Hb Hres)
    as [->|(Hn & (host & st & HI & Hs) & (sd & Hk) & (sd' & Ha) & Hsl & (oc & Hc))].
  - left. symmetry. exact Hres.
  - right. split; [exact Hn|]. split; [|split; [|split; [|split]]].
    + exists host, st. split; [apply Infix_app_r, Infix_app_l, HI | exact Hs].
    + exists sd. apply in_or_app. right. apply in_or_app. left. exact Hk.
    + exists sd'. apply in_or_app. right. apply in_or_app. left. exact Ha.
    + apply in_or_app. right. apply in_or_app. left. exact Hsl.
    + exists oc. apply in_or_app. right. apply in_or_app. left. exact Hc.
Qed.

(** X3.  In every run of [Start] in which the node CSR is approved, Start
    returns no error: nothing after the approval is fatal, the wait for the
    proxy propagation included, whatever its checks answer. *)
Theorem Start_succeeds_once_approved :
  forall (h : Trace) (oc : OcConfig),
    In (Ev.cluster_ApproveNodeCSR oc None) (fst (Start env cfg h)) ->
    exists res, snd (Start env cfg h) = Returned (res, None).
Proof.
  intros h oc Hin.
  destruct (Start_decompose env cfg h) as (ecl & eb & ecu & Heq & H1 & H2 & Hb).
  rewrite Heq in Hin. apply In_body in Hin; [|assumption|assumption|reflexivity].
  destruct Hb as [(e0 & -> & _)|(fb & Hb & Hout)]; [destruct Hin|].
  destruct (startBody_approved env cfg _ _ _ _ Hb Hin) as (res & ->).
  exists res. exact Hout.
Qed.

(** X4.  In every run of [Start] in which the kubelet service is reported
    inactive, Start does not fail for it: it makes neither the wait for the
    client-ca request header nor the deletion of the API server pods, goes
    straight to the three-minute sleep and the approval of the node CSR, and
    when the CSR is approved it returns no error and a result whose
    KubeletStarted flag is false. *)
Theorem Start_kubelet_inactive :
  forall (h : Trace) (sd : SystemdCommander),
    let evs := fst (Start env cfg h) in
    let out := snd (Start env cfg h) in
    In (Ev.sd_IsActive sd "kubelet" (inl false)) evs ->
    (forall oc r, ~ In (Ev.cluster_WaitforRequestHeaderClientCaFile oc r) evs) /\
    (forall oc r, ~ In (Ev.cluster_DeleteOpenshiftAPIServerPods oc r) evs) /\
    exists r,
      Infix [Ev.sd_IsActive sd "kubelet" (inl false);
             Ev.time_Sleep (time_Minute * 3);
             Ev.cluster_ApproveNodeCSR (UseOCWithSSH (sdRunner sd)) r] evs /\
      match r with
      | None => exists res, out = Returned (res, None) /\ srKubeletStarted res = false
      | Some e => out = startError (Name cfg) "Error approving the node csr" e
      end.
Proof.
  intros h sd evs out Hin. subst evs out.
  destruct (Start_decompose env cfg h) as (ecl & eb & ecu & Heq & H1 & H2 & Hb).
  rewrite Heq in *. apply In_body in Hin; [|assumption|assumption|reflexivity].
  destruct Hb as [(e0 & -> & _)|(fb & Hb & Hout)]; [destruct Hin|].
  destruct (startBody_kubelet_inactive env cfg _ _ _ _ Hb Hin) as (Hno & r & HI & Hr).
  split; [|split].
  - intros oc r' Hin'. apply In_body in Hin'; [|assumption|assumption|reflexivity].
    exact (Hno _ Hin').
  - intros oc r' Hin'. apply In_body in Hin'; [|assumption|assumption|reflexivity].
    exact (Hno _ Hin').
  - exists r. split; [apply Infix_app_r, Infix_app_l, HI|].
    rewrite Hout. destruct r as [e|].
    + rewrite Hr. reflexivity.
    + destruct Hr as (res & -> & Hk). exists res. split; [reflexivity|exact Hk].
Qed.

End OutcomeOfStart.

(** ** Creation and restart *)

(** Finds two calls, one before the other, in an explicit list of calls. *)
Ltac before_at l n m :=
  exists (firstn n l), (firstn m (skipn (S n) l)), (skipn (S (S (n + m))) l); reflexivity.

Ltac before_from l n :=
  first [ before_at l n 0 | before_at l n 1 | before_at l n 2 | before_at l n 3
        | before_at l n 4 | before_at l n 5 | before_at l n 6 ].

Ltac before_here :=
  match goal with
  | |- Before _ _ ?l =>
      first [ before_from l 0 | before_from l 1 | before_from l 2 | before_from l 3
            | before_from l 4 | before_from l 5 | before_from l 6 ]
  end.

Section Creation.
Variable env : Env.t.
Variable cfg : StartConfig.

Lemma startNewVM_calls : Only (fun ev => negb (restartCall ev)) (startNewVM env cfg).
Proof. only_calls. Qed.

Lemma startExistingVM_calls : Only (fun ev => negb (creationCall ev)) (startExistingVM env cfg).
Proof. only_calls. Qed.

Lemma startNewVM_newHost h driver path json r :
  In (Ev.api_NewHost driver path json r) (fst (startNewVM env cfg h)) ->
  driver = Env.DefaultDriver_Driver env /\
  path = Env.DefaultDriver_DriverPath env /\
  exists pullSecret meta node0 others,
    Nodes meta = node0 :: others /\
    Env.marshalDriverOptions env (machineConfigOf env cfg meta node0) = inl json /\
    Before (Ev.GetPullSecret (inl pullSecret)) (Ev.CheckDiskImageSize meta None)
           (fst (startNewVM env cfg h)) /\
    Before (Ev.CheckDiskImageSize meta None) (Ev.api_NewHost driver path json r)
           (fst (startNewVM env cfg h)).
Proof.
  unfold startNewVM, getCrcBundleInfo, createHost. run. repeat step.
  all: intros Hin; in_cases Hin.
  all: injection Hin as <- <- <- <-.
  all: split; [reflexivity|]; split; [reflexivity|].
  all: eexists _, _, _, _; split; [eassumption|].
  all: split; [eassumption|].
  all: split; before_here.
Qed.

End Creation.

Section CreationCalls.
Variable env : Env.t.
Variable cfg : StartConfig.

Lemma startNewVM_create h vm r :
  In (Ev.api_Create vm r) (fst (startNewVM env cfg h)) ->
  exists driver path json,
    Infix [Ev.api_NewHost driver path json (inl vm); Ev.api_Create vm r]
          (fst (startNewVM env cfg h)).
Proof.
  unfold startNewVM, getCrcBundleInfo, createHost. run. repeat step.
  all: intros Hin; in_cases Hin.
  all: injection Hin as <- <-.
  all: eexists _, _, _.
  all: match goal with
       | |- Infix _ ?l => exists (firstn (length l - 2) l), []; reflexivity
       end.
Qed.

Lemma startNewVM_extract h path r :
  In (Ev.bundle_Extract path r) (fst (startNewVM env cfg h)) ->
  path = BundlePath cfg /\
  exists pullSecret e rest,
    fst (startNewVM env cfg h) =
      Ev.GetPullSecret (inl pullSecret) ::
      Ev.bundle_GetCachedBundleInfo (Env.filepath_Base env (BundlePath cfg)) (inr e) ::
      Ev.logging LInfo "Extracting bundle: %s ..."
        [AStr (Env.filepath_Base env (BundlePath cfg))] ::
      Ev.bundle_Extract path r :: rest.
Proof.
  unfold startNewVM, getCrcBundleInfo, createHost. run. repeat step.
  all: intros Hin; in_cases Hin.
  all: injection Hin as <- <-.
  all: split; [reflexivity|].
  all: eexists _, _, _.
  all: repeat match goal with H : ?x = _ |- context [?x] => rewrite H end.
  all: reflexivity.
Qed.

Lemma startNewVM_cached h name meta :
  In (Ev.bundle_GetCachedBundleInfo name (inl meta)) (fst (startNewVM env cfg h)) ->
  forall path r, ~ In (Ev.bundle_Extract path r) (fst (startNewVM env cfg h)).
Proof.
  unfold startNewVM, getCrcBundleInfo, createHost. run. repeat step.
  all: intros Hin; in_cases Hin.
  all: intros path r' Hex; in_cases Hex.
Qed.

Lemma startNewVM_no_nodes h meta :
  In (Ev.CheckDiskImageSize meta None) (fst (startNewVM env cfg h)) ->
  Nodes meta = [] ->
  snd (startNewVM env cfg h) = Return (Panicked "index out of range [0] with length 0") /\
  forall ev, In ev (fst (startNewVM env cfg h)) -> mutatesVM ev = false.
Proof.
  unfold startNewVM, getCrcBundleInfo, createHost. run. repeat step.
  all: intros Hin; in_cases Hin.
  all: injection Hin as <-.
  all: intros Hn; try congruence.
  all: split; [reflexivity|].
  all: intros ev Hev; in_cases Hev; subst ev; reflexivity.
Qed.

Lemma startNewVM_done h l meta key pullSecret :
  startNewVM env cfg h = (l, Next (meta, key, pullSecret)) ->
  key = SSHKeyPath meta /\
  In (Ev.GetPullSecret (inl pullSecret)) l /\
  exists vm, In (Ev.api_Create vm None) l.
Proof.
  unfold startNewVM, getCrcBundleInfo, createHost. run. repeat step.
  all: intros H; try discriminate H; injection H as <- <- <- <-.
  all: split; [reflexivity|]; split; [left; reflexivity|].
  all: eexists; repeat first [left; reflexivity | right].
Qed.

Lemma startExistingVM_restart h host r :
  In (Ev.Driver_Start host r) (fst (startExistingVM env cfg h)) ->
  (exists st, st <> Running /\
              Before (Ev.Driver_GetState host (inl st)) (Ev.Driver_Start host r)
                     (fst (startExistingVM env cfg h))) /\
  (exists meta,
      Before (Ev.bundle_GetCachedBundleInfo (Env.filepath_Base env (BundlePath cfg)) (inl meta))
             (Ev.Driver_Start host r) (fst (startExistingVM env cfg h))) /\
  (r = None ->
   exists r', Infix [Ev.Driver_Start host None; Ev.api_Save host r']
                    (fst (startExistingVM env cfg h))).
Proof.
  unfold startExistingVM, getBundleMetadataFromDriver. run. repeat step.
  all: intros Hin; in_cases Hin.
  all: injection Hin as <- <-.
  all: repeat match goal with
       | H : (_ =? _) = true |- _ => apply String.eqb_eq in H; subst
       | H : negb _ = false |- _ => apply negb_false_iff in H
       end.
  all: split; [| split].
  all: try (eexists; split; [|before_here]; intros ->; discriminate).
  all: try (eexists; before_here).
  all: intros Hr; try discriminate Hr.
  all: eexists.
  all: match goal with
       | |- Infix _ ?l => exists (firstn (length l - 2) l), []; reflexivity
       end.
Qed.

Lemma startExistingVM_done h l meta key :
  startExistingVM env cfg h = (l, Next (meta, key)) ->
  key = Env.GetPrivateKeyPath env /\
  exists host, In (Ev.Driver_Start host None) l.
Proof.
  unfold startExistingVM, getBundleMetadataFromDriver. run. repeat step.
  all: intros H; try discriminate H; injection H as <- <- <-.
  all: split; [reflexivity|].
  all: eexists; repeat first [left; reflexivity | right].
Qed.

End CreationCalls.

(** ** The first step inside a run of Start *)

(** Turns the membership of a call in the segment of a step into the phase
    of the call. *)
Ltac phase_in Hin :=
  match type of Hin with
  | In _ ?l =>
      match goal with
      | H : preVMStart _ _ _ = (l, _) |- _ =>
          apply (Only_eq _ _ _ _ _ (preVMStart_phase _ _) H) in Hin
      | H : connectToVM _ _ _ _ _ = (l, _) |- _ =>
          apply (Only_eq _ _ _ _ _ (connectToVM_phase _ _ _ _) H) in Hin
      | H : checkCertsValidity _ _ _ _ = (l, _) |- _ =>
          apply (Only_eq _ _ _ _ _ (checkCertsValidity_phase _ _ _) H) in Hin
      | H : addNameServer _ _ _ _ = (l, _) |- _ =>
          apply (Only_eq _ _ _ _ _ (addNameServer_phase _ _ _) H) in Hin
      | H : determineIPs _ _ _ _ = (l, _) |- _ =>
          apply (Only_eq _ _ _ _ _ (determineIPs_phase _ _ _) H) in Hin
      | H : dnsBringUp _ _ _ _ _ _ _ _ = (l, _) |- _ =>
          apply (Only_eq _ _ _ _ _ (dnsBringUp_phase _ _ _ _ _ _ _) H) in Hin
      | H : firstBootSteps _ _ _ _ _ _ = (l, _) |- _ =>
          apply (Only_eq _ _ _ _ _ (firstBootSteps_phase _ _ _ _ _) H) in Hin
      | H : renewCertificates _ _ _ _ _ _ _ = (l, _) |- _ =>
          apply (Only_eq _ _ _ _ _ (renewCertificates_phase _ _ _ _ _ _) H) in Hin
      | H : startKubelet _ _ _ _ _ _ _ _ _ = (l, _) |- _ =>
          apply (Only_eq _ _ _ _ _ (startKubelet_phase _ _ _ _ _ _ _ _) H) in Hin
      | H : confirmKubelet _ _ _ _ _ = (l, _) |- _ =>
          apply (Only_eq _ _ _ _ _ (confirmKubelet_phase _ _ _ _) H) in Hin
      | H : settleAndApprove _ _ _ _ _ = (l, _) |- _ =>
          apply (Only_eq _ _ _ _ _ (settleAndApprove_phase _ _ _ _) H) in Hin
      | H : usageMessage _ _ = (l, _) |- _ =>
          apply (Only_eq _ _ _ _ _ (usageMessage_phase _) H) in Hin
      end
  end.

Lemma inPhase_other (p q : Phase) (ev : Event) :
  inPhase p ev = true -> Phase_eqb p q = false -> phaseOf ev <> Some q.
Proof.
  unfold inPhase. intros H Hpq Hq. rewrite Hq in H. congruence.
Qed.

Section FirstStep.
Variable env : Env.t.
Variable cfg : StartConfig.

Lemma startBody_after_preVM h eb fb :
  startBody env cfg h = (eb, fb) ->
  exists post,
    eb = fst (preVMStart env cfg h) ++ post /\
    (forall ev, In ev post -> phaseOf ev <> Some PhPreVM) /\
    (forall r, snd (preVMStart env cfg h) = Return r -> post = [] /\ fb = Return r).
Proof.
  body_cases.
  all: match goal with
       | H : preVMStart _ _ _ = (?l, _) |- context [?l ++ ?rest = _] => exists rest
       | H : preVMStart _ _ _ = (?l, _) |- _ => exists []; rewrite app_nil_r
       end.
  all: split; [reflexivity|].
  all: (split; [| intros r' Hr'; try discriminate Hr'; injection Hr' as ->;
                  split; reflexivity]).
  all: intros ev Hin.
  all: repeat (apply in_app_or in Hin; destruct Hin as [Hin|Hin]).
  all: try solve [destruct Hin].
  all: phase_in Hin; apply (inPhase_other _ _ _ Hin); reflexivity.
Qed.

Lemma Start_after_preVM h :
  let ecl := fst (createLibMachineClient env (Debug cfg) h) in
  (exists e, snd (snd (createLibMachineClient env (Debug cfg) h)) = Some e /\
             forallb isClientEvent (fst (Start env cfg h)) = true /\
             snd (Start env cfg h) = startError (Name cfg) "Cannot initialize libmachine" e) \/
  (exists post,
      fst (Start env cfg h) = ecl ++ fst (preVMStart env cfg (h ++ ecl)) ++ post /\
      forallb isClientEvent ecl = true /\
      (forall ev, In ev post -> phaseOf ev <> Some PhPreVM) /\
      (forall r, snd (preVMStart env cfg (h ++ ecl)) = Return r ->
                 forallb isClientEvent post = true /\ snd (Start env cfg h) = r)).
Proof.
  intros ecl. subst ecl. rewrite Start_run. cbv zeta.
  pose proof (createLibMachineClient_events env (Debug cfg) h) as Hcl.
  destruct (createLibMachineClient env (Debug cfg) h) as [ecl [cleanup [e|]]];
    cbn [fst snd] in *.
  - left. exists e. split; [reflexivity|]. split; [|reflexivity].
    rewrite forallb_app, Hcl. apply runCleanup_events.
  - right. destruct (startBody env cfg (h ++ ecl)) as [eb fb] eqn:Hb. cbn [fst snd].
    destruct (startBody_after_preVM _ _ _ Hb) as (post & -> & Hpost & Hret).
    eexists. split; [rewrite <- app_assoc; reflexivity|]. split; [exact Hcl|]. split.
    + intros ev Hin. apply in_app_or in Hin. destruct Hin as [Hin|Hin]; [auto|].
      pose proof (runCleanup_events cleanup ((h ++ ecl) ++ fst (preVMStart env cfg (h ++ ecl)) ++ post)) as Hc.
      rewrite forallb_forall in Hc. apply Hc in Hin.
      destruct ev; try discriminate Hin; discriminate.
    + intros r Hr. destruct (Hret r Hr) as [-> ->]. cbn [app flowValue].
      split; [apply runCleanup_events | reflexivity].
Qed.

End FirstStep.

Section Branches.
Variable env : Env.t.
Variable cfg : StartConfig.

Lemma Exists_calls name h ev :
  In ev (fst (Exists env name h)) ->
  isClientEvent ev = true \/ ev = Ev.api_Exists name (Env.api_Exists env
    (h ++ [Ev.log_SetDebug true; Ev.logging_OpenLogFile (Env.LogFilePath env) None;
           Ev.log_SetOutWriter; Ev.log_SetErrWriter;
           Ev.libmachine_NewClient (Env.MachineBaseDir env) (Env.MachineCertsDir env)]) name).
Proof.
  rewrite Exists_run.
  destruct (Env.logging_OpenLogFile env _ _) as [e|]; cbn -[In]; intros Hin.
  - left. repeat (destruct Hin as [<-|Hin]; [reflexivity|]). destruct Hin.
  - repeat (destruct Hin as [<-|Hin]; [first [left; reflexivity | right; reflexivity]|]).
    destruct Hin.
Qed.

(** A call of the creation branch in a run of Start: the run took that
    branch, after an existence test that did not find the instance. *)
Lemma Start_creation_call h ev :
  creationCall ev = true ->
  In ev (fst (Start env cfg h)) ->
  exists pre post h2,
    fst (Start env cfg h) = pre ++ fst (startNewVM env cfg h2) ++ post /\
    In ev (fst (startNewVM env cfg h2)) /\
    (forall ev', In ev' pre ->
                 mutatesVM ev' = false /\ creationCall ev' = false /\
                 restartCall ev' = false /\ ev' <> Ev.api_Exists (Name cfg) (true, None) /\
                 firstBootCall ev' = false /\
                 forall n r, ev' <> Ev.bundle_GetCachedBundleInfo n r) /\
    (forall ev', In ev' post -> phaseOf ev' <> Some PhPreVM) /\
    (forall r, snd (startNewVM env cfg h2) = Return r ->
               forallb isClientEvent post = true /\ snd (Start env cfg h) = r).
Proof.
  intros Hc Hin.
  destruct (Start_after_preVM env cfg h) as [(e & _ & Hcl & _)|(post & Heq & Hecl & Hpost & Hret)].
  { rewrite forallb_forall in Hcl. apply Hcl in Hin.
    destruct ev; discriminate. }
  set (ecl := fst (createLibMachineClient env (Debug cfg) h)) in *.
  rewrite Heq in Hin.
  assert (Hpre : In ev (fst (preVMStart env cfg (h ++ ecl)))).
  { apply in_app_or in Hin. destruct Hin as [Hin|Hin].
    { rewrite forallb_forall in Hecl. apply Hecl in Hin. destruct ev; discriminate. }
    apply in_app_or in Hin. destruct Hin as [Hin|Hin]; [exact Hin|].
    apply Hpost in Hin. destruct ev; try discriminate Hc; destruct Hin; reflexivity. }
  clear Hin. revert Hpre Heq Hret. rewrite preVMStart_run. cbv zeta.
  pose proof (Exists_calls (Name cfg) (h ++ ecl)) as Hex.
  pose proof (Exists_run env (Name cfg) (h ++ ecl)) as Hrun.
  destruct (Exists env (Name cfg) (h ++ ecl)) as [eex [ex err]]. cbn [fst snd] in *.
  destruct ex; cbn [fst snd]; intros Hpre Heq Hret.
  - exfalso. apply in_app_or in Hpre. destruct Hpre as [Hpre|Hpre].
    + destruct (Hex _ Hpre) as [H|H]; [destruct ev; discriminate|subst ev; discriminate].
    + pose proof (Only_In _ _ _ _ (startExistingVM_calls env cfg) Hpre) as H.
      cbv beta in H. rewrite Hc in H. discriminate.
  - exists (ecl ++ eex), post, ((h ++ ecl) ++ eex).
    split; [rewrite Heq, <- !app_assoc; reflexivity|]. split.
    + apply in_app_or in Hpre. destruct Hpre as [Hpre|Hpre]; [|exact Hpre].
      destruct (Hex _ Hpre) as [H|H]; [destruct ev; discriminate|subst ev; discriminate].
    + split; [|split; [exact Hpost|]].
      * intros ev' Hin'. apply in_app_or in Hin'. destruct Hin' as [Hin'|Hin'].
        { rewrite forallb_forall in Hecl. apply Hecl in Hin'.
          destruct ev'; try discriminate Hin'; repeat split; try discriminate;
            intros; discriminate. }
        destruct (Hex _ Hin') as [H|H].
        { destruct ev'; try discriminate H; repeat split; try discriminate;
            intros; discriminate. }
        subst ev'. repeat split; try reflexivity; [|intros; discriminate].
        intros Heq'. injection Heq' as Heq'.
        destruct (Env.logging_OpenLogFile env _ _) as [e|].
        { inversion Hrun; subst. in_cases Hin'. }
        cbv zeta in Hrun. rewrite Heq' in Hrun. discriminate Hrun.
      * intros r Hr. apply Hret. rewrite Hr. reflexivity.
Qed.

(** A call of the restart of a recorded instance in a run of Start: the
    run took that branch, after an existence test that found the
    instance. *)
Lemma Start_restart_call h ev :
  restartCall ev = true ->
  In ev (fst (Start env cfg h)) ->
  exists pre post h2,
    fst (Start env cfg h) = pre ++ fst (startExistingVM env cfg h2) ++ post /\
    In ev (fst (startExistingVM env cfg h2)) /\
    In (Ev.api_Exists (Name cfg) (true, None)) pre /\
    (forall ev', In ev' pre -> creationCall ev' = false) /\
    (forall ev', In ev' post -> phaseOf ev' <> Some PhPreVM) /\
    (forall r, snd (startExistingVM env cfg h2) = Return r ->
               forallb isClientEvent post = true /\ snd (Start env cfg h) = r).
Proof.
  intros Hc Hin.
  destruct (Start_after_preVM env cfg h) as [(e & _ & Hcl & _)|(post & Heq & Hecl & Hpost & Hret)].
  { rewrite forallb_forall in Hcl. apply Hcl in Hin.
    destruct ev; discriminate. }
  set (ecl := fst (createLibMachineClient env (Debug cfg) h)) in *.
  rewrite Heq in Hin.
  assert (Hpre : In ev (fst (preVMStart env cfg (h ++ ecl)))).
  { apply in_app_or in Hin. destruct Hin as [Hin|Hin].
    { rewrite forallb_forall in Hecl. apply Hecl in Hin. destruct ev; discriminate. }
    apply in_app_or in Hin. destruct Hin as [Hin|Hin]; [exact Hin|].
    apply Hpost in Hin. destruct ev; try discriminate Hc; destruct Hin; reflexivity. }
  clear Hin. revert Hpre Heq Hret. rewrite preVMStart_run. cbv zeta.
  pose proof (Exists_calls (Name cfg) (h ++ ecl)) as Hex.
  pose proof (Exists_run env (Name cfg) (h ++ ecl)) as Hrun.
  destruct (Exists env (Name cfg) (h ++ ecl)) as [eex [ex err]]. cbn [fst snd] in *.
  destruct ex; cbn [fst snd]; intros Hpre Heq Hret.
  - exists (ecl ++ eex), post, ((h ++ ecl) ++ eex).
    split; [rewrite Heq, <- !app_assoc; reflexivity|]. split.
    + apply in_app_or in Hpre. destruct Hpre as [Hpre|Hpre]; [|exact Hpre].
      destruct (Hex _ Hpre) as [H|H]; [destruct ev; discriminate|subst ev; discriminate].
    + split; [|split; [|split; [exact Hpost|]]].
      * apply in_or_app. right.
        destruct (Env.logging_OpenLogFile env _ _) as [e|]; [discriminate Hrun|].
        cbv zeta in Hrun.
        destruct (Env.api_Exists env _ _) as [ex' [e'|]] eqn:Hx; [discriminate Hrun|].
        injection Hrun as -> -> _. do 5 right. left. reflexivity.
      * intros ev' Hin'. apply in_app_or in Hin'. destruct Hin' as [Hin'|Hin'].
        { rewrite forallb_forall in Hecl. apply Hecl in Hin'.
          destruct ev'; try discriminate Hin'; reflexivity. }
        destruct (Hex _ Hin') as [H|H]; [|subst ev'; reflexivity].
        destruct ev'; try discriminate H; reflexivity.
      * intros r Hr. apply Hret. rewrite Hr. reflexivity.
  - exfalso. apply in_app_or in Hpre. destruct Hpre as [Hpre|Hpre].
    + destruct (Hex _ Hpre) as [H|H]; [destruct ev; discriminate|subst ev; discriminate].
    + pose proof (Only_In _ _ _ _ (startNewVM_calls env cfg) Hpre) as H.
      cbv beta in H. rewrite Hc in H. discriminate.
Qed.

End Branches.

Section CreationAndRestart.
Variable env : Env.t.
Variable cfg : StartConfig.

Lemma startNewVM_no_existence_test :
  Only (fun ev => match ev with Ev.api_Exists _ _ => false | _ => true end)
       (startNewVM env cfg).
Proof. only_calls. Qed.

(** X5.  In every run of [Start], the store is asked for a new host only
    with the default driver and driver path and with the serialized machine
    configuration that carries the name, the CPUs and the memory of the
    start configuration, the base name of the bundle path, and the disk
    image, SSH key, kernel and first node of a bundle whose disk image size
    was checked just before, after the pull secret was obtained; and it is
    asked to create a VM only for the host it has just returned. *)
Theorem Start_new_host :
  forall (h : Trace),
    let evs := fst (Start env cfg h) in
    (forall driver path json r,
        In (Ev.api_NewHost driver path json r) evs ->
        driver = Env.DefaultDriver_Driver env /\
        path = Env.DefaultDriver_DriverPath env /\
        exists pullSecret meta node0 others,
          Nodes meta = node0 :: others /\
          Env.marshalDriverOptions env (machineConfigOf env cfg meta node0) = inl json /\
          Before (Ev.GetPullSecret (inl pullSecret)) (Ev.CheckDiskImageSize meta None) evs /\
          Before (Ev.CheckDiskImageSize meta None) (Ev.api_NewHost driver path json r) evs) /\
    (forall vm r,
        In (Ev.api_Create vm r) evs ->
        exists driver path json,
          Infix [Ev.api_NewHost driver path json (inl vm); Ev.api_Create vm r] evs).
Proof.
  intros h evs. subst evs. split.
  - intros driver path json r Hin.
    destruct (Start_creation_call env cfg h (Ev.api_NewHost driver path json r) eq_refl Hin)
      as (pre & post & h2 & Heq & Hnew & _).
    destruct (startNewVM_newHost env cfg _ _ _ _ _ Hnew)
      as (-> & -> & ps & meta & node0 & others & Hn & Hm & B1 & B2).
    split; [reflexivity|]. split; [reflexivity|].
    exists ps, meta, node0, others. rewrite Heq.
    split; [exact Hn|]. split; [exact Hm|].
    split; apply Before_app_r, Before_app_l; assumption.
  - intros vm r Hin.
    destruct (Start_creation_call env cfg h (Ev.api_Create vm r) eq_refl Hin)
      as (pre & post & h2 & Heq & Hnew & _).
    destruct (startNewVM_create env cfg _ _ _ Hnew) as (driver & path & json & HI).
    exists driver, path, json. rewrite Heq. apply Infix_app_r, Infix_app_l, HI.
Qed.

Lemma Start_creation_excludes_restart h ev :
  In ev (fst (Start env cfg h)) ->
  creationCall ev = true ->
  ~ In (Ev.api_Exists (Name cfg) (true, None)) (fst (Start env cfg h)) /\
  forall ev', In ev' (fst (Start env cfg h)) -> restartCall ev' = false.
Proof.
  intros Hin Hc.
  destruct (Start_creation_call env cfg h _ Hc Hin)
    as (pre & post & h2 & Heq & Hnew & Hpre & Hpost & _).
  rewrite Heq. split.
  + intros Hx. apply in_app_or in Hx. destruct Hx as [Hx|Hx].
    { destruct (Hpre _ Hx) as (_ & _ & _ & Hne & _ & _). congruence. }
    apply in_app_or in Hx. destruct Hx as [Hx|Hx].
    { pose proof (Only_In _ _ _ _ startNewVM_no_existence_test Hx) as H.
      discriminate H. }
    apply Hpost in Hx. apply Hx. reflexivity.
  + intros ev' Hx. apply in_app_or in Hx. destruct Hx as [Hx|Hx].
    { apply (Hpre _ Hx). }
    apply in_app_or in Hx. destruct Hx as [Hx|Hx].
    { pose proof (Only_In _ _ _ _ (startNewVM_calls env cfg) Hx) as H.
      cbv beta in H. destruct (restartCall ev'); [discriminate H|reflexivity]. }
    apply Hpost in Hx. destruct ev'; try reflexivity; destruct Hx; reflexivity.
Qed.

(** X6.  A run of [Start] never both creates and restarts: when it makes
    a call of the creation branch (pull secret, bundle extraction, disk
    image check, new host, creation), the store has not reported the
    instance and the run makes no call of the restart (bundle name of the
    driver, driver start, save); when it makes a call of the restart, the
    store has reported the instance and the run makes no call of the
    creation branch. *)
Theorem Start_creates_or_restarts :
  forall (h : Trace) (ev : Event),
    let evs := fst (Start env cfg h) in
    In ev evs ->
    (creationCall ev = true ->
     ~ In (Ev.api_Exists (Name cfg) (true, None)) evs /\
     forall ev', In ev' evs -> restartCall ev' = false) /\
    (restartCall ev = true ->
     In (Ev.api_Exists (Name cfg) (true, None)) evs /\
     forall ev', In ev' evs -> creationCall ev' = false).
Proof.
  intros h ev evs Hin. subst evs. split; intros Hc.
  - exact (Start_creation_excludes_restart h ev Hin Hc).
  - destruct (Start_restart_call env cfg h _ Hc Hin)
      as (pre & post & h2 & Heq & Hold & Hex & Hpre & Hpost & _).
    rewrite Heq. split; [apply in_or_app; left; exact Hex|].
    intros ev' Hx. apply in_app_or in Hx. destruct Hx as [Hx|Hx]; [exact (Hpre _ Hx)|].
    apply in_app_or in Hx. destruct Hx as [Hx|Hx].
    { pose proof (Only_In _ _ _ _ (startExistingVM_calls env cfg) Hx) as H.
      cbv beta in H. destruct (creationCall ev'); [discriminate H|reflexivity]. }
    apply Hpost in Hx. destruct ev'; try reflexivity; destruct Hx; reflexivity.
Qed.

End CreationAndRestart.

Section RestartAndBundle.
Variable env : Env.t.
Variable cfg : StartConfig.

(** X7.  In every run of [Start], the driver is asked to start the VM only
    after it has reported for it a state other than Running and after the
    metadata of the bundle the path names were loaded for the recorded
    instance; and a start that succeeds is followed at once by the save of
    the instance record. *)
Theorem Start_restarts_stopped_instance :
  forall (h : Trace) (host : Host) (r : option error),
    let evs := fst (Start env cfg h) in
    In (Ev.Driver_Start host r) evs ->
    (exists st, st <> Running /\
                Before (Ev.Driver_GetState host (inl st)) (Ev.Driver_Start host r) evs) /\
    (exists meta,
        Before (Ev.bundle_GetCachedBundleInfo (Env.filepath_Base env (BundlePath cfg))
                  (inl meta))
               (Ev.Driver_Start host r) evs) /\
    (r = None -> exists r', Infix [Ev.Driver_Start host None; Ev.api_Save host r'] evs).
Proof.
  intros h host r evs Hin. subst evs.
  destruct (Start_restart_call env cfg h (Ev.Driver_Start host r) eq_refl Hin)
    as (pre & post & h2 & Heq & Hold & _).
  destruct (startExistingVM_restart env cfg _ _ _ Hold)
    as ((st & Hst & B1) & (meta & B2) & Hsave).
  rewrite Heq. split; [|split].
  - exists st. split; [exact Hst|]. apply Before_app_r, Before_app_l, B1.
  - exists meta. apply Before_app_r, Before_app_l, B2.
  - intros Hr. destruct (Hsave Hr) as (r' & HI). exists r'.
    apply Infix_app_r, Infix_app_l, HI.
Qed.

(** X8.  In every run of [Start] that checks the disk image of a bundle
    whose metadata list no node, Start panics on the index of the first
    node: it returns no result, and the run has made no call that changes a
    VM or its record. *)
Theorem Start_bundle_without_nodes :
  forall (h : Trace) (meta : CrcBundleInfo),
    let evs := fst (Start env cfg h) in
    In (Ev.CheckDiskImageSize meta None) evs ->
    Nodes meta = [] ->
    snd (Start env cfg h) = Panicked "index out of range [0] with length 0" /\
    forall ev, In ev evs -> mutatesVM ev = false.
Proof.
  intros h meta evs Hin Hn. subst evs.
  destruct (Start_creation_call env cfg h (Ev.CheckDiskImageSize meta None) eq_refl Hin)
    as (pre & post & h2 & Heq & Hnew & Hpre & _ & Hret).
  destruct (startNewVM_no_nodes env cfg _ _ Hnew Hn) as (Hr & Hmut).
  destruct (Hret _ Hr) as (Hpost & Hres).
  split; [exact Hres|].
  rewrite Heq. intros ev Hev.
  apply in_app_or in Hev. destruct Hev as [Hev|Hev]; [apply (Hpre _ Hev)|].
  apply in_app_or in Hev. destruct Hev as [Hev|Hev]; [apply (Hmut _ Hev)|].
  rewrite forallb_forall in Hpost. apply Hpost in Hev.
  destruct ev; try discriminate Hev; reflexivity.
Qed.

(** X9.  In every run of [Start], a bundle is extracted only from the
    bundle path of the start configuration, and only right after the cache
    had no metadata for the base name of that path; when the cache has the
    metadata, the run extracts nothing. *)
Theorem Start_extracts_on_cache_miss :
  forall (h : Trace),
    let evs := fst (Start env cfg h) in
    (forall path r,
        In (Ev.bundle_Extract path r) evs ->
        path = BundlePath cfg /\
        exists e,
          Infix [Ev.bundle_GetCachedBundleInfo (Env.filepath_Base env (BundlePath cfg)) (inr e);
                 Ev.logging LInfo "Extracting bundle: %s ..."
                   [AStr (Env.filepath_Base env (BundlePath cfg))];
                 Ev.bundle_Extract path r] evs) /\
    (forall name meta,
        In (Ev.bundle_GetCachedBundleInfo name (inl meta)) evs ->
        forall path r, ~ In (Ev.bundle_Extract path r) evs).
Proof.
  intros h evs. subst evs. split.
  - intros path r Hin.
    destruct (Start_creation_call env cfg h (Ev.bundle_Extract path r) eq_refl Hin)
      as (pre & post & h2 & Heq & Hnew & _).
    destruct (startNewVM_extract env cfg _ _ _ Hnew) as (-> & ps & e & rest & Hl).
    split; [reflexivity|]. exists e. rewrite Heq, Hl.
    apply Infix_app_r, Infix_app_l.
    exists [Ev.GetPullSecret (inl ps)], rest. reflexivity.
  - intros name meta Hc path r Hin.
    destruct (Start_creation_call env cfg h (Ev.bundle_Extract path r) eq_refl Hin)
      as (pre & post & h2 & Heq & Hnew & Hpre & Hpost & _).
    rewrite Heq in Hc.
    apply in_app_or in Hc. destruct Hc as [Hc|Hc].
    { destruct (Hpre _ Hc) as (_ & _ & _ & _ & _ & Hne). exact (Hne _ _ eq_refl). }
    apply in_app_or in Hc. destruct Hc as [Hc|Hc].
    { exact (startNewVM_cached env cfg _ _ _ Hc _ _ Hnew). }
    apply Hpost in Hc. apply Hc. reflexivity.
Qed.

End RestartAndBundle.

(** ** First boot *)

Section FirstBoot.
Variable env : Env.t.
Variable cfg : StartConfig.

Lemma startNewVM_no_first_boot :
  Only (fun ev => negb (firstBootCall ev)) (startNewVM env cfg).
Proof. only_calls. Qed.

Lemma firstBootSteps_existing meta runner :
  Only (fun ev => negb (firstBootCall ev)) (firstBootSteps env cfg true meta runner).
Proof. only_calls. Qed.

Lemma startKubelet_existing oc runner proxy ps ip :
  Only (fun ev => negb (firstBootCall ev)) (startKubelet env cfg true oc runner proxy ps ip).
Proof. only_calls. Qed.

Lemma startBody_first_boot h eb fb ev :
  startBody env cfg h = (eb, fb) ->
  In ev eb -> firstBootCall ev = true ->
  exists meta key ps, snd (preVMStart env cfg h) = Next (false, meta, key, ps).
Proof.
  body_cases.
  all: intros Hin Hfb.
  all: repeat (apply in_app_or in Hin; destruct Hin as [Hin|Hin]).
  all: try solve [destruct Hin].
  all: try solve [phase_in Hin; destruct ev; discriminate].
  all: match goal with
       | H : preVMStart _ _ _ = (_, Next (?b, _, _, _)) |- _ => destruct b
       end.
  all: try solve [eexists _, _, _; reflexivity].
  all: exfalso.
  all: match goal with
       | H : firstBootSteps _ _ _ _ _ _ = (?l, _), Hin : In _ ?l |- _ =>
           apply (Only_eq _ _ _ _ _ (firstBootSteps_existing _ _) H) in Hin
       | H : startKubelet _ _ _ _ _ _ _ _ _ = (?l, _), Hin : In _ ?l |- _ =>
           apply (Only_eq _ _ _ _ _ (startKubelet_existing _ _ _ _ _) H) in Hin
       end.
  all: cbv beta in Hin; rewrite Hfb in Hin; discriminate Hin.
Qed.

(** X10.  In every run of [Start], the first-boot steps -- the generation
    and installation of the SSH key, the copy of the kubeconfig, the proxy
    configuration of the cluster with its restarts, the pull secret and the
    cluster ID -- are only made after the VM was created in that run: never
    for an instance the store already had. *)
Theorem Start_first_boot_after_creation :
  forall (h : Trace) (ev : Event),
    let evs := fst (Start env cfg h) in
    In ev evs ->
    firstBootCall ev = true ->
    (exists vm, Before (Ev.api_Create vm None) ev evs) /\
    ~ In (Ev.api_Exists (Name cfg) (true, None)) evs /\
    forall ev', In ev' evs -> restartCall ev' = false.
Proof.
  intros h ev evs Hin Hfb. subst evs.
  assert (Hc : exists vm, In (Ev.api_Create vm None) (fst (Start env cfg h))).
  { destruct (Start_decompose env cfg h) as (ecl & eb & ecu & Heq & H1 & H2 & Hb).
    rewrite Heq in *.
    apply In_body in Hin; [|assumption|assumption|destruct ev; try discriminate Hfb; reflexivity].
    destruct Hb as [(e0 & -> & _)|(fb & Hb & _)]; [destruct Hin|].
    destruct (startBody_first_boot _ _ _ _ Hb Hin Hfb) as (meta & key & ps & Hp).
    destruct (startBody_after_preVM env cfg _ _ _ Hb) as (post & -> & _).
    revert Hp. rewrite (preVMStart_run env cfg). cbv zeta.
    destruct (fst (snd (Exists env (Name cfg) (h ++ ecl)))); cbn [fst snd].
    { destruct (snd (startExistingVM env cfg _)) as [[m k]|r]; discriminate. }
    destruct (startNewVM env cfg _) as [l [[[m k] p]|r]] eqn:Hnew; cbn [fst snd];
      [|discriminate].
    intros _. destruct (startNewVM_done env cfg _ _ _ _ _ Hnew) as (_ & _ & vm & Hvm).
    exists vm. apply in_or_app. right. apply in_or_app. left. apply in_or_app. left.
    apply in_or_app. right. exact Hvm. }
  destruct Hc as (vm & Hvm).
  destruct (Start_creation_excludes_restart env cfg h _ Hvm eq_refl) as (Hno & Hnr).
  split; [|split; assumption].
  exists vm.
  destruct (Start_creation_call env cfg h (Ev.api_Create vm None) eq_refl Hvm)
    as (pre & post & h2 & Heq & Hnew & Hpre & _).
  rewrite Heq in *.
  apply in_app_or in Hin. destruct Hin as [Hin|Hin].
  { destruct (Hpre _ Hin) as (_ & _ & _ & _ & Hf & _). congruence. }
  apply in_app_or in Hin. destruct Hin as [Hin|Hin].
  { apply (Only_In _ _ _ _ startNewVM_no_first_boot) in Hin.
    cbv beta in Hin. rewrite Hfb in Hin. discriminate Hin. }
  apply Before_app_r, Before_In; assumption.
Qed.

End FirstBoot.

(** ** The nameserver *)

Section NameServerOfStart.
Variable env : Env.t.
Variable cfg : StartConfig.

Lemma addNameServer_calls runner h l f :
  addNameServer env cfg runner h = (l, f) ->
  (NameServer cfg = "" -> l = []) /\
  (forall s ns r, In (Ev.network_HasGivenNameserversConfigured s ns r) l ->
     ns = NameServer cfg /\
     (r = inl true -> l = [Ev.network_HasGivenNameserversConfigured s ns r])) /\
  (forall s nss r, In (Ev.network_AddNameserversToInstance s nss r) l ->
     nss = [NameServer cfg] /\
     l = [Ev.network_HasGivenNameserversConfigured s (NameServer cfg) (inl false);
          Ev.logging LInfo "Adding %s as nameserver to the instance ..."
            [AStr (NameServer cfg)];
          Ev.network_AddNameserversToInstance s nss r]).
Proof.
  unfold addNameServer, addNameServerToInstance. run.
  destruct (NameServer cfg =? "") eqn:Hns; cbn -[In].
  - intros [= <- <-]. split; [reflexivity|].
    split; [intros s ns r Hin|intros s nss r Hin]; destruct Hin.
  - apply String.eqb_neq in Hns. repeat step.
    all: repeat match goal with
                | H : negb ?b = _ |- _ => destruct b; try discriminate H; clear H
                end.
    all: intros [= <- <-].
    all: split; [intros Hx; congruence|].
    all: split; [intros s' ns' r' Hin|intros s' nss' r' Hin]; in_cases Hin.
    all: try (injection Hin as <- <- <-).
    all: split; try reflexivity.
    all: try solve [intros [= <-]; reflexivity].
    all: try solve [intros Hx; discriminate Hx].
Qed.

Lemma startBody_nameserver h eb fb ev :
  startBody env cfg h = (eb, fb) ->
  In ev eb -> phaseOf ev = Some PhNameServer ->
  exists runner h' l f pre post,
    addNameServer env cfg runner h' = (l, f) /\ eb = pre ++ l ++ post /\ In ev l /\
    (forall ev', In ev' pre -> phaseOf ev' <> Some PhNameServer) /\
    (forall ev', In ev' post -> phaseOf ev' <> Some PhNameServer).
Proof.
  body_cases.
  all: intros Hin Hph.
  all: repeat (apply in_app_or in Hin; destruct Hin as [Hin|Hin]).
  all: try solve [destruct Hin].
  all: try solve [phase_in Hin; unfold inPhase in Hin; rewrite Hph in Hin; discriminate Hin].
  all: match goal with
       | H : addNameServer _ _ ?r ?h' = (?l, ?f) |- _ =>
           exists r, h', l, f
       end.
  all: match goal with
       | |- exists pre post, _ /\ ?a ++ ?b ++ ?c ++ ?l ++ ?rest = _ /\ _ =>
           exists (a ++ b ++ c), rest
       | |- exists pre post, _ /\ ?a ++ ?b ++ ?c ++ ?l = _ /\ _ =>
           exists (a ++ b ++ c), []
       end.
  all: (split; [assumption|]).
  all: (split; [rewrite <- ?app_assoc, ?app_nil_r; reflexivity|]).
  all: (split; [assumption|]).
  all: split; intros ev' Hev'.
  all: repeat (apply in_app_or in Hev'; destruct Hev' as [Hev'|Hev']).
  all: try solve [destruct Hev'].
  all: phase_in Hev'; apply (inPhase_other _ _ _ Hev'); reflexivity.
Qed.

Lemma nameserver_segment_of_Start h ev :
  In ev (fst (Start env cfg h)) -> phaseOf ev = Some PhNameServer ->
  exists runner h' l f pre post,
    addNameServer env cfg runner h' = (l, f) /\
    fst (Start env cfg h) = pre ++ l ++ post /\ In ev l /\
    (forall ev', In ev' pre -> phaseOf ev' <> Some PhNameServer) /\
    (forall ev', In ev' post -> phaseOf ev' <> Some PhNameServer).
Proof.
  intros Hin Hph.
  destruct (Start_decompose env cfg h) as (ecl & eb & ecu & Heq & H1 & H2 & Hb).
  rewrite Heq in *.
  apply In_body in Hin; [|assumption|assumption|destruct ev; try discriminate Hph; reflexivity].
  destruct Hb as [(e0 & -> & _)|(fb & Hb & _)]; [destruct Hin|].
  destruct (startBody_nameserver _ _ _ _ Hb Hin Hph)
    as (runner & h' & l & f & pre & post & Hl & -> & Hl' & Hpre & Hpost).
  exists runner, h', l, f, (ecl ++ pre), (post ++ ecu).
  split; [exact Hl|]. split; [rewrite <- !app_assoc; reflexivity|].
  split; [exact Hl'|].
  rewrite forallb_forall in H1, H2.
  split; intros ev' Hev'; apply in_app_or in Hev'; destruct Hev' as [Hev'|Hev'].
  - apply H1 in Hev'. destruct ev'; try discriminate Hev'; discriminate.
  - apply Hpre, Hev'.
  - apply Hpost, Hev'.
  - apply H2 in Hev'. destruct ev'; try discriminate Hev'; discriminate.
Qed.

(** X11.  In every run of [Start]: with an empty nameserver in the start
    configuration the instance is neither asked about nor given a
    nameserver; a nameserver is added only when it is the single one of
    the start configuration and the instance has just answered that it does
    not have it, the addition being announced in the log; and once the
    instance answers that it has the nameserver, none is added. *)
Theorem Start_nameserver :
  forall (h : Trace),
    let evs := fst (Start env cfg h) in
    (NameServer cfg = "" ->
     (forall s ns r, ~ In (Ev.network_HasGivenNameserversConfigured s ns r) evs) /\
     (forall s nss r, ~ In (Ev.network_AddNameserversToInstance s nss r) evs)) /\
    (forall s nss r,
        In (Ev.network_AddNameserversToInstance s nss r) evs ->
        nss = [NameServer cfg] /\
        Infix [Ev.network_HasGivenNameserversConfigured s (NameServer cfg) (inl false);
               Ev.logging LInfo "Adding %s as nameserver to the instance ..."
                 [AStr (NameServer cfg)];
               Ev.network_AddNameserversToInstance s nss r] evs) /\
    (forall s ns,
        In (Ev.network_HasGivenNameserversConfigured s ns (inl true)) evs ->
        ns = NameServer cfg /\
        forall s' nss r, ~ In (Ev.network_AddNameserversToInstance s' nss r) evs).
Proof.
  intros h evs. subst evs. split; [|split].
  - intros Hns.
    assert (Hnone : forall ev, In ev (fst (Start env cfg h)) ->
                               phaseOf ev <> Some PhNameServer).
    { intros ev Hin Hph.
      destruct (nameserver_segment_of_Start h ev Hin Hph)
        as (runner & h' & l & f & pre & post & Hl & _ & Hl' & _).
      destruct (addNameServer_calls _ _ _ _ Hl) as (Hempty & _).
      rewrite (Hempty Hns) in Hl'. destruct Hl'. }
    split; intros s x r Hin; exact (Hnone _ Hin eq_refl).
  - intros s nss r Hin.
    destruct (nameserver_segment_of_Start h _ Hin eq_refl)
      as (runner & h' & l & f & pre & post & Hl & Heq & Hl' & _).
    destruct (addNameServer_calls _ _ _ _ Hl) as (_ & _ & Hadd).
    destruct (Hadd _ _ _ Hl') as (-> & Hshape).
    split; [reflexivity|]. rewrite Heq, Hshape.
    apply Infix_app_r, Infix_app_l. exists [], []. reflexivity.
  - intros s ns Hin.
    destruct (nameserver_segment_of_Start h _ Hin eq_refl)
      as (runner & h' & l & f & pre & post & Hl & Heq & Hl' & Hpre & Hpost).
    destruct (addNameServer_calls _ _ _ _ Hl) as (_ & Hhas & _).
    destruct (Hhas _ _ _ Hl') as (-> & Hshape).
    split; [reflexivity|]. intros s' nss r Hadd.
    rewrite Heq, (Hshape eq_refl) in Hadd.
    apply in_app_or in Hadd. destruct Hadd as [Hadd|Hadd].
    { apply Hpre in Hadd. apply Hadd. reflexivity. }
    apply in_app_or in Hadd. destruct Hadd as [Hadd|Hadd].
    { in_cases Hadd. }
    apply Hpost in Hadd. apply Hadd. reflexivity.
Qed.

End NameServerOfStart.

(** ** The SSH key and the kubeconfig *)

Section Keys.
Variable env : Env.t.
Variable cfg : StartConfig.

Lemma startNewVM_meta h l meta key pullSecret :
  startNewVM env cfg h = (l, Next (meta, key, pullSecret)) ->
  In (Ev.CheckDiskImageSize meta None) l.
Proof.
  unfold startNewVM, getCrcBundleInfo, createHost. run. repeat step.
  all: intros H; try discriminate H; injection H as <- <- <- <-.
  all: repeat first [left; reflexivity | right].
Qed.

Lemma preVMStart_done h l ex meta key ps :
  preVMStart env cfg h = (l, Next (ex, meta, key, ps)) ->
  if ex then
    key = Env.GetPrivateKeyPath env /\ exists host, In (Ev.Driver_Start host None) l
  else
    key = SSHKeyPath meta /\ In (Ev.CheckDiskImageSize meta None) l.
Proof.
  rewrite (preVMStart_run env cfg). cbv zeta.
  destruct (fst (snd (Exists env (Name cfg) h))).
  - destruct (startExistingVM env cfg _) as [l' [[m k]|r]] eqn:Hold; cbn [fst snd];
      intros H; [|discriminate H]. injection H as <- <- <- <- <-.
    destruct (startExistingVM_done env cfg _ _ _ _ Hold) as (-> & host & Hh).
    split; [reflexivity|]. exists host. apply in_or_app. right. exact Hh.
  - destruct (startNewVM env cfg _) as [l' [[[m k] p]|r]] eqn:Hnew; cbn [fst snd];
      intros H; [|discriminate H]. injection H as <- <- <- <- <-.
    destruct (startNewVM_done env cfg _ _ _ _ _ Hnew) as (-> & _).
    split; [reflexivity|]. apply in_or_app. right.
    exact (startNewVM_meta _ _ _ _ _ Hnew).
Qed.

Lemma firstBootSteps_calls ex meta runner h l f :
  firstBootSteps env cfg ex meta runner h = (l, f) ->
  (forall s cmd r,
      In (Ev.sshRunner_Run s cmd r) l ->
      s = runner /\
      exists publicKey,
        cmd = "echo '" +++ publicKey +++ "' > /home/core/.ssh/authorized_keys" /\
        Infix [Ev.ssh_GenerateSSHKey (Env.GetPrivateKeyPath env) None;
               Ev.ioutil_ReadFile (Env.GetPublicKeyPath env) (publicKey, None);
               Ev.sshRunner_Run s cmd r] l) /\
  (forall s cmd r,
      In (Ev.sshRunner_RunPrivate s cmd r) l ->
      s = SetPrivateKeyPath (Env.GetPrivateKeyPath env) runner /\
      exists content err,
        cmd = "cat <<EOF | sudo tee /opt/kubeconfig" +++ String "010" content
              +++ String "010" "EOF" /\
        Infix [Ev.crcos_CopyFileContents (KubeConfigPath meta)
                 (Env.filepath_Join env [Env.MachineInstanceDir env; Name cfg; "kubeconfig"])
                 None;
               Ev.ioutil_ReadFile
                 (Env.filepath_Join env [Env.MachineInstanceDir env; Name cfg; "kubeconfig"])
                 (content, err);
               Ev.sshRunner_RunPrivate s cmd r] l) /\
  (forall runner', f = Next runner' ->
      runnerHost runner' = runnerHost runner /\
      runnerKey runner' = if ex then runnerKey runner else Env.GetPrivateKeyPath env).
Proof.
  unfold firstBootSteps, updateSSHKeyPair. run. destruct ex; cbn -[In].
  - intros [= <- <-]. split; [|split].
    + intros s cmd r Hin. destruct Hin.
    + intros s cmd r Hin. destruct Hin.
    + intros runner' [= <-]. split; reflexivity.
  - repeat step.
    all: intros [= <- <-].
    all: split; [|split].
    all: try solve [intros s' cmd' r' Hin; in_cases Hin].
    all: try solve [intros runner' Hr; try discriminate Hr; injection Hr as <-;
                    split; reflexivity].
    all: intros s' cmd' r' Hin; in_cases Hin; inversion Hin; subst; clear Hin.
    all: split; [reflexivity|].
    all: match goal with
         | |- exists _ _, _ => eexists _, _
         | |- exists _, _ => eexists
         end; (split; [reflexivity|]).
    all: match goal with
         | |- Infix _ ?l =>
             first [ exists (firstn 1 l), (skipn 4 l); reflexivity
                   | exists (firstn 5 l), (skipn 8 l); reflexivity ]
         end.
Qed.



End Keys.

(** ** Properties of every call of a function *)

Section EveryRules.
Context (P : Event -> Prop).

Lemma Every_ret {R A} (a : A) : Every P (@ret R A a).
Proof. intros h ev []. Qed.

Lemma Every_exit {R A} (r : R) : Every P (@exit R A r).
Proof. intros h ev []. Qed.

Lemma Every_emit {R} (ev : Event) : P ev -> Every P (@emit R ev).
Proof. intros H h ev' [<-|[]]. exact H. Qed.

Lemma Every_ask {R A} (answer : Trace -> A) (ev : A -> Event) :
  (forall r, P (ev r)) -> Every P (@ask R A answer ev).
Proof. intros H h ev' [<-|[]]. apply H. Qed.

Lemma Every_bind {R A B} (m : M R A) (k : A -> M R B) :
  Every P m -> (forall a, Every P (k a)) -> Every P (bind m k).
Proof.
  intros Hm Hk h ev. rewrite bind_fst. intros Hin.
  apply in_app_or in Hin. destruct Hin as [Hin|Hin]; [exact (Hm _ _ Hin)|].
  destruct (snd (m h)) as [a|r]; [exact (Hk _ _ _ Hin)|destruct Hin].
Qed.

Lemma Every_call {R R'} (f : Fn R') : Every P f -> Every P (@call R R' f).
Proof.
  intros Hf h ev. unfold call. specialize (Hf h ev). destruct (f h). exact Hf.
Qed.

Lemma Every_runFn {R} (body : M R R) : Every P body -> Every P (runFn body).
Proof. intros Hb h ev. rewrite runFn_eq. exact (Hb h ev). Qed.

Lemma Every_only {X} (Q : Event -> bool) (f : Trace -> list Event * X) :
  Only Q f -> (forall ev, Q ev = true -> P ev) -> Every P f.
Proof. intros Hf HQ h ev Hin. apply HQ. exact (Only_In _ _ _ _ Hf Hin). Qed.

Lemma Every_defer {R} (d : R -> Fn R) (rest : M R R) :
  (forall r, Every P (d r)) -> Every P rest -> Every P (defer d rest).
Proof.
  intros Hd Hr h ev. unfold defer. pose proof (Every_runFn rest Hr h) as H1.
  destruct (runFn rest h) as [e1 r]. specialize (Hd r (h ++ e1)).
  destruct (d r (h ++ e1)) as [e2 r']. cbn -[In] in *.
  intros Hin. apply in_app_or in Hin. destruct Hin as [Hin|Hin]; auto.
Qed.

Lemma Every_deferCleanup {R} (c : Cleanup) (r : R) :
  Every P (runCleanup c) -> Every P (deferCleanup c r).
Proof. intros H h. exact (H h). Qed.

Lemma Every_retryLoop {C} (action : Action C) (d : Z) :
  (forall c, Every P (action c)) -> P (Ev.time_Sleep d) ->
  forall n c, Every P (retryLoop n action d c).
Proof.
  intros Ha Hs. induction n as [|n IH]; intros c; cbn [retryLoop].
  - apply Every_runFn, Every_ret.
  - apply Every_runFn, Every_bind; [apply Every_call, Ha|].
    intros [c1 [e|]]; [|apply Every_exit].
    destruct (isRetriable e); [|apply Every_exit].
    destruct n; [apply Every_exit|].
    apply Every_bind; [apply Every_emit, Hs|]. intros _. apply Every_call, IH.
Qed.

Lemma Every_retryAfter {C} (n : Z) (action : Action C) (d : Z) (c : C) :
  (forall c, Every P (action c)) -> P (Ev.time_Sleep d) ->
  Every P (retryAfter n action d c).
Proof. intros Ha Hs. apply Every_retryLoop; assumption. Qed.

Lemma Every_eq {X} (f : Trace -> list Event * X) h l x :
  Every P f -> f h = (l, x) -> forall ev, In ev l -> P ev.
Proof. intros Hf Heq ev Hin. apply (Hf h). rewrite Heq. exact Hin. Qed.

End EveryRules.

(** Walks the text of a function and checks every call it makes; [close]
    proves the property of a call. *)
Ltac every_step close :=
  lazymatch goal with
  | |- Every _ (ret _) => apply Every_ret
  | |- Every _ (exit _) => apply Every_exit
  | |- Every _ (emit _) => apply Every_emit; close
  | |- Every _ (ask _ _) => apply Every_ask; intros; close
  | |- Every _ (bind _ _) => apply Every_bind; [|intros]
  | |- Every _ (call _) => apply Every_call
  | |- Every _ (runFn _) => apply Every_runFn
  | |- Every _ (defer _ _) => apply Every_defer; [intros|]
  | |- Every _ (deferCleanup _ _) => apply Every_deferCleanup
  | |- Every _ (retryAfter _ _ _ _) => apply Every_retryAfter; [intros|close]
  | |- Every _ (match ?x with _ => _ end) => destruct x
  | |- Every _ (let _ := _ in _) => cbv zeta
  | |- Every _ _ => progress (repeat autounfold with gofuns)
  end.

Ltac every_calls close := repeat every_step close.

Section RunnerKeys.
Variable env : Env.t.
Variable cfg : StartConfig.

Ltac through_close :=
  let s' := fresh in let H := fresh in
  intros s' H; cbn in H;
  repeat (destruct H as [H|H]; [subst; reflexivity|]); destruct H.

Lemma preVMStart_through s : Every (through s) (preVMStart env cfg).
Proof. every_calls through_close. Qed.

Lemma determineIPs_through host s : Every (through s) (determineIPs env cfg host).
Proof. every_calls through_close. Qed.

Lemma usageMessage_through c s : Every (through s) (usageMessage c).
Proof. every_calls through_close. Qed.

Lemma connectToVM_runner meta key h l f ev s :
  connectToVM env cfg meta key h = (l, f) ->
  In ev l -> In s (runnersOf ev) ->
  runnerKey s = key /\ In (Ev.api_Load (Name cfg) (inl (runnerHost s))) l /\
  connectionCall ev = true.
Proof.
  unfold connectToVM, getClusterConfig, getProxyConfig. run. repeat step.
  all: intros [= <- <-] Hin Hr; in_cases Hin; subst ev; cbn in Hr; try contradiction.
  all: destruct Hr as [<-|[]].
  all: split; [reflexivity|]; split; [|reflexivity].
  all: repeat first [left; reflexivity | right].
Qed.

Lemma checkCertsValidity_through runner :
  Every (through runner) (checkCertsValidity env cfg runner).
Proof. every_calls through_close. Qed.

Lemma addNameServer_through runner :
  Every (through runner) (addNameServer env cfg runner).
Proof. every_calls through_close. Qed.

Lemma dnsBringUp_through meta host runner ip hostIP :
  Every (through runner) (dnsBringUp env cfg meta host runner ip hostIP).
Proof. every_calls through_close. Qed.

Lemma firstBootSteps_runner ex meta runner h l f ev s :
  firstBootSteps env cfg ex meta runner h = (l, f) ->
  In ev l -> In s (runnersOf ev) ->
  (connectionCall ev = true /\ s = runner /\ ex = false) \/
  (connectionCall ev = false /\
   runnerHost s = runnerHost runner /\ runnerKey s = Env.GetPrivateKeyPath env).
Proof.
  unfold firstBootSteps, updateSSHKeyPair. run. destruct ex; cbn -[In].
  - intros [= <- <-] [].
  - repeat step.
    all: intros [= <- <-] Hin Hr; in_cases Hin; subst ev; cbn in Hr; try contradiction.
    all: destruct Hr as [<-|[]].
    all: first [left; repeat split; reflexivity | right; repeat split; reflexivity].
Qed.

Lemma renewCertificates_through needs meta runner :
  Every (through runner)
        (renewCertificates env cfg needs meta runner (UseOCWithSSH runner)).
Proof. every_calls through_close. Qed.

Lemma startKubelet_through ex runner proxy ps ip :
  Every (through runner)
        (startKubelet env cfg ex (UseOCWithSSH runner) runner proxy ps ip).
Proof. every_calls through_close. Qed.

Lemma confirmKubelet_through runner :
  Every (through runner) (confirmKubelet env cfg (UseOCWithSSH runner) runner).
Proof. every_calls through_close. Qed.

Lemma settleAndApprove_through runner proxy :
  Every (through runner) (settleAndApprove env cfg (UseOCWithSSH runner) proxy).
Proof. every_calls through_close. Qed.

Lemma Start_no_status_query :
  Only (fun ev => negb (statusQuery ev)) (Start env cfg).
Proof. unfold Start. only_calls. Qed.

(** The runner of a call made between the connection and the first-boot
    key exchange is the runner of the connection. *)
Ltac connection_runner Hin Hr Hc Hs :=
  match type of Hin with
  | In _ ?l =>
      match goal with
      | H : checkCertsValidity _ _ _ _ = (l, _) |- _ =>
          pose proof (Every_eq _ _ _ _ _ (checkCertsValidity_through _) H _ Hin _ Hr) as Hs
      | H : addNameServer _ _ _ _ = (l, _) |- _ =>
          pose proof (Every_eq _ _ _ _ _ (addNameServer_through _) H _ Hin _ Hr) as Hs
      | H : dnsBringUp _ _ _ _ _ _ _ _ = (l, _) |- _ =>
          pose proof (Every_eq _ _ _ _ _ (dnsBringUp_through _ _ _ _ _) H _ Hin _ Hr) as Hs
      | H : firstBootSteps _ _ _ _ _ _ = (l, _) |- _ =>
          let Hc' := fresh in
          destruct (firstBootSteps_runner _ _ _ _ _ _ _ _ H Hin Hr)
            as [(_ & Hs & _)|(Hc' & _)];
          [|rewrite Hc in Hc'; discriminate Hc']
      end
  end.

(** The same after the key exchange. *)
Ltac later_runner Hin Hr Hs :=
  match type of Hin with
  | In _ ?l =>
      match goal with
      | H : renewCertificates _ _ _ _ _ _ _ = (l, _) |- _ =>
          pose proof (Every_eq _ _ _ _ _ (renewCertificates_through _ _ _) H _ Hin _ Hr) as Hs
      | H : startKubelet _ _ _ _ _ _ _ _ _ = (l, _) |- _ =>
          pose proof (Every_eq _ _ _ _ _ (startKubelet_through _ _ _ _ _) H _ Hin _ Hr) as Hs
      | H : confirmKubelet _ _ _ _ _ = (l, _) |- _ =>
          pose proof (Every_eq _ _ _ _ _ (confirmKubelet_through _) H _ Hin _ Hr) as Hs
      | H : settleAndApprove _ _ _ _ _ = (l, _) |- _ =>
          pose proof (Every_eq _ _ _ _ _ (settleAndApprove_through _ _) H _ Hin _ Hr) as Hs
      end
  end.

(** Finds in the calls of the body a call of one of its steps. *)
Ltac in_body H :=
  solve [repeat first [ exact H | apply in_or_app; left; exact H | apply in_or_app; right ]].

Lemma startBody_connection_runner h eb fb ev s :
  startBody env cfg h = (eb, fb) ->
  In ev eb -> In s (runnersOf ev) -> connectionCall ev = true ->
  In (Ev.api_Load (Name cfg) (inl (runnerHost s))) eb /\
  ((exists host, In (Ev.Driver_Start host None) eb /\
                 runnerKey s = Env.GetPrivateKeyPath env) \/
   (exists meta, In (Ev.CheckDiskImageSize meta None) eb /\
                 runnerKey s = SSHKeyPath meta)).
Proof.
  body_cases.
  all: intros Hin Hr Hc.
  all: repeat (apply in_app_or in Hin; destruct Hin as [Hin|Hin]).
  all: try solve [destruct Hin].
  all: try solve [phase_in Hin; destruct ev; first [discriminate Hc | discriminate Hin]].
  all: match goal with
       | H : preVMStart _ _ _ = (_, Next (?b, _, _, _)) |- _ =>
           pose proof (preVMStart_done _ _ _ _ _ _ _ _ H) as Hpre
       end.
  all: first
    [ match goal with
      | H : connectToVM _ _ _ _ _ = (?l, _), Hin : In _ ?l |- _ =>
          destruct (connectToVM_runner _ _ _ _ _ _ _ H Hin Hr) as (Hk & Hload & _)
      end
    | connection_runner Hin Hr Hc Hs;
      match goal with
      | H : connectToVM _ _ _ _ _ = (?l, Next _) |- _ =>
          destruct (connectToVM_done _ _ _ _ _ _ _ _ _ _ H) as ((pre & Hl) & Hrun & _);
          match type of Hrun with
          | _ = CreateRunnerWithPrivateKey ?host ?key =>
              assert (Hk : runnerKey s = key) by (rewrite Hs, Hrun; reflexivity);
              assert (Hload : In (Ev.api_Load (Name cfg) (inl (runnerHost s))) l)
                by (rewrite Hs, Hrun, Hl; apply in_or_app; right; left; reflexivity)
          end
      end ].
  all: (split; [in_body Hload|]).
  all: try match type of Hpre with
           | if ?b then _ else _ => is_var b; destruct b
           end.
  all: cbv iota in Hpre.
  all: match type of Hpre with
       | _ /\ (exists _, _) =>
           left; destruct Hpre as (Hkey & host' & Hh); exists host';
           split; [apply in_or_app; left; exact Hh | congruence]
       | _ =>
           right; destruct Hpre as (Hkey & Hm); eexists;
           split; [apply in_or_app; left; exact Hm | congruence]
       end.
Qed.

Lemma startBody_later_runner h eb fb ev s :
  startBody env cfg h = (eb, fb) ->
  In ev eb -> In s (runnersOf ev) ->
  connectionCall ev = false -> statusQuery ev = false ->
  In (Ev.api_Load (Name cfg) (inl (runnerHost s))) eb /\
  runnerKey s = Env.GetPrivateKeyPath env.
Proof.
  body_cases.
  all: intros Hin Hr Hc Hq.
  all: repeat (apply in_app_or in Hin; destruct Hin as [Hin|Hin]).
  all: try solve [destruct Hin].
  all: try solve [phase_in Hin; destruct ev; cbn in Hr;
                  first [contradiction | discriminate Hc | discriminate Hq
                        | discriminate Hin]].
  all: match goal with
       | H : preVMStart _ _ _ = (_, Next (?b, _, _, _)) |- _ =>
           pose proof (preVMStart_done _ _ _ _ _ _ _ _ H) as Hpre
       end.
  all: match goal with
       | H : connectToVM _ _ _ _ _ = (_, Next _) |- _ =>
           destruct (connectToVM_done _ _ _ _ _ _ _ _ _ _ H) as ((pre & Hl) & Hrun & _)
       end.
  all: try match type of Hpre with
           | if ?b then _ else _ => is_var b; destruct b
           end.
  all: cbv iota in Hpre.
  all: first
    [ match goal with
      | H : firstBootSteps _ _ _ _ _ _ = (?l, _), Hin : In _ ?l |- _ =>
          let Hc' := fresh in
          destruct (firstBootSteps_runner _ _ _ _ _ _ _ _ H Hin Hr)
            as [(Hc' & _)|(_ & Hhost & Hkey)];
          [rewrite Hc in Hc'; discriminate Hc'|]
      end
    | later_runner Hin Hr Hs;
      match goal with
      | H : firstBootSteps _ _ _ _ ?r _ = (_, Next _) |- _ =>
          destruct (firstBootSteps_calls _ _ _ _ _ _ _ _ H) as (_ & _ & Hfb);
          destruct (Hfb _ eq_refl) as (Hhost' & Hkey');
          cbv iota in Hkey';
          assert (Hhost : runnerHost s = runnerHost r) by (rewrite Hs; exact Hhost');
          assert (Hkey : runnerKey s = Env.GetPrivateKeyPath env)
            by (rewrite Hs, Hkey';
                first [reflexivity | rewrite Hrun; exact (proj1 Hpre)])
      end ].
  all: match goal with
       | H : connectToVM _ _ _ _ _ = (?l, Next _) |- _ =>
           assert (Hload : In (Ev.api_Load (Name cfg) (inl (runnerHost s))) l)
             by (rewrite Hhost, Hrun, Hl; apply in_or_app; right; left; reflexivity)
       end.
  all: (split; [in_body Hload|exact Hkey]).
Qed.

(** X13.  In every run of [Start], every call that goes through an SSH
    runner -- given to it directly, or inside the oc configuration, the
    systemd commander or the DNS service configuration it is given -- uses
    a runner on the host that the store loaded under the name.  The calls
    made before the key of the instance is replaced (the wait for SSH, the
    certificate probe, the nameserver calls, the calls of the DNS service
    and the command that installs the new public key) use the private key
    of the user for an instance that was restarted, and the key of the
    bundle whose disk image was checked for an instance that was created.
    Every other such call (the copy of the kubeconfig into the VM, the
    renewal of the certificates, the start, the restarts and the check of
    the services, the proxy pushes, the pull secret, the cluster ID, the
    wait for the client-ca file, the deletion of the API server pods, the
    approval of the node certificate and the checks of the proxy
    propagation) uses the private key of the user; the two reads of the
    cluster that Status makes are not made by Start. *)
Theorem Start_runner_keys :
  forall (h : Trace) (ev : Event) (s : Runner),
    let evs := fst (Start env cfg h) in
    In ev evs ->
    In s (runnersOf ev) ->
    statusQuery ev = false /\
    In (Ev.api_Load (Name cfg) (inl (runnerHost s))) evs /\
    if connectionCall ev then
      (exists host, In (Ev.Driver_Start host None) evs /\
                    runnerKey s = Env.GetPrivateKeyPath env) \/
      (exists meta, In (Ev.CheckDiskImageSize meta None) evs /\
                    runnerKey s = SSHKeyPath meta)
    else runnerKey s = Env.GetPrivateKeyPath env.
Proof.
  intros h ev s evs Hin Hr. subst evs.
  assert (Hq : statusQuery ev = false).
  { pose proof (Only_In _ _ _ _ Start_no_status_query Hin) as H.
    cbv beta in H. destruct (statusQuery ev); [discriminate H|reflexivity]. }
  split; [exact Hq|].
  destruct (Start_decompose env cfg h) as (ecl & eb & ecu & Heq & H1 & H2 & Hb).
  rewrite Heq in *.
  apply In_body in Hin;
    [|assumption|assumption|destruct ev; try reflexivity; destruct Hr].
  destruct Hb as [(e0 & -> & _)|(fb & Hb & _)]; [destruct Hin|].
  assert (Hmid : forall x, In x eb -> In x (ecl ++ eb ++ ecu)).
  { intros x Hx. apply in_or_app. right. apply in_or_app. left. exact Hx. }
  destruct (connectionCall ev) eqn:Hc.
  - destruct (startBody_connection_runner _ _ _ _ _ Hb Hin Hr Hc)
      as (Hload & [(host & Hh & Hk)|(meta & Hm & Hk)]).
    + split; [apply Hmid, Hload|]. left. exists host. split; [apply Hmid, Hh|exact Hk].
    + split; [apply Hmid, Hload|]. right. exists meta. split; [apply Hmid, Hm|exact Hk].
  - destruct (startBody_later_runner _ _ _ _ _ Hb Hin Hr Hc Hq) as (Hload & Hk).
    split; [apply Hmid, Hload|exact Hk].
Qed.

End RunnerKeys.

(** ** The queries *)

Section Queries.
Variable env : Env.t.

(** X14.  In every run of [Status] in which the driver reports a state
    other than Running, Status returns without error the name, that state,
    the OpenShift status "Stopped" and a disk use and size of zero; besides
    the set-up and the closing of the client and of the log, the run only
    tests the existence of the instance, loads it and asks for its state:
    nothing is asked of the bundle, of the proxy settings or of the
    cluster. *)
Theorem Status_instance_not_running :
  forall (name : string) (h : Trace) (host : Host) (st : State),
    let evs := fst (Status env name h) in
    In (Ev.Driver_GetState host (inl st)) evs ->
    st <> Running ->
    snd (Status env name h) =
      ({| csName := name; csCrcStatus := State_String st;
          csOpenshiftStatus := "Stopped";
          csDiskUse := 0; csDiskSize := 0; csSuccess := true |}, None) /\
    forall ev, In ev evs ->
      isClientEvent ev = true \/ (exists r, ev = Ev.api_Exists name r) \/
      ev = Ev.api_Load name (inl host) \/ ev = Ev.Driver_GetState host (inl st).
Proof.
  intros name h host st.
  unfold Status, getBundleMetadataFromDriver, getProxyConfig. run.
  repeat step.
  all: intros Hin Hst; in_cases Hin.
  all: injection Hin as <- <-.
  all: try solve [exfalso; match goal with H : IsRunning ?s = true |- _ =>
                    destruct s; try discriminate H; apply Hst; reflexivity end].
  all: split; [reflexivity|].
  all: intros ev Hev; cbn in Hev.
  all: repeat (destruct Hev as [<-|Hev];
               [first [left; reflexivity
                      | right; left; eexists; reflexivity
                      | right; right; left; reflexivity
                      | right; right; right; reflexivity]|]).
  all: destruct Hev.
Qed.

(** X15.  In every run of [Status] in which the operator-status query and
    the root-disk-usage query both succeed, Status returns without error
    the name, the status "Running", the disk use and size reported, and an
    OpenShift status read off the operator flags: "Running (v...)" with the
    version of the bundle the driver names, or "4.x" when that version is
    empty, if Available is set; else "Degraded" if Degraded is set; else
    "Starting" if Progressing is set; and with no flag set it stays
    "Stopped". *)
Theorem Status_operator_flags :
  forall (name : string) (h : Trace) (oc : OcConfig) (ops : OperatorsStatus)
         (s : Runner) (size use : Z) (bundleName : string) (meta : CrcBundleInfo),
    let evs := fst (Status env name h) in
    In (Ev.bundle_GetCachedBundleInfo bundleName (inl meta)) evs ->
    In (Ev.cluster_GetClusterOperatorsStatus oc (ops, None)) evs ->
    In (Ev.cluster_GetRootPartitionUsage s (inl (size, use))) evs ->
    snd (Status env name h) =
      ({| csName := name; csCrcStatus := "Running";
          csOpenshiftStatus :=
            if Available ops then
              "Running (v" +++
                (if OpenshiftVersion meta =? "" then "4.x" else OpenshiftVersion meta) +++ ")"
            else if Degraded ops then "Degraded"
            else if Progressing ops then "Starting"
            else "Stopped";
          csDiskUse := use; csDiskSize := size; csSuccess := true |}, None).
Proof.
  intros name h oc ops s size use bundleName meta.
  unfold Status, getBundleMetadataFromDriver, getProxyConfig. run.
  repeat step.
  all: intros Hb Ho Hd; in_cases Hb; in_cases Ho; in_cases Hd.
  all: injection Hb as <- <-; injection Ho as <- <-; injection Hd as <- <- <-.
  all: unfold operatorsStatusString.
  all: match goal with H : IsRunning ?s = true |- _ =>
         destruct s; try discriminate H end.
  all: repeat match goal with
              | H : ?x = true |- context [?x] => rewrite H
              | H : ?x = false |- context [?x] => rewrite H
              end.
  all: reflexivity.
Qed.

End Queries.

Section Queries2.
Variable env : Env.t.

(** X16.  The queries -- [Status], [IP], [GetConsoleURL], [GetProxyConfig]
    and [Exists] -- only set up and close the logging and the client, read
    the store, the driver, the bundle cache, the bundle and the proxy
    settings of the host, and (Status) read the operators status and the
    disk usage of the cluster; they never start, create, save or remove
    anything and run nothing on the VM. *)
Theorem queries_only_read :
  (forall name, Only queryCall (Status env name)) /\
  (forall ipConfig, Only queryCall (IP env ipConfig)) /\
  (forall name, Only queryCall (GetConsoleURL env name)) /\
  (forall name, Only queryCall (GetProxyConfig env name)) /\
  (forall name, Only queryCall (Exists env name)).
Proof.
  repeat split; intros; unfold Status, IP, GetConsoleURL, GetProxyConfig; only_calls.
Qed.

(** X17.  In every run of [Delete], the driver is asked to remove only the
    host the store has just loaded under the name; Delete reports success,
    and no error, exactly when the store then removed the record; and when
    the store fails to remove the record, Delete fails with that error
    although the driver has already removed the VM. *)
Theorem Delete_outcome :
  forall (name : string) (h : Trace),
    let evs := fst (Delete env name h) in
    let result := snd (Delete env name h) in
    (forall host r, In (Ev.Driver_Remove host r) evs ->
                    Infix [Ev.api_Load name (inl host); Ev.Driver_Remove host r] evs) /\
    (In (Ev.api_Remove name None) evs <->
     result = ({| drName := name; drSuccess := true |}, None)) /\
    (drSuccess (fst result) = true <-> snd result = None) /\
    (forall n e, In (Ev.api_Remove n (Some e)) evs ->
                 result = deleteError name "Cannot remove machine" e /\
                 exists host, In (Ev.Driver_Remove host None) evs).
Proof.
  intros name h. unfold Delete. run. repeat step.
  all: split; [|split; [split|split; [split|]]].
  all: try solve [intros host' r' Hin; in_cases Hin; injection Hin as <- <-;
                  eexists [_; _; _; _; _], _; reflexivity].
  all: try solve [intro Hin; in_cases Hin].
  all: try solve [intro Hx; discriminate Hx].
  all: try solve [intros; repeat first [left; reflexivity | right]].
  all: try solve [intros; reflexivity].
  all: intros n' e' Hin; in_cases Hin; injection Hin as <- <-.
  all: split; [reflexivity|].
  all: eexists; repeat first [left; reflexivity | right].
Qed.

(** X18.  In every run of [IP], the driver is asked for the IP only of the
    host the store has just loaded under the name; IP returns the address
    the driver reports, with the name and no error, and fails with the
    driver's error under the label "Cannot get IP" otherwise. *)
Theorem IP_outcome :
  forall (ipConfig : IPConfig) (h : Trace) (host : Host) (r : string + error),
    let evs := fst (IP env ipConfig h) in
    In (Ev.Driver_GetIP host r) evs ->
    Infix [Ev.api_Load (ipName ipConfig) (inl host); Ev.Driver_GetIP host r] evs /\
    snd (IP env ipConfig h) =
      match r with
      | inl ip => ({| irName := ipName ipConfig; irIP := ip; irSuccess := true |}, None)
      | inr e => ipError (ipName ipConfig) "Cannot get IP" e
      end.
Proof.
  intros ipConfig h host r. unfold IP. run. repeat step.
  all: intros Hin; in_cases Hin; injection Hin as <- <-.
  all: split; [|reflexivity].
  all: match goal with
       | |- Infix _ ?l =>
           first [ exists (firstn 7 l), (skipn 9 l); reflexivity
                 | exists (firstn 3 l), (skipn 5 l); reflexivity
                 | exists (firstn 9 l), (skipn 11 l); reflexivity
                 | exists (firstn 2 l), (skipn 4 l); reflexivity
                 | exists (firstn 10 l), (skipn 12 l); reflexivity ]
       end.
Qed.

End Queries2.

(** The same search over longer lists of calls. *)
Ltac before_scan l n k :=
  lazymatch k with
  | O => fail
  | S ?k' => first [ before_from l n | let n' := constr:(S n) in before_scan l n' k' ]
  end.

Ltac before_far :=
  match goal with
  | |- Before _ _ ?l => before_scan l 0 24
  end.

Section Queries3.
Variable env : Env.t.

(** X19.  In every run of [GetConsoleURL] that reads the proxy settings of
    the host, the query succeeds whatever state the driver reported, also
    for a VM that does not run: it returns that state and the cluster
    configuration made of the kubeconfig path of the cached bundle the
    driver names, the kubeadmin password read from that bundle, the default
    console and API URLs, and the proxy settings, with the base domain of
    the bundle added to the no-proxy list when a proxy is set. *)
Theorem GetConsoleURL_outcome :
  forall (name : string) (h : Trace) (p : ProxyConfig),
    let evs := fst (GetConsoleURL env name h) in
    In (Ev.network_NewProxyConfig (inl p)) evs ->
    exists host st bundleName meta password,
      Before (Ev.api_Load name (inl host)) (Ev.Driver_GetState host (inl st)) evs /\
      Before (Ev.bundle_GetCachedBundleInfo bundleName (inl meta))
             (Ev.GetKubeadminPassword meta (inl password)) evs /\
      snd (GetConsoleURL env name h) =
        ({| crClusterConfig :=
              {| KubeConfig := KubeConfigPath meta;
                 KubeAdminPass := password;
                 WebConsoleURL := Env.DefaultWebConsoleURL env;
                 ClusterAPI := Env.DefaultAPIURL env;
                 ProxyConfig_ := Some (proxyFor (BaseDomain meta) p) |};
            crState := Some st;
            crSuccess := true |}, None).
Proof.
  intros name h p. unfold GetConsoleURL, getBundleMetadataFromDriver, getClusterConfig,
    getProxyConfig. run. repeat step.
  all: intros Hin; in_cases Hin; injection Hin as <-.
  all: eexists _, _, _, _, _.
  all: (split; [before_far|split; [before_far|]]).
  all: unfold proxyFor;
       repeat match goal with
              | H : ?x = true |- context [?x] => rewrite H
              | H : ?x = false |- context [?x] => rewrite H
              end; reflexivity.
Qed.

(** X20.  [GetProxyConfig] never asks the driver for the state of the VM
    and never returns a nil proxy without an error; in every run that
    reads the proxy settings of the host, it returns them, with the base
    domain of the cached bundle the driver names added to the no-proxy list
    when a proxy is set. *)
Theorem GetProxyConfig_outcome :
  forall (name : string) (h : Trace),
    let evs := fst (GetProxyConfig env name h) in
    let result := snd (GetProxyConfig env name h) in
    (forall host r, ~ In (Ev.Driver_GetState host r) evs) /\
    result <> inl None /\
    (forall p, In (Ev.network_NewProxyConfig (inl p)) evs ->
               exists host bundleName meta,
                 Before (Ev.api_Load name (inl host))
                        (Ev.bundle_GetCachedBundleInfo bundleName (inl meta)) evs /\
                 result = inl (Some (proxyFor (BaseDomain meta) p))).
Proof.
  intros name h. unfold GetProxyConfig, getBundleMetadataFromDriver, getClusterConfig,
    getProxyConfig. run. repeat step.
  all: split; [intros host' r' Hin; in_cases Hin|split; [discriminate|]].
  all: intros p' Hin; in_cases Hin; injection Hin as <-.
  all: eexists _, _, _.
  all: (split; [before_far|]).
  all: unfold proxyFor;
       repeat match goal with
              | H : ?x = true |- context [?x] => rewrite H
              | H : ?x = false |- context [?x] => rewrite H
              end; reflexivity.
Qed.

End Queries3.

Section ProxyOfCluster.
Variable env : Env.t.

(** X21.  [configProxyForCluster] with no proxy set makes no call and
    returns no error.  With a proxy set it leaves the proxy with the
    instance IP added to its no-proxy list, and its error is that of the
    restart of kubelet when that restart fails, else that of the restart of
    crio when that one fails, and only when both restarts succeed the error
    of the push that failed, if any: a failed restart replaces the error of
    a failed push. *)
Theorem configProxyForCluster_result :
  forall (oc : OcConfig) (s : Runner) (sd : SystemdCommander)
         (proxy : ProxyConfig) (instanceIP : string) (h : Trace),
    let evs := fst (configProxyForCluster env oc s sd proxy instanceIP h) in
    let result := snd (configProxyForCluster env oc s sd proxy instanceIP h) in
    (IsEnabled proxy = false -> evs = [] /\ result = (proxy, None)) /\
    (IsEnabled proxy = true ->
     fst result = AddNoProxy instanceIP proxy /\
     forall rc rk,
       In (Ev.sd_Restart sd "crio" rc) evs ->
       In (Ev.sd_Restart sd "kubelet" rk) evs ->
       match rk, rc with
       | Some e, _ => snd result = Some e
       | None, Some e => snd result = Some e
       | None, None =>
           forall r1,
             In (Ev.cluster_AddProxyConfigToCluster oc (AddNoProxy instanceIP proxy) r1) evs ->
             match r1 with
             | Some e => snd result = Some e
             | None =>
                 forall r2,
                   In (Ev.cluster_AddProxyToKubeletAndCriO s (AddNoProxy instanceIP proxy) r2)
                      evs ->
                   snd result = r2
             end
       end).
Proof.
  intros oc s sd proxy instanceIP h.
  unfold configProxyForCluster, restartServices. run.
  destruct (IsEnabled proxy) eqn:Hen; cbn -[In].
  2: { split; [intros _; split; reflexivity|discriminate]. }
  split; [discriminate|]. intros _.
  repeat step.
  all: rewrite ?IsEnabled_AddNoProxy, ?Hen in *; try discriminate.
  all: cbn -[In].
  all: repeat step.
  all: split; [reflexivity|].
  all: intros rc rk Hc Hk; in_cases Hc; in_cases Hk.
  all: injection Hc as <-; injection Hk as <-.
  all: try reflexivity.
  all: intros r1 H1; in_cases H1; injection H1 as <-.
  all: try reflexivity.
  all: intros r2 H2; in_cases H2; injection H2 as <-.
  all: reflexivity.
Qed.


End ProxyOfCluster.

(** ** The client and the log file *)

Lemma countEv_none (P Q : Event -> bool) (l : list Event) :
  forallb Q l = true -> (forall ev, Q ev = true -> P ev = false) -> countEv P l = 0.
Proof.
  intros Hl HQ. induction l as [|ev l IH]; [reflexivity|].
  cbn in Hl. apply andb_true_iff in Hl. destruct Hl as [H1 H2].
  unfold countEv in *. cbn. rewrite (HQ _ H1). apply IH, H2.
Qed.

Lemma noClientCall_new (l : list Event) :
  forallb noClientCall l = true -> countEv isNewClient l = 0.
Proof.
  intros H. apply (countEv_none _ _ _ H). intros ev Hev.
  destruct ev; try reflexivity; discriminate Hev.
Qed.

Lemma noClientCall_close (l : list Event) :
  forallb noClientCall l = true -> countEv isClientClose l = 0.
Proof.
  intros H. apply (countEv_none _ _ _ H). intros ev Hev.
  destruct ev; try reflexivity; discriminate Hev.
Qed.

Section Bracket.
Variable env : Env.t.

(** An entry point that creates the client, defers the clean-up, and then
    runs a body in which as many clients are closed as created. *)
Lemma bracket_run {R} (debug : bool) (k : Cleanup * option error -> M R R) (h : Trace) :
  (forall e h', fst (k (UnsetLogging, Some e) h') = [Ev.logging_CloseLogFile]) ->
  (exists body : M R R,
      (forall h', countEv isNewClient (fst (body h')) =
                  countEv isClientClose (fst (body h'))) /\
      k (CloseClientAndUnsetLogging, None) =
        defer (deferCleanup CloseClientAndUnsetLogging) body) ->
  ClosesItsClient (fst (runFn (bind (call (createLibMachineClient env debug)) k) h)).
Proof.
  intros Hfail (body & Hbody & Hk). rewrite runFn_eq. cbn [fst]. rewrite bind_fst.
  unfold call.
  pose proof (createLibMachineClient_run env debug h) as Hcl.
  destruct (createLibMachineClient env debug h) as [ecl [cleanup err]].
  cbn [fst snd].
  assert (Hcases :
    (exists e, err = Some e /\ cleanup = UnsetLogging /\
               countEv isNewClient ecl = 0 /\ countEv isClientClose ecl = 0) \/
    (err = None /\ cleanup = CloseClientAndUnsetLogging /\
     countEv isNewClient ecl = 1 /\ countEv isClientClose ecl = 0)).
  { destruct debug.
    - injection Hcl as -> -> ->. right. repeat split.
    - destruct (Env.logging_OpenLogFile env _ _) as [e|]; injection Hcl as -> -> ->.
      + left. exists e. repeat split.
      + right. repeat split. }
  clear Hcl.
  destruct Hcases as [(e & -> & -> & Hn & Hc)|(-> & -> & Hn & Hc)].
  - rewrite Hfail.
    split; [|split].
    + rewrite !countEv_app, Hn, Hc. reflexivity.
    + exists ecl. reflexivity.
    + rewrite countEv_app, Hn. intros H. exfalso. apply H. reflexivity.
  - rewrite Hk. unfold defer, deferCleanup.
    rewrite runFn_eq. cbn [fst snd]. rewrite runCleanup_run. cbn [fst].
    specialize (Hbody (h ++ ecl)).
    destruct (body (h ++ ecl)) as [eb fb]. cbn [fst snd] in *.
    split; [|split].
    + rewrite !countEv_app, Hn, Hc, Hbody. cbn. lia.
    + exists (ecl ++ eb ++ [Ev.client_Close]). rewrite <- !app_assoc. reflexivity.
    + intros _. exists (ecl ++ eb). rewrite <- !app_assoc. reflexivity.
Qed.

Lemma Only_count {X} (f : Trace -> list Event * X) :
  Only noClientCall f ->
  forall h, countEv isNewClient (fst (f h)) = countEv isClientClose (fst (f h)).
Proof.
  intros H h. rewrite (noClientCall_new _ (H h)), (noClientCall_close _ (H h)).
  reflexivity.
Qed.

Lemma Exists_count name h :
  countEv isNewClient (fst (Exists env name h)) =
  countEv isClientClose (fst (Exists env name h)).
Proof.
  rewrite Exists_run. destruct (Env.logging_OpenLogFile env _ _); reflexivity.
Qed.

Lemma startBody_count cfg h :
  countEv isNewClient (fst (startBody env cfg h)) =
  countEv isClientClose (fst (startBody env cfg h)).
Proof.
  unfold startBody. rewrite bind_fst, countEv_app, countEv_app.
  f_equal.
  - rewrite preVMStart_run. cbv zeta.
    destruct (fst (snd (Exists env (Name cfg) h))); cbn [fst];
      rewrite !countEv_app, Exists_count; f_equal; apply Only_count; only_calls.
  - destruct (snd (preVMStart env cfg h)) as [[[[ex meta] key] ps]|r]; [|reflexivity].
    apply Only_count. only_calls.
Qed.

(** X23.  Every run of [Start], [Status], [Delete], [GetConsoleURL],
    [GetProxyConfig] and [Exists] closes as many clients as it creates,
    ends with the closing of the log file, and closes its client just
    before that when it created one, however the run leaves. *)
Theorem entry_points_close_their_client :
  forall (cfg : StartConfig) (name : string) (h : Trace),
    ClosesItsClient (fst (Start env cfg h)) /\
    ClosesItsClient (fst (Status env name h)) /\
    ClosesItsClient (fst (Delete env name h)) /\
    ClosesItsClient (fst (GetConsoleURL env name h)) /\
    ClosesItsClient (fst (GetProxyConfig env name h)) /\
    ClosesItsClient (fst (Exists env name h)).
Proof.
  intros cfg name h.
  repeat match goal with |- _ /\ _ => split end.
  all: unfold Start, Status, Delete, GetConsoleURL, GetProxyConfig, Exists.
  all: apply bracket_run; [intros e h'; reflexivity|].
  all: eexists; split; [|cbv beta iota; reflexivity].
  all: try apply startBody_count.
  all: apply Only_count; only_calls.
Qed.


End Bracket.

(** * Runs on the sample environments *)

(** Finds a call in the calls of a concrete run. *)
Ltac occurs := cbv; repeat first [left; reflexivity | right].

Lemma getProxyConfig_noProxy_invariant_witness :
  getProxyConfig (Sample.env [Sample.ProxyConfigured]) "crc.testing" [] =
    ([Ev.network_NewProxyConfig (inl Sample.corporateProxy)],
     inl (AddNoProxy ".crc.testing" Sample.corporateProxy)) /\
  IsEnabled (AddNoProxy ".crc.testing" Sample.corporateProxy) = true /\
  In ".crc.testing" (noProxy (AddNoProxy ".crc.testing" Sample.corporateProxy)).
Proof.
  assert (H : getProxyConfig (Sample.env [Sample.ProxyConfigured]) "crc.testing" [] =
    ([Ev.network_NewProxyConfig (inl Sample.corporateProxy)],
     inl (AddNoProxy ".crc.testing" Sample.corporateProxy))) by reflexivity.
  destruct (getProxyConfig_noProxy_invariant _ _ _ _ _ H) as (H1 & H2 & _).
  split; [exact H|]. split.
  - apply H1. left. discriminate.
  - apply H2. left. discriminate.
Defined.

Lemma Delete_removes_record_only_after_driver_witness :
  In (Ev.Driver_Remove Sample.host (Some Sample.boom))
     (fst (Delete (Sample.env [Sample.InstanceRecorded; Sample.DriverRemoveFails]) "crc" [])) /\
  snd (Delete (Sample.env [Sample.InstanceRecorded; Sample.DriverRemoveFails]) "crc" []) =
    deleteError "crc" "Driver cannot remove machine" Sample.boom /\
  In (Ev.api_Remove "crc" None)
     (fst (Delete (Sample.env [Sample.InstanceRecorded]) "crc" [])) /\
  exists host l1 l2,
    fst (Delete (Sample.env [Sample.InstanceRecorded]) "crc" []) =
    l1 ++ Ev.Driver_Remove host None :: Ev.api_Remove "crc" None :: l2.
Proof.
  assert (H1 : In (Ev.Driver_Remove Sample.host (Some Sample.boom))
     (fst (Delete (Sample.env [Sample.InstanceRecorded; Sample.DriverRemoveFails]) "crc" [])))
    by occurs.
  assert (H2 : In (Ev.api_Remove "crc" None)
     (fst (Delete (Sample.env [Sample.InstanceRecorded]) "crc" []))) by occurs.
  split; [exact H1|]. split.
  - exact (proj1 (proj1 (Delete_removes_record_only_after_driver
                           (Sample.env [Sample.InstanceRecorded; Sample.DriverRemoveFails])
                           "crc" []) _ _ H1)).
  - split; [exact H2|].
    exact (proj2 (Delete_removes_record_only_after_driver
                    (Sample.env [Sample.InstanceRecorded]) "crc" []) _ _ H2).
Defined.

Lemma Status_operator_query_failure_witness :
  (exists oc s,
      In (Ev.cluster_GetClusterOperatorsStatus oc (Sample.noFlag, Some Sample.boom))
         (fst (Status (Sample.env [Sample.InstanceRecorded; Sample.OperatorsUnknown]) "crc" [])) /\
      In (Ev.cluster_GetRootPartitionUsage s (inl (32000000000, 9000000000)%Z))
         (fst (Status (Sample.env [Sample.InstanceRecorded; Sample.OperatorsUnknown]) "crc" []))) /\
  snd (Status (Sample.env [Sample.InstanceRecorded; Sample.OperatorsUnknown]) "crc" []) =
    ({| csName := "crc"; csCrcStatus := "Running";
        csOpenshiftStatus := "Not Reachable";
        csDiskUse := 9000000000; csDiskSize := 32000000000;
        csSuccess := true |}, None) /\
  snd (Status (Sample.env [Sample.InstanceRecorded; Sample.OperatorsUnknown;
                           Sample.DiskUsageFails]) "crc" []) =
    statusError "crc" "Cannot get root partition usage" Sample.boom.
Proof.
  assert (H1 : exists oc s,
      In (Ev.cluster_GetClusterOperatorsStatus oc (Sample.noFlag, Some Sample.boom))
         (fst (Status (Sample.env [Sample.InstanceRecorded; Sample.OperatorsUnknown]) "crc" [])) /\
      In (Ev.cluster_GetRootPartitionUsage s (inl (32000000000, 9000000000)%Z))
         (fst (Status (Sample.env [Sample.InstanceRecorded; Sample.OperatorsUnknown]) "crc" []))).
  { eexists _, _. split; occurs. }
  split; [exact H1|]. destruct H1 as (oc & s & Hop & Hdisk). split.
  - exact (proj1 (Status_operator_query_failure
                    (Sample.env [Sample.InstanceRecorded; Sample.OperatorsUnknown]) "crc" [])
                 _ _ _ Hop eq_refl eq_refl eq_refl _ _ _ Hdisk).
  - refine (proj2 (Status_operator_query_failure
                     (Sample.env [Sample.InstanceRecorded; Sample.OperatorsUnknown;
                                  Sample.DiskUsageFails]) "crc" []) _ _ _).
    occurs.
Defined.


Lemma configProxyForCluster_restarts_services_witness :
  IsEnabled Sample.corporateProxy = true /\
  exists pushes rc rk,
    fst (configProxyForCluster (Sample.env [Sample.PushToClusterFails])
           (UseOCWithSSH (Env.CreateRunner (Sample.env []) Sample.host))
           (Env.CreateRunner (Sample.env []) Sample.host)
           (NewInstanceSystemdCommander (Env.CreateRunner (Sample.env []) Sample.host))
           Sample.corporateProxy "192.168.64.2" []) =
    pushes ++
    [Ev.sd_Restart (NewInstanceSystemdCommander (Env.CreateRunner (Sample.env []) Sample.host))
       "crio" rc;
     Ev.sd_Restart (NewInstanceSystemdCommander (Env.CreateRunner (Sample.env []) Sample.host))
       "kubelet" rk].
Proof.
  split; [reflexivity|].
  destruct (configProxyForCluster_restarts_services
              (Sample.env [Sample.PushToClusterFails])
              (UseOCWithSSH (Env.CreateRunner (Sample.env []) Sample.host))
              (Env.CreateRunner (Sample.env []) Sample.host)
              (NewInstanceSystemdCommander (Env.CreateRunner (Sample.env []) Sample.host))
              Sample.corporateProxy "192.168.64.2" [] eq_refl)
    as (pushes & rc & rk & H & _).
  exists pushes, rc, rk. exact H.
Defined.



Lemma Start_bundle_mismatch_witness :
  inspectedBundle
    (fst (Start (Sample.env [Sample.InstanceRecorded; Sample.OtherBundleRecorded])
            Sample.startConfig [])) =
    Some (Sample.host, ("crc_hyperkit_4.5.crcbundle", None)) /\
  "crc_hyperkit_4.5.crcbundle" <>
    Env.filepath_Base (Sample.env [Sample.InstanceRecorded; Sample.OtherBundleRecorded])
      (BundlePath Sample.startConfig) /\
  snd (Start (Sample.env [Sample.InstanceRecorded; Sample.OtherBundleRecorded])
         Sample.startConfig []) =
    startError "crc" "Invalid bundle"
      (Errorf "Bundle '%s' was requested, but the existing VM is using '%s'"
         ["crc_hyperkit_4.6.crcbundle"; "crc_hyperkit_4.5.crcbundle"]) /\
  forallb inspectsOnly
    (fst (Start (Sample.env [Sample.InstanceRecorded; Sample.OtherBundleRecorded])
            Sample.startConfig [])) = true.
Proof.
  assert (Hdiff : "crc_hyperkit_4.5.crcbundle" <>
    Env.filepath_Base (Sample.env [Sample.InstanceRecorded; Sample.OtherBundleRecorded])
      (BundlePath Sample.startConfig)) by (vm_compute; discriminate).
  destruct (Start_bundle_mismatch
              (Sample.env [Sample.InstanceRecorded; Sample.OtherBundleRecorded])
              Sample.startConfig) as [Hrun Hstable].
  destruct (Hstable Sample.host "crc_hyperkit_4.5.crcbundle" Sample.bundle)
    with (h := @nil Event) as (Hb & _).
  - intros t. reflexivity.
  - split; intros t; reflexivity.
  - split; [reflexivity|]. split; intros t; reflexivity.
  - exact Hdiff.
  - destruct (Hrun [] Sample.host "crc_hyperkit_4.5.crcbundle" Hb Hdiff)
      as (H1 & _ & _ & H2).
    split; [exact Hb|]. split; [exact Hdiff|]. split; [|exact H1].
    apply (H2 Sample.bundle). occurs.
Defined.

Lemma Start_already_running_witness :
  inspectedState
    (fst (Start (Sample.env [Sample.InstanceRecorded]) Sample.startConfig [])) =
    Some (Sample.host, inl Running) /\
  snd (Start (Sample.env [Sample.InstanceRecorded]) Sample.startConfig []) =
    Returned ({| srName := "crc"; srKubeletStarted := false;
                 srClusterConfig := ClusterConfig_zero;
                 srStatus := "Running" |}, None) /\
  forallb inspectsOnly
    (fst (Start (Sample.env [Sample.InstanceRecorded]) Sample.startConfig [])) = true /\
  snd (Start (Sample.env [Sample.InstanceRecorded]) Sample.startConfig
         ([] ++ fst (Start (Sample.env [Sample.InstanceRecorded]) Sample.startConfig []))) =
  snd (Start (Sample.env [Sample.InstanceRecorded]) Sample.startConfig []).
Proof.
  destruct (Start_already_running (Sample.env [Sample.InstanceRecorded]) Sample.startConfig)
    as (Hrun & Hsecond & Hstable).
  assert (Hst : forall h,
             inspectedState
               (fst (Start (Sample.env [Sample.InstanceRecorded]) Sample.startConfig h)) =
             Some (Sample.host, inl Running)).
  { apply (Hstable Sample.host "crc_hyperkit_4.6.crcbundle" Sample.bundle).
    - intros t. reflexivity.
    - split; intros t; reflexivity.
    - split; [reflexivity|]. split; intros t; reflexivity.
    - vm_compute. reflexivity.
    - intros t. reflexivity. }
  destruct (Hrun [] Sample.host (Hst [])) as (H1 & H2 & _).
  split; [exact (Hst [])|]. split; [exact H1|]. split; [exact H2|].
  exact (proj1 (Hsecond [] Sample.host Sample.host (Hst []) (Hst _))).
Defined.


Lemma retryAfter_bounded_attempts_witness :
  (1 <= 30)%Z /\
  (exists k, 1 <= k <= 30 /\
             totalSleep (fst (retryAfter 30
                                (determineHostIP (Sample.env []) "192.168.64.2")
                                (2 * time_Second) "" [])) =
             ((Z.of_nat k - 1) * (2 * time_Second))%Z) /\
  countEv isDetermineHostIP
    (fst (determineIPs (Sample.env [Sample.HostIPNeverFound]) Sample.startConfig
            Sample.host [])) = 30 /\
  totalSleep
    (fst (determineIPs (Sample.env [Sample.HostIPNeverFound]) Sample.startConfig
            Sample.host [])) = (29 * (2 * time_Second))%Z.
Proof.
  assert (H1 : (1 <= 30)%Z) by lia.
  split; [exact H1|].
  destruct (retryAfter_bounded_attempts (Sample.env [Sample.HostIPNeverFound])
              Sample.startConfig) as (Hprim & Hip & _ & _).
  split.
  - destruct (proj2 (Hprim _ 30%Z (determineHostIP (Sample.env []) "192.168.64.2")
                       (2 * time_Second)%Z "" []) H1) as (k & Hk & _ & _ & Hsleep).
    exists k. split; [exact Hk|].
    refine (proj1 (proj2 (Hsleep _))).
    intros c' h'. apply determineHostIP_quiet.
  - destruct (proj2 (proj2 (proj2 (Hip Sample.host []))) "192.168.64.2" eq_refl)
      as (Hc & Ht & _).
    + intros t. vm_compute. discriminate.
    + split; [exact Hc | exact Ht].
Defined.

(** ** Further runs *)

Lemma Start_fatal_calls_witness :
  In (Ev.GetPullSecret (inr (Errorf "pull secret not provided" [])))
     (fst (Start (Faults.env [] [Faults.NoPullSecret]) Sample.startConfig [])) /\
  snd (Start (Faults.env [] [Faults.NoPullSecret]) Sample.startConfig []) =
    startError "crc" "Failed to get pull secret" (Errorf "pull secret not provided" []).
Proof.
  assert (H : In (Ev.GetPullSecret (inr (Errorf "pull secret not provided" [])))
     (fst (Start (Faults.env [] [Faults.NoPullSecret]) Sample.startConfig []))) by occurs.
  split; [exact H|].
  exact (Start_fatal_calls (Faults.env [] [Faults.NoPullSecret]) Sample.startConfig
           [] _ _ H eq_refl).
Defined.

Lemma Start_success_requires_witness :
  (exists res,
      snd (Start (Sample.env []) Sample.startConfig []) = Returned (res, None) /\
      srKubeletStarted res = true /\
      Returned (res, None) <> alreadyRunning Sample.startConfig) /\
  exists oc,
    In (Ev.cluster_ApproveNodeCSR oc None)
       (fst (Start (Sample.env []) Sample.startConfig [])).
Proof.
  assert (H : exists res,
      snd (Start (Sample.env []) Sample.startConfig []) = Returned (res, None) /\
      srKubeletStarted res = true /\
      Returned (res, None) <> alreadyRunning Sample.startConfig).
  { eexists. split; [vm_compute; reflexivity|]. split; [reflexivity|].
    vm_compute. discriminate. }
  split; [exact H|]. destruct H as (res & Hres & _ & Hne).
  destruct (Start_success_requires (Sample.env []) Sample.startConfig [] res Hres)
    as [Hrun|(_ & _ & _ & _ & _ & Hoc)]; [destruct (Hne Hrun)|exact Hoc].
Defined.

Lemma Start_succeeds_once_approved_witness :
  (exists oc,
      In (Ev.cluster_ApproveNodeCSR oc None)
         (fst (Start (Sample.env [Sample.ProxyConfigured]) Sample.startConfig []))) /\
  exists res,
    snd (Start (Sample.env [Sample.ProxyConfigured]) Sample.startConfig []) =
    Returned (res, None).
Proof.
  assert (H : exists oc,
      In (Ev.cluster_ApproveNodeCSR oc None)
         (fst (Start (Sample.env [Sample.ProxyConfigured]) Sample.startConfig []))).
  { eexists. occurs. }
  split; [exact H|]. destruct H as (oc & H).
  exact (Start_succeeds_once_approved (Sample.env [Sample.ProxyConfigured])
           Sample.startConfig [] oc H).
Defined.

Lemma Start_kubelet_inactive_witness :
  (exists sd,
      In (Ev.sd_IsActive sd "kubelet" (inl false))
         (fst (Start (Faults.env [] [Faults.KubeletInactive]) Sample.startConfig [])) /\
      exists r,
        Infix [Ev.sd_IsActive sd "kubelet" (inl false);
               Ev.time_Sleep (time_Minute * 3);
               Ev.cluster_ApproveNodeCSR (UseOCWithSSH (sdRunner sd)) r]
              (fst (Start (Faults.env [] [Faults.KubeletInactive]) Sample.startConfig []))) /\
  forall oc r,
    ~ In (Ev.cluster_DeleteOpenshiftAPIServerPods oc r)
         (fst (Start (Faults.env [] [Faults.KubeletInactive]) Sample.startConfig [])).
Proof.
  assert (H : exists sd,
      In (Ev.sd_IsActive sd "kubelet" (inl false))
         (fst (Start (Faults.env [] [Faults.KubeletInactive]) Sample.startConfig []))).
  { eexists. occurs. }
  destruct H as (sd & H).
  destruct (Start_kubelet_inactive (Faults.env [] [Faults.KubeletInactive])
              Sample.startConfig [] sd H) as (_ & Hno & r & HI & _).
  split; [|exact Hno].
  exists sd. split; [exact H|]. exists r. exact HI.
Defined.

Lemma Start_new_host_witness :
  (exists json,
      In (Ev.api_NewHost "hyperkit" "/home/u/.crc/bin" json (inl Sample.host))
         (fst (Start (Sample.env []) Sample.startConfig [])) /\
      Env.marshalDriverOptions (Sample.env [])
        (machineConfigOf (Sample.env []) Sample.startConfig Sample.bundle
           {| KernelCmdLine := "console=ttyS0" |}) = inl json) /\
  exists driver path json,
    Infix [Ev.api_NewHost driver path json (inl Sample.host);
           Ev.api_Create Sample.host None]
          (fst (Start (Sample.env []) Sample.startConfig [])).
Proof.
  split.
  - exists "crc". split; [occurs|reflexivity].
  - refine (proj2 (Start_new_host (Sample.env []) Sample.startConfig []) _ _ _).
    occurs.
Defined.

Lemma Start_creates_or_restarts_witness :
  (In (Ev.GetPullSecret (inl "pull-secret"))
      (fst (Start (Sample.env []) Sample.startConfig [])) /\
   forall ev, In ev (fst (Start (Sample.env []) Sample.startConfig [])) ->
              restartCall ev = false) /\
  (In (Ev.Driver_Start Sample.host None)
      (fst (Start (Sample.env [Sample.InstanceRecorded; Sample.VMStopped])
              Sample.startConfig [])) /\
   forall ev, In ev (fst (Start (Sample.env [Sample.InstanceRecorded; Sample.VMStopped])
                            Sample.startConfig [])) ->
              creationCall ev = false).
Proof.
  assert (H1 : In (Ev.GetPullSecret (inl "pull-secret"))
      (fst (Start (Sample.env []) Sample.startConfig []))) by occurs.
  assert (H2 : In (Ev.Driver_Start Sample.host None)
      (fst (Start (Sample.env [Sample.InstanceRecorded; Sample.VMStopped])
              Sample.startConfig []))) by occurs.
  split; (split; [assumption|]).
  - exact (proj2 (proj1 (Start_creates_or_restarts (Sample.env []) Sample.startConfig
                           [] _ H1) eq_refl)).
  - exact (proj2 (proj2 (Start_creates_or_restarts
                           (Sample.env [Sample.InstanceRecorded; Sample.VMStopped])
                           Sample.startConfig [] _ H2) eq_refl)).
Defined.

Lemma Start_restarts_stopped_instance_witness :
  In (Ev.Driver_Start Sample.host None)
     (fst (Start (Sample.env [Sample.InstanceRecorded; Sample.VMStopped])
             Sample.startConfig [])) /\
  (exists st, st <> Running /\
      Before (Ev.Driver_GetState Sample.host (inl st)) (Ev.Driver_Start Sample.host None)
             (fst (Start (Sample.env [Sample.InstanceRecorded; Sample.VMStopped])
                     Sample.startConfig []))) /\
  exists r', Infix [Ev.Driver_Start Sample.host None; Ev.api_Save Sample.host r']
                   (fst (Start (Sample.env [Sample.InstanceRecorded; Sample.VMStopped])
                           Sample.startConfig [])).
Proof.
  assert (H : In (Ev.Driver_Start Sample.host None)
     (fst (Start (Sample.env [Sample.InstanceRecorded; Sample.VMStopped])
             Sample.startConfig []))) by occurs.
  split; [exact H|].
  destruct (Start_restarts_stopped_instance
              (Sample.env [Sample.InstanceRecorded; Sample.VMStopped])
              Sample.startConfig [] _ _ H) as (Hst & _ & Hsave).
  split; [exact Hst|exact (Hsave eq_refl)].
Defined.

Lemma Start_bundle_without_nodes_witness :
  In (Ev.CheckDiskImageSize Faults.emptyBundle None)
     (fst (Start (Faults.env [] [Faults.BundleWithoutNodes]) Sample.startConfig [])) /\
  Nodes Faults.emptyBundle = [] /\
  snd (Start (Faults.env [] [Faults.BundleWithoutNodes]) Sample.startConfig []) =
    Panicked "index out of range [0] with length 0".
Proof.
  assert (H : In (Ev.CheckDiskImageSize Faults.emptyBundle None)
     (fst (Start (Faults.env [] [Faults.BundleWithoutNodes]) Sample.startConfig [])))
    by occurs.
  split; [exact H|]. split; [reflexivity|].
  exact (proj1 (Start_bundle_without_nodes (Faults.env [] [Faults.BundleWithoutNodes])
                  Sample.startConfig [] _ H eq_refl)).
Defined.

Lemma Start_extracts_on_cache_miss_witness :
  In (Ev.bundle_Extract "/home/u/Downloads/crc_hyperkit_4.6.crcbundle" (inl Sample.bundle))
     (fst (Start (Faults.env [] [Faults.BundleNotCached]) Sample.startConfig [])) /\
  (exists e,
      Infix [Ev.bundle_GetCachedBundleInfo "crc_hyperkit_4.6.crcbundle" (inr e);
             Ev.logging LInfo "Extracting bundle: %s ..." [AStr "crc_hyperkit_4.6.crcbundle"];
             Ev.bundle_Extract "/home/u/Downloads/crc_hyperkit_4.6.crcbundle"
               (inl Sample.bundle)]
            (fst (Start (Faults.env [] [Faults.BundleNotCached]) Sample.startConfig []))) /\
  In (Ev.bundle_GetCachedBundleInfo "crc_hyperkit_4.6.crcbundle" (inl Sample.bundle))
     (fst (Start (Sample.env []) Sample.startConfig [])) /\
  forall path r,
    ~ In (Ev.bundle_Extract path r) (fst (Start (Sample.env []) Sample.startConfig [])).
Proof.
  assert (H1 : In (Ev.bundle_Extract "/home/u/Downloads/crc_hyperkit_4.6.crcbundle"
                     (inl Sample.bundle))
     (fst (Start (Faults.env [] [Faults.BundleNotCached]) Sample.startConfig [])))
    by occurs.
  assert (H2 : In (Ev.bundle_GetCachedBundleInfo "crc_hyperkit_4.6.crcbundle"
                     (inl Sample.bundle))
     (fst (Start (Sample.env []) Sample.startConfig []))) by occurs.
  split; [exact H1|]. split; [|split; [exact H2|]].
  - exact (proj2 (proj1 (Start_extracts_on_cache_miss
                           (Faults.env [] [Faults.BundleNotCached])
                           Sample.startConfig []) _ _ H1)).
  - exact (proj2 (Start_extracts_on_cache_miss (Sample.env []) Sample.startConfig [])
             _ _ H2).
Defined.

Lemma Status_instance_not_running_witness :
  In (Ev.Driver_GetState Sample.host (inl Stopped))
     (fst (Status (Sample.env [Sample.InstanceRecorded; Sample.VMStopped]) "crc" [])) /\
  snd (Status (Sample.env [Sample.InstanceRecorded; Sample.VMStopped]) "crc" []) =
    ({| csName := "crc"; csCrcStatus := "Stopped"; csOpenshiftStatus := "Stopped";
        csDiskUse := 0; csDiskSize := 0; csSuccess := true |}, None).
Proof.
  assert (H : In (Ev.Driver_GetState Sample.host (inl Stopped))
     (fst (Status (Sample.env [Sample.InstanceRecorded; Sample.VMStopped]) "crc" [])))
    by occurs.
  split; [exact H|].
  refine (proj1 (Status_instance_not_running
                   (Sample.env [Sample.InstanceRecorded; Sample.VMStopped]) "crc" []
                   _ _ H _)).
  discriminate.
Defined.

Lemma Status_operator_flags_witness :
  (exists oc s,
      In (Ev.bundle_GetCachedBundleInfo "crc_hyperkit_4.6.crcbundle" (inl Sample.bundle))
         (fst (Status (Sample.env [Sample.InstanceRecorded]) "crc" [])) /\
      In (Ev.cluster_GetClusterOperatorsStatus oc (Sample.available, None))
         (fst (Status (Sample.env [Sample.InstanceRecorded]) "crc" [])) /\
      In (Ev.cluster_GetRootPartitionUsage s (inl (32000000000, 9000000000)%Z))
         (fst (Status (Sample.env [Sample.InstanceRecorded]) "crc" []))) /\
  snd (Status (Sample.env [Sample.InstanceRecorded]) "crc" []) =
    ({| csName := "crc"; csCrcStatus := "Running";
        csOpenshiftStatus := "Running (v4.6)";
        csDiskUse := 9000000000; csDiskSize := 32000000000;
        csSuccess := true |}, None).
Proof.
  assert (H : exists oc s,
      In (Ev.bundle_GetCachedBundleInfo "crc_hyperkit_4.6.crcbundle" (inl Sample.bundle))
         (fst (Status (Sample.env [Sample.InstanceRecorded]) "crc" [])) /\
      In (Ev.cluster_GetClusterOperatorsStatus oc (Sample.available, None))
         (fst (Status (Sample.env [Sample.InstanceRecorded]) "crc" [])) /\
      In (Ev.cluster_GetRootPartitionUsage s (inl (32000000000, 9000000000)%Z))
         (fst (Status (Sample.env [Sample.InstanceRecorded]) "crc" []))).
  { eexists _, _. split; [occurs|split; occurs]. }
  split; [exact H|]. destruct H as (oc & s & Hb & Ho & Hd).
  exact (Status_operator_flags (Sample.env [Sample.InstanceRecorded]) "crc" []
           _ _ _ _ _ _ _ Hb Ho Hd).
Defined.

Lemma Delete_outcome_witness :
  In (Ev.api_Remove "crc" (Some (Errorf "directory not empty" [])))
     (fst (Delete (Faults.env [Sample.InstanceRecorded] [Faults.StoreRemoveFails]) "crc" [])) /\
  snd (Delete (Faults.env [Sample.InstanceRecorded] [Faults.StoreRemoveFails]) "crc" []) =
    deleteError "crc" "Cannot remove machine" (Errorf "directory not empty" []) /\
  (exists host,
      In (Ev.Driver_Remove host None)
         (fst (Delete (Faults.env [Sample.InstanceRecorded] [Faults.StoreRemoveFails])
                 "crc" []))) /\
  In (Ev.api_Remove "crc" None)
     (fst (Delete (Sample.env [Sample.InstanceRecorded]) "crc" [])) /\
  snd (Delete (Sample.env [Sample.InstanceRecorded]) "crc" []) =
    ({| drName := "crc"; drSuccess := true |}, None).
Proof.
  assert (H1 : In (Ev.api_Remove "crc" (Some (Errorf "directory not empty" [])))
     (fst (Delete (Faults.env [Sample.InstanceRecorded] [Faults.StoreRemoveFails])
             "crc" []))) by occurs.
  assert (H2 : In (Ev.api_Remove "crc" None)
     (fst (Delete (Sample.env [Sample.InstanceRecorded]) "crc" []))) by occurs.
  destruct (Delete_outcome (Faults.env [Sample.InstanceRecorded] [Faults.StoreRemoveFails])
              "crc" []) as (_ & _ & _ & Hfail).
  destruct (Hfail _ _ H1) as (Hres & Hdrv).
  split; [exact H1|]. split; [exact Hres|]. split; [exact Hdrv|]. split; [exact H2|].
  exact (proj1 (proj1 (proj2 (Delete_outcome (Sample.env [Sample.InstanceRecorded])
                                "crc" []))) H2).
Defined.

Lemma IP_outcome_witness :
  In (Ev.Driver_GetIP Sample.host (inl "192.168.64.2"))
     (fst (IP (Sample.env [Sample.InstanceRecorded])
             {| ipName := "crc"; ipDebug := false |} [])) /\
  snd (IP (Sample.env [Sample.InstanceRecorded])
         {| ipName := "crc"; ipDebug := false |} []) =
    ({| irName := "crc"; irIP := "192.168.64.2"; irSuccess := true |}, None).
Proof.
  assert (H : In (Ev.Driver_GetIP Sample.host (inl "192.168.64.2"))
     (fst (IP (Sample.env [Sample.InstanceRecorded])
             {| ipName := "crc"; ipDebug := false |} []))) by occurs.
  split; [exact H|].
  exact (proj2 (IP_outcome (Sample.env [Sample.InstanceRecorded])
                  {| ipName := "crc"; ipDebug := false |} [] _ _ H)).
Defined.

Lemma GetConsoleURL_outcome_witness :
  In (Ev.network_NewProxyConfig (inl Sample.corporateProxy))
     (fst (GetConsoleURL (Sample.env [Sample.InstanceRecorded; Sample.VMStopped;
                                      Sample.ProxyConfigured]) "crc" [])) /\
  exists host st bundleName meta password,
    Before (Ev.api_Load "crc" (inl host)) (Ev.Driver_GetState host (inl st))
           (fst (GetConsoleURL (Sample.env [Sample.InstanceRecorded; Sample.VMStopped;
                                            Sample.ProxyConfigured]) "crc" [])) /\
    Before (Ev.bundle_GetCachedBundleInfo bundleName (inl meta))
           (Ev.GetKubeadminPassword meta (inl password))
           (fst (GetConsoleURL (Sample.env [Sample.InstanceRecorded; Sample.VMStopped;
                                            Sample.ProxyConfigured]) "crc" [])) /\
    snd (GetConsoleURL (Sample.env [Sample.InstanceRecorded; Sample.VMStopped;
                                    Sample.ProxyConfigured]) "crc" []) =
      ({| crClusterConfig :=
            {| KubeConfig := KubeConfigPath meta;
               KubeAdminPass := password;
               WebConsoleURL :=
                 Env.DefaultWebConsoleURL
                   (Sample.env [Sample.InstanceRecorded; Sample.VMStopped;
                                Sample.ProxyConfigured]);
               ClusterAPI :=
                 Env.DefaultAPIURL
                   (Sample.env [Sample.InstanceRecorded; Sample.VMStopped;
                                Sample.ProxyConfigured]);
               ProxyConfig_ := Some (proxyFor (BaseDomain meta) Sample.corporateProxy) |};
          crState := Some st;
          crSuccess := true |}, None).
Proof.
  assert (H : In (Ev.network_NewProxyConfig (inl Sample.corporateProxy))
     (fst (GetConsoleURL (Sample.env [Sample.InstanceRecorded; Sample.VMStopped;
                                      Sample.ProxyConfigured]) "crc" []))) by occurs.
  split; [exact H|].
  exact (GetConsoleURL_outcome (Sample.env [Sample.InstanceRecorded; Sample.VMStopped;
                                            Sample.ProxyConfigured]) "crc" [] _ H).
Defined.

Lemma GetProxyConfig_outcome_witness :
  In (Ev.network_NewProxyConfig (inl Sample.corporateProxy))
     (fst (GetProxyConfig (Sample.env [Sample.InstanceRecorded; Sample.ProxyConfigured])
             "crc" [])) /\
  exists host bundleName meta,
    Before (Ev.api_Load "crc" (inl host))
           (Ev.bundle_GetCachedBundleInfo bundleName (inl meta))
           (fst (GetProxyConfig (Sample.env [Sample.InstanceRecorded; Sample.ProxyConfigured])
                   "crc" [])) /\
    snd (GetProxyConfig (Sample.env [Sample.InstanceRecorded; Sample.ProxyConfigured])
           "crc" []) =
      inl (Some (proxyFor (BaseDomain meta) Sample.corporateProxy)).
Proof.
  assert (H : In (Ev.network_NewProxyConfig (inl Sample.corporateProxy))
     (fst (GetProxyConfig (Sample.env [Sample.InstanceRecorded; Sample.ProxyConfigured])
             "crc" []))) by occurs.
  split; [exact H|].
  exact (proj2 (proj2 (GetProxyConfig_outcome
                         (Sample.env [Sample.InstanceRecorded; Sample.ProxyConfigured])
                         "crc" [])) _ H).
Defined.

Lemma configProxyForCluster_result_witness :
  IsEnabled Sample.corporateProxy = true /\
  In (Ev.cluster_AddProxyConfigToCluster
        (UseOCWithSSH (Env.CreateRunner (Sample.env []) Sample.host))
        (AddNoProxy "192.168.64.2" Sample.corporateProxy) (Some Sample.boom))
     (fst (configProxyForCluster
             (Faults.env [Sample.PushToClusterFails] [Faults.KubeletRestartFails])
             (UseOCWithSSH (Env.CreateRunner (Sample.env []) Sample.host))
             (Env.CreateRunner (Sample.env []) Sample.host)
             (NewInstanceSystemdCommander (Env.CreateRunner (Sample.env []) Sample.host))
             Sample.corporateProxy "192.168.64.2" [])) /\
  snd (snd (configProxyForCluster
              (Faults.env [Sample.PushToClusterFails] [Faults.KubeletRestartFails])
              (UseOCWithSSH (Env.CreateRunner (Sample.env []) Sample.host))
              (Env.CreateRunner (Sample.env []) Sample.host)
              (NewInstanceSystemdCommander (Env.CreateRunner (Sample.env []) Sample.host))
              Sample.corporateProxy "192.168.64.2" [])) =
    Some (Errorf "unit failed to restart" []) /\
  snd (snd (configProxyForCluster (Sample.env [Sample.PushToClusterFails])
              (UseOCWithSSH (Env.CreateRunner (Sample.env []) Sample.host))
              (Env.CreateRunner (Sample.env []) Sample.host)
              (NewInstanceSystemdCommander (Env.CreateRunner (Sample.env []) Sample.host))
              Sample.corporateProxy "192.168.64.2" [])) =
    Some Sample.boom.
Proof.
  split; [reflexivity|]. split; [occurs|]. split.
  - refine (proj2 (proj2 (configProxyForCluster_result
                            (Faults.env [Sample.PushToClusterFails]
                               [Faults.KubeletRestartFails])
                            (UseOCWithSSH (Env.CreateRunner (Sample.env []) Sample.host))
                            (Env.CreateRunner (Sample.env []) Sample.host)
                            (NewInstanceSystemdCommander
                               (Env.CreateRunner (Sample.env []) Sample.host))
                            Sample.corporateProxy "192.168.64.2" []) eq_refl)
                  None (Some (Errorf "unit failed to restart" [])) _ _); occurs.
  - refine (proj2 (proj2 (configProxyForCluster_result
                            (Sample.env [Sample.PushToClusterFails])
                            (UseOCWithSSH (Env.CreateRunner (Sample.env []) Sample.host))
                            (Env.CreateRunner (Sample.env []) Sample.host)
                            (NewInstanceSystemdCommander
                               (Env.CreateRunner (Sample.env []) Sample.host))
                            Sample.corporateProxy "192.168.64.2" []) eq_refl)
                  None None _ _ (Some Sample.boom) _); occurs.
Defined.



Lemma Start_first_boot_after_creation_witness :
  In (Ev.cluster_AddPullSecret
        (CreateRunnerWithPrivateKey Sample.host "/home/u/.crc/machines/crc/id_rsa")
        (UseOCWithSSH
           (CreateRunnerWithPrivateKey Sample.host "/home/u/.crc/machines/crc/id_rsa"))
        "pull-secret" None)
     (fst (Start (Sample.env []) Sample.startConfig [])) /\
  (exists vm,
      Before (Ev.api_Create vm None)
             (Ev.cluster_AddPullSecret
                (CreateRunnerWithPrivateKey Sample.host "/home/u/.crc/machines/crc/id_rsa")
                (UseOCWithSSH
                   (CreateRunnerWithPrivateKey Sample.host
                      "/home/u/.crc/machines/crc/id_rsa"))
                "pull-secret" None)
             (fst (Start (Sample.env []) Sample.startConfig []))) /\
  forall ev, In ev (fst (Start (Sample.env [Sample.InstanceRecorded; Sample.VMStopped])
                          Sample.startConfig [])) ->
             firstBootCall ev = false.
Proof.
  assert (H : In (Ev.cluster_AddPullSecret
        (CreateRunnerWithPrivateKey Sample.host "/home/u/.crc/machines/crc/id_rsa")
        (UseOCWithSSH
           (CreateRunnerWithPrivateKey Sample.host "/home/u/.crc/machines/crc/id_rsa"))
        "pull-secret" None)
     (fst (Start (Sample.env []) Sample.startConfig []))) by occurs.
  split; [exact H|]. split.
  - exact (proj1 (Start_first_boot_after_creation (Sample.env []) Sample.startConfig
                    [] _ H eq_refl)).
  - intros ev Hin. destruct (firstBootCall ev) eqn:Hfb; [|reflexivity].
    exfalso.
    apply (proj1 (proj2 (Start_first_boot_after_creation
                           (Sample.env [Sample.InstanceRecorded; Sample.VMStopped])
                           Sample.startConfig [] ev Hin Hfb))).
    occurs.
Defined.

Lemma Start_nameserver_witness :
  (forall s ns r,
      ~ In (Ev.network_HasGivenNameserversConfigured s ns r)
           (fst (Start (Sample.env []) Sample.startConfig []))) /\
  (exists s r,
      In (Ev.network_AddNameserversToInstance s ["10.0.0.53"] r)
         (fst (Start (Sample.env []) Faults.startConfig [])) /\
      Infix [Ev.network_HasGivenNameserversConfigured s "10.0.0.53" (inl false);
             Ev.logging LInfo "Adding %s as nameserver to the instance ..."
               [AStr "10.0.0.53"];
             Ev.network_AddNameserversToInstance s ["10.0.0.53"] r]
            (fst (Start (Sample.env []) Faults.startConfig []))) /\
  (exists s,
      In (Ev.network_HasGivenNameserversConfigured s "10.0.0.53" (inl true))
         (fst (Start (Faults.env [] [Faults.NameserverKnown]) Faults.startConfig []))) /\
  forall s' nss r,
    ~ In (Ev.network_AddNameserversToInstance s' nss r)
         (fst (Start (Faults.env [] [Faults.NameserverKnown]) Faults.startConfig [])).
Proof.
  split; [|split; [|split]].
  - exact (proj1 (proj1 (Start_nameserver (Sample.env []) Sample.startConfig []) eq_refl)).
  - assert (H : exists s r,
      In (Ev.network_AddNameserversToInstance s ["10.0.0.53"] r)
         (fst (Start (Sample.env []) Faults.startConfig []))).
    { eexists _, _. occurs. }
    destruct H as (s & r & H). exists s, r. split; [exact H|].
    exact (proj2 (proj1 (proj2 (Start_nameserver (Sample.env []) Faults.startConfig []))
                    _ _ _ H)).
  - eexists. occurs.
  - assert (H : exists s,
      In (Ev.network_HasGivenNameserversConfigured s "10.0.0.53" (inl true))
         (fst (Start (Faults.env [] [Faults.NameserverKnown]) Faults.startConfig []))).
    { eexists. occurs. }
    destruct H as (s & H).
    exact (proj2 (proj2 (proj2 (Start_nameserver (Faults.env [] [Faults.NameserverKnown])
                                  Faults.startConfig [])) _ _ H)).
Defined.


Lemma Start_runner_keys_witness :
  In (Ev.cluster_WaitForSSH
        (CreateRunnerWithPrivateKey Sample.host "/cache/id_rsa_crc") None)
     (fst (Start (Sample.env []) Sample.startConfig [])) /\
  In (Ev.api_Load "crc" (inl Sample.host))
     (fst (Start (Sample.env []) Sample.startConfig [])) /\
  ((exists host,
       In (Ev.Driver_Start host None) (fst (Start (Sample.env []) Sample.startConfig [])) /\
       "/cache/id_rsa_crc" = Env.GetPrivateKeyPath (Sample.env [])) \/
   (exists meta,
       In (Ev.CheckDiskImageSize meta None)
          (fst (Start (Sample.env []) Sample.startConfig [])) /\
       "/cache/id_rsa_crc" = SSHKeyPath meta)) /\
  (exists s oc,
      In (Ev.cluster_AddPullSecret s oc "pull-secret" None)
         (fst (Start (Sample.env []) Sample.startConfig [])) /\
      runnerKey s = "/home/u/.crc/machines/crc/id_rsa" /\
      runnerKey (ocRunner oc) = "/home/u/.crc/machines/crc/id_rsa").
Proof.
  assert (H : In (Ev.cluster_WaitForSSH
        (CreateRunnerWithPrivateKey Sample.host "/cache/id_rsa_crc") None)
     (fst (Start (Sample.env []) Sample.startConfig []))) by occurs.
  split; [exact H|].
  destruct (Start_runner_keys (Sample.env []) Sample.startConfig [] _
              (CreateRunnerWithPrivateKey Sample.host "/cache/id_rsa_crc") H
              (or_introl eq_refl)) as (_ & Hload & Hkey).
  split; [exact Hload|]. split; [exact Hkey|].
  assert (Hp : exists s oc,
      In (Ev.cluster_AddPullSecret s oc "pull-secret" None)
         (fst (Start (Sample.env []) Sample.startConfig []))).
  { eexists _, _. occurs. }
  destruct Hp as (s & oc & Hp). exists s, oc. split; [exact Hp|]. split.
  - exact (proj2 (proj2 (Start_runner_keys (Sample.env []) Sample.startConfig [] _ s Hp
                           (or_introl eq_refl)))).
  - exact (proj2 (proj2 (Start_runner_keys (Sample.env []) Sample.startConfig [] _
                           (ocRunner oc) Hp (or_intror (or_introl eq_refl))))).
Defined.
